(** * CiviCue ingestion: a shallow embedding of [civic_ingest]

    The Python package [civic_ingest] lists meeting documents of a municipal
    committee, downloads the PDFs and emits one JSON line of metadata per
    document.  This file embeds the package in Rocq and proves properties of
    the embedding.

    Conventions of the embedding.
    - A Python [str] is a [string]; every character stands for the code
      point of the same number, so the embedding covers texts whose code
      points are below 256.  On that range Python's [\s], [\d], [str.lower]
      and [str.strip] are exactly the character classes defined below.
    - [bytes] are [list byte]; a [pathlib.Path] is the list of its parts.
    - Functions that raise return a [result]; functions that touch the file
      system, the network or standard output thread a [world].
    - What the platform or a library decides is a parameter: the reference
      resolution of the URL library, which may raise; whether the C
      library pads the year of [strftime]; how much a buffered file has
      passed on to the disk; what the clock reads.  The line separator of
      the platform is the newline, as on POSIX. *)

From Stdlib Require Import ZArith NArith List String Ascii Bool Lia.
From stdpp Require Import base gmap strings list.
Import ListNotations.
Open Scope string_scope.
Open Scope list_scope.
Set Warnings "-abstract-large-number,-register-all".

(* ================================================================== *)
(** * Part I: definitions                                              *)
(* ================================================================== *)

(** ** Exceptions and results *)

Inductive exn : Type :=
  | RequestError        (* requests: transport failure or HTTP 4xx/5xx *)
  | ValueError
  | IndexError
  | KeyError
  | ValidationError     (* pydantic *)
  | FileExistsError
  | FileNotFoundError
  | NotADirectoryError
  | IsADirectoryError
  | OtherError.         (* any other subclass of Exception *)

Inductive result (A : Type) : Type :=
  | Ok (a : A)
  | Raise (e : exn).
Arguments Ok {A} a.
Arguments Raise {A} e.

Definition rbind {A B} (r : result A) (k : A -> result B) : result B :=
  match r with
  | Ok a => k a
  | Raise e => Raise e
  end.

(** ** Strings as Python [str] *)

Module Str.

Definition code (c : ascii) : N := N_of_ascii c.

(** [str.lower] on one character: A-Z, and the Latin-1 capitals
    U+00C0..U+00DE except the multiplication sign U+00D7. *)
Definition lower_char (c : ascii) : ascii :=
  let n := code c in
  if ((65 <=? n) && (n <=? 90))%N then ascii_of_N (n + 32)
  else if ((192 <=? n) && (n <=? 222) && negb (n =? 215))%N
       then ascii_of_N (n + 32)
  else c.

Fixpoint lower (s : string) : string :=
  match s with
  | EmptyString => EmptyString
  | String c s' => String (lower_char c) (lower s')
  end.

(** [s.endswith(suffix)] *)
Fixpoint endswith (s suffix : string) : bool :=
  if String.eqb s suffix then true
  else match s with
       | EmptyString => false
       | String _ s' => endswith s' suffix
       end.

(** ["/" in s] *)
Fixpoint has_slash (s : string) : bool :=
  match s with
  | EmptyString => false
  | String c s' => Ascii.eqb c "/" || has_slash s'
  end.

(** [s.rsplit("/", 1)[-1]]: what follows the last slash, or all of [s]
    when it has none. *)
Fixpoint rsplit_last (s : string) : string :=
  match s with
  | EmptyString => EmptyString
  | String c s' =>
      if has_slash s' then rsplit_last s'
      else if Ascii.eqb c "/" then s' else s
  end.

(** Python's Unicode white space below code point 256: what [\s] of a
    [str] pattern matches and what [str.strip] removes. *)
Definition is_space (c : ascii) : bool :=
  let n := code c in
  (((9 <=? n) && (n <=? 13)) || ((28 <=? n) && (n <=? 32))
   || (n =? 133) || (n =? 160))%N.

(** [\d] of a [str] pattern below code point 256. *)
Definition is_digit (c : ascii) : bool :=
  let n := code c in ((48 <=? n) && (n <=? 57))%N.

(** [[A-Za-z]] *)
Definition is_alpha (c : ascii) : bool :=
  let n := code c in
  (((65 <=? n) && (n <=? 90)) || ((97 <=? n) && (n <=? 122)))%N.

Fixpoint lstrip (s : string) : string :=
  match s with
  | String c s' => if is_space c then lstrip s' else s
  | EmptyString => EmptyString
  end.

Fixpoint all_space (s : string) : bool :=
  match s with
  | EmptyString => true
  | String c s' => is_space c && all_space s'
  end.

Fixpoint rstrip (s : string) : string :=
  match s with
  | EmptyString => EmptyString
  | String c s' => if all_space s then EmptyString else String c (rstrip s')
  end.

Definition strip (s : string) : string := rstrip (lstrip s).

(** [s.replace(",", "")] *)
Fixpoint remove_commas (s : string) : string :=
  match s with
  | EmptyString => EmptyString
  | String c s' =>
      if Ascii.eqb c "," then remove_commas s' else String c (remove_commas s')
  end.

(** The longest prefix of characters satisfying [p], and the rest. *)
Fixpoint span (p : ascii -> bool) (s : string) : string * string :=
  match s with
  | EmptyString => (EmptyString, EmptyString)
  | String c s' =>
      if p c then let '(a, b) := span p s' in (String c a, b)
      else (EmptyString, s)
  end.

Definition digit_val (c : ascii) : Z := Z.of_N (code c) - 48.

(** [int(s)] for a string of ASCII digits. *)
Fixpoint int_acc (acc : Z) (s : string) : Z :=
  match s with
  | EmptyString => acc
  | String c s' => int_acc (10 * acc + digit_val c)%Z s'
  end.

Definition int_of_digits (s : string) : Z := int_acc 0 s.

Fixpoint all_digits (s : string) : bool :=
  match s with
  | EmptyString => true
  | String c s' => is_digit c && all_digits s'
  end.

Definition digit_char (d : Z) : ascii := ascii_of_N (Z.to_N (48 + d)).

(** Decimal digits of a natural number, most significant first. *)
Fixpoint digits_fuel (fuel : nat) (n : Z) (acc : string) : string :=
  match fuel with
  | O => acc
  | S fuel' =>
      let acc' := String (digit_char (n mod 10)) acc in
      if (n <? 10)%Z then acc' else digits_fuel fuel' (n / 10)%Z acc'
  end.

Definition nat_digits (n : Z) : string :=
  digits_fuel (S (Z.to_nat (Z.log2 n))) n EmptyString.

(** [str(n)] for an [int]. *)
Definition str_of_int (n : Z) : string :=
  if (n <? 0)%Z then String "-" (nat_digits (- n)) else nat_digits n.

(** Zero padding on the left to [w] characters ([%02d], [%04d]). *)
Fixpoint zeros (k : nat) : string :=
  match k with O => EmptyString | S k' => String "0" (zeros k') end.

Definition zfill (w : nat) (s : string) : string :=
  zeros (w - String.length s) +:+ s.

Fixpoint join (sep : string) (l : list string) : string :=
  match l with
  | [] => EmptyString
  | [x] => x
  | x :: l' => x +:+ sep +:+ join sep l'
  end.

End Str.

(** ** The outside world: file system, network, standard output *)

(** A [pathlib.Path], as the tuple of its parts; an absolute path starts
    with the part ["/"]. *)
Abbreviation path := (list string).

Definition path_str (p : path) : string :=
  match p with
  | [] => "."
  | "/" :: rest => "/" +:+ Str.join "/" rest
  | _ => Str.join "/" p
  end.

Inductive node : Type :=
  | File (content : list Byte.byte)
  | Dir.

(** One row of a listing table, as the HTML library presents it:
    [row.find_all("td")] is the list of cells, a cell has its stripped text
    ([get_text(strip=True)]) and its anchors in document order, each with
    its [href] attribute if it has one. *)
Record cell : Type := { cell_text : string; cell_anchors : list (option string) }.
Abbreviation row := (list cell).

(** [soup.find("table")] and, for the table found, [table.find_all("tr")]. *)
Record document : Type := { first_table : option (list row) }.

(** A response: its status, its body, and what the HTML parser makes of
    its text, which is a document or the exception the parser raises on
    markup it rejects. *)
Record response : Type := {
  status : Z;
  content : list Byte.byte;   (* r.content *)
  soup : result document      (* BeautifulSoup(r.text, "html.parser") *)
}.

Inductive http_result : Type :=
  | Unreachable                 (* connection error or timeout *)
  | Responds (r : response).

Record request : Type := { req_url : string; req_user_agent : string; req_timeout : Z }.

Record world : Type := {
  fs : gmap path node;
  remote : string -> http_result;   (* what each URL answers *)
  requests : list request;          (* every GET issued so far, oldest first *)
  stdout : list string              (* lines printed so far, oldest first *)
}.

Definition set_fs (w : world) (fs' : gmap path node) : world :=
  {| fs := fs'; remote := remote w; requests := requests w; stdout := stdout w |}.

(** Computations over the world that may raise. *)
Definition io (A : Type) : Type := world -> result A * world.

Definition ret {A} (a : A) : io A := fun w => (Ok a, w).
Definition throw {A} (e : exn) : io A := fun w => (Raise e, w).
Definition bind {A B} (m : io A) (k : A -> io B) : io B :=
  fun w => match m w with
           | (Ok a, w') => k a w'
           | (Raise e, w') => (Raise e, w')
           end.

Notation "'let*' x := m 'in' k" := (bind m (fun x => k))
  (at level 10, x name, m at level 100, k at level 200).
Notation "'do*' m 'in' k" := (bind m (fun _ => k))
  (at level 10, m at level 100, k at level 200).

Definition print (line : string) : io unit :=
  fun w => (Ok tt, {| fs := fs w; remote := remote w; requests := requests w;
                      stdout := stdout w ++ [line] |}).

(** [requests.get(url, headers={"User-Agent": ua}, timeout=t)] followed by
    [raise_for_status()]: the request is issued, and a transport failure or
    a status in 400..599 raises. *)
Definition http_get (url ua : string) (timeout : Z) : io response :=
  fun w =>
    let w' := {| fs := fs w; remote := remote w;
                 requests := requests w ++ [{| req_url := url; req_user_agent := ua;
                                               req_timeout := timeout |}];
                 stdout := stdout w |} in
    match remote w url with
    | Unreachable => (Raise RequestError, w')
    | Responds r =>
        if ((400 <=? status r) && (status r <? 600))%Z
        then (Raise RequestError, w') else (Ok r, w')
    end.

(** [p.mkdir(parents=True, exist_ok=True)]: every missing ancestor and [p]
    itself become directories; a file in the way raises. *)
Fixpoint mkdir_from (pre : path) (rest : list string) (m : gmap path node)
  : result (gmap path node) :=
  match rest with
  | [] => Ok m
  | c :: rest' =>
      let p := pre ++ [c] in
      match m !! p with
      | Some Dir => mkdir_from p rest' m
      | Some (File _) =>
          Raise (match rest' with [] => FileExistsError | _ => NotADirectoryError end)
      | None => mkdir_from p rest' (<[p := Dir]> m)
      end
  end.

(** Every part of [rest] below [pre] is a directory of [m]. *)
Fixpoint all_dirs (pre : path) (rest : list string) (m : gmap path node) : bool :=
  match rest with
  | [] => true
  | c :: rest' =>
      match m !! (pre ++ [c]) with
      | Some Dir => all_dirs (pre ++ [c]) rest' m
      | _ => false
      end
  end.

Definition mkdir_parents (p : path) : io unit :=
  fun w => match mkdir_from [] p (fs w) with
           | Ok m => (Ok tt, set_fs w m)
           | Raise e => (Raise e, w)
           end.

(** [p.exists()]; the empty path is the current directory. *)
Definition exists_ (p : path) : io bool :=
  fun w => (Ok (bool_decide (p = [] \/ is_Some (fs w !! p))), w).

(** [p.parent] *)
Definition parent (p : path) : path := removelast p.

(** The walk towards a path that is not on the disk: it stops at the first
    part that is missing, or at a regular file with parts still to come.
    [file_above] tells the second case. *)
Fixpoint file_above (pre : path) (rest : list string) (m : gmap path node) : bool :=
  match rest with
  | [] => false
  | c :: rest' =>
      match rest' with
      | [] => false
      | _ :: _ =>
          match m !! (pre ++ [c]) with
          | Some (File _) => true
          | Some Dir => file_above (pre ++ [c]) rest' m
          | None => false
          end
      end
  end.

(** The error of opening a path that is not on the disk. *)
Definition missing_error (p : path) (m : gmap path node) : exn :=
  if file_above [] p m then NotADirectoryError else FileNotFoundError.

(** Opening [p] for writing creates or truncates the file; the directory
    that holds it must exist. *)
Definition open_w (p : path) : io unit :=
  fun w =>
    if bool_decide (p = []) then (Raise IsADirectoryError, w) else
    match fs w !! p with
    | Some Dir => (Raise IsADirectoryError, w)
    | _ =>
        match parent p, fs w !! parent p with
        | [], _ | _, Some Dir => (Ok tt, set_fs w (<[p := File []]> (fs w)))
        | _, Some (File _) => (Raise NotADirectoryError, w)
        | _, None => (Raise (missing_error p (fs w)), w)
        end
    end.

(** [f.write(data)] on a binary file opened for writing, in a [with] block
    that is left right after: when the block is left the data are on the
    disk, after what was written since the file was opened. *)
Definition write (p : path) (data : list Byte.byte) : io unit :=
  fun w =>
    match fs w !! p with
    | Some (File old) => (Ok tt, set_fs w (<[p := File (old ++ data)]> (fs w)))
    | _ => (Raise OtherError, w)
    end.

(** What [open("rb")] and reading to the end give for a path of a disk.
    The empty path is the current directory. *)
Definition read_result (m : gmap path node) (p : path) : result (list Byte.byte) :=
  match m !! p with
  | Some (File data) => Ok data
  | Some Dir => Raise IsADirectoryError
  | None =>
      Raise (if bool_decide (p = []) then IsADirectoryError else missing_error p m)
  end.

Definition read_bytes (p : path) : io (list Byte.byte) :=
  fun w => (read_result (fs w) p, w).

(** ** PDF acquisition: [sfbos_extractor.download_pdf] *)

Definition default_user_agent : string := "Mozilla/5.0 (civic-ingest)".

(** The local file name derived from a URL. *)
Definition derived_name (url : string) : string :=
  let name := Str.rsplit_last url in
  if negb (Str.endswith (Str.lower name) ".pdf") then name +:+ ".pdf" else name.

(** [headers or {"User-Agent": ...}], a header set being its user agent. *)
Definition headers_or_default (headers : option string) : string :=
  match headers with
  | Some ua => ua
  | None => default_user_agent
  end.

Definition download_pdf (url : string) (dest_dir : path) (headers : option string)
  : io path :=
  do* mkdir_parents dest_dir in
  let name := derived_name url in
  let p := dest_dir ++ [name] in
  let* present := exists_ p in
  if present then ret p
  else
    let* r := http_get url (headers_or_default headers) 60 in
    do* open_w p in
    do* write p (content r) in
    ret p.

(** ** Listing extractor: [sfbos_extractor.fetch_listing] *)

Record FetchConfig : Type := {
  since_year : Z;
  doc_type : string;
  user_agent : string
}.

Definition default_config : FetchConfig :=
  {| since_year := 2018; doc_type := "minutes"; user_agent := default_user_agent |}.

Definition with_doc_type (cfg : FetchConfig) (dt : string) : FetchConfig :=
  {| since_year := since_year cfg; doc_type := dt; user_agent := user_agent cfg |}.

(** A [datetime.datetime] without time zone. *)
Record datetime : Type := {
  year : Z; month : Z; day : Z;
  hour : Z; minute : Z; second : Z; microsecond : Z
}.

(** What [strptime] builds from a format without time fields. *)
Definition midnight (y m d : Z) : datetime :=
  {| year := y; month := m; day := d;
     hour := 0; minute := 0; second := 0; microsecond := 0 |}.

Module DateRe.

(** The pattern [[A-Za-z]+\s+\d{1,2},?\s+\d{4}] tried at the start of [s];
    the result is the text matched.  Each quantifier is greedy, and since
    letters, white space, digits and the comma are disjoint classes and
    each piece is followed by a piece of another class, giving characters
    back never turns a failure into a match: the greedy choice is the only
    one the backtracking matcher can succeed with. *)
Definition match_here (s : string) : option string :=
  let '(letters, r1) := Str.span Str.is_alpha s in
  if String.eqb letters "" then None else
  let '(ws1, r2) := Str.span Str.is_space r1 in
  if String.eqb ws1 "" then None else
  let day_rest :=
    match r2 with
    | String d1 (String d2 r3) =>
        if Str.is_digit d1 then
          if Str.is_digit d2 then Some (String d1 (String d2 ""), r3)
          else Some (String d1 "", String d2 r3)
        else None
    | String d1 r3 => if Str.is_digit d1 then Some (String d1 "", r3) else None
    | EmptyString => None
    end in
  match day_rest with
  | None => None
  | Some (dd, r3) =>
      let '(comma, r4) :=
        match r3 with
        | String c r => if Ascii.eqb c "," then (",", r) else ("", r3)
        | EmptyString => ("", r3)
        end in
      let '(ws2, r5) := Str.span Str.is_space r4 in
      if String.eqb ws2 "" then None else
      match r5 with
      | String y1 (String y2 (String y3 (String y4 _))) =>
          if Str.is_digit y1 && Str.is_digit y2 && Str.is_digit y3 && Str.is_digit y4
          then Some (letters +:+ ws1 +:+ dd +:+ comma +:+ ws2
                     +:+ String y1 (String y2 (String y3 (String y4 ""))))
          else None
      | _ => None
      end
  end.

(** [re.search(pattern, s)]: the match at the leftmost position that has
    one; [m.group(1)] is the whole match. *)
Fixpoint search (s : string) : option string :=
  match match_here s with
  | Some g => Some g
  | None =>
      match s with
      | EmptyString => None
      | String _ s' => search s'
      end
  end.

End DateRe.

Module Strptime.

Definition month_names : list string :=
  ["january"; "february"; "march"; "april"; "may"; "june"; "july";
   "august"; "september"; "october"; "november"; "december"].

(** The number of the month whose full English name is [name], 1 to 12. *)
Fixpoint index_of (name : string) (l : list string) (i : Z) : option Z :=
  match l with
  | [] => None
  | x :: l' => if String.eqb x name then Some i else index_of name l' (i + 1)%Z
  end.

Definition month_of_name (name : string) : option Z :=
  index_of name month_names 1.

Definition is_leap (y : Z) : bool :=
  ((y mod 4 =? 0) && (negb (y mod 100 =? 0) || (y mod 400 =? 0)))%Z.

Definition days_in_month (y m : Z) : Z :=
  if (m =? 2)%Z then (if is_leap y then 29 else 28)
  else if ((m =? 4) || (m =? 6) || (m =? 9) || (m =? 11))%Z then 30
  else 31.

(** [datetime.strptime(s, "%B %d %Y")].  The format compiles to
    [(january|...|december)\s+(3[0-1]|[1-2]\d|0[1-9]|[1-9]| [1-9])\s+(\d\d\d\d)],
    matched case-insensitively at the start of [s], and the match has to
    reach the end of [s].  The month name is followed by white space, so
    it is the whole leading run of letters; the day is followed by white
    space, so it is the whole run of digits, one or two of them, with a
    value from 1 to 31; then year 0 and days the month does not have are
    rejected when the date is built.  Every failure is a [ValueError]. *)
Definition strptime (s : string) : result datetime :=
  let '(letters, r1) := Str.span Str.is_alpha s in
  match month_of_name (Str.lower letters) with
  | None => Raise ValueError
  | Some m =>
      let '(ws1, r2) := Str.span Str.is_space r1 in
      if String.eqb ws1 "" then Raise ValueError else
      let '(dd, r3) := Str.span Str.is_digit r2 in
      let d := Str.int_of_digits dd in
      if negb (((String.length dd =? 1)%nat || (String.length dd =? 2)%nat)
               && (1 <=? d)%Z && (d <=? 31)%Z)
      then Raise ValueError else
      let '(ws2, r4) := Str.span Str.is_space r3 in
      if String.eqb ws2 "" then Raise ValueError else
      match r4 with
      | String y1 (String y2 (String y3 (String y4 EmptyString))) =>
          if Str.is_digit y1 && Str.is_digit y2 && Str.is_digit y3 && Str.is_digit y4
          then
            let y := Str.int_of_digits (String y1 (String y2 (String y3 (String y4 "")))) in
            if ((1 <=? y) && (d <=? days_in_month y m))%Z
            then Ok (midnight y m d)
            else Raise ValueError
          else Raise ValueError
      | _ => Raise ValueError
      end
  end.

(** [dt.strftime("%Y-%m-%d")].  The year is formatted by the C library:
    some pad it with zeros to four digits, others (glibc) write a year
    below 1000 with the digits it has.  [pad_year] tells which. *)
Definition strftime (pad_year : bool) (dt : datetime) : string :=
  (if pad_year then Str.zfill 4 (Str.str_of_int (year dt))
   else Str.str_of_int (year dt)) +:+ "-" +:+
  Str.zfill 2 (Str.str_of_int (month dt)) +:+ "-" +:+
  Str.zfill 2 (Str.str_of_int (day dt)).

End Strptime.

(** [re.compile(r"\.pdf$", re.I).search(href)]: [$] matches at the end of
    the string and also just before a newline that ends it. *)
Definition href_is_pdf (href : string) : bool :=
  Str.endswith (Str.lower href) ".pdf"
  || Str.endswith (Str.lower href) (".pdf" +:+ String (ascii_of_N 10) "").

(** [file_td.find("a", href=...)] followed by [link.get("href")]: the
    [href] of the first anchor that has one matching the pattern. *)
Fixpoint find_pdf_link (anchors : list (option string)) : option string :=
  match anchors with
  | [] => None
  | Some href :: rest => if href_is_pdf href then Some href else find_pdf_link rest
  | None :: rest => find_pdf_link rest
  end.

Section Listing.

(** [requests.compat.urljoin], the URL library's reference resolution: it
    returns the resolved URL or raises, as it does on a reference whose
    host part is malformed. *)
Variable urljoin : string -> string -> result string.
(** Whether the platform pads the year of [strftime]. *)
Variable pad_year : bool.

Variable base_url : string.
Variable cfg : FetchConfig.

(** The body of the loop for one row: [Ok None] is [continue], [Ok (Some
    e)] is [out.append(e)]. *)
Definition fetch_row (cols : row) : result (option (string * string)) :=
  if (length cols <? 3)%nat then Ok None else
  match cols !! 0%nat, cols !! 1%nat, cols !! 2%nat with
  | Some c0, Some c1, Some c2 =>
      let date_text := cell_text c0 in
      match DateRe.search date_text with
      | None => Ok None
      | Some g =>
          rbind (Strptime.strptime (Str.remove_commas g)) (fun dt =>
            if (year dt <? since_year cfg)%Z then Ok None else
            let file_td :=
              if String.eqb (Str.lower (doc_type cfg)) "minutes" then c2 else c1 in
            match find_pdf_link (cell_anchors file_td) with
            | None => Ok None
            | Some href =>
                if String.eqb href "" then Ok None
                else
                  rbind (urljoin base_url href) (fun absolute =>
                    Ok (Some (Strptime.strftime pad_year dt, absolute)))
            end)
      end
  | _, _, _ => Raise IndexError
  end.

Fixpoint rows_loop (rows : list row) (out : list (string * string))
  : result (list (string * string)) :=
  match rows with
  | [] => Ok out
  | r :: rest =>
      match fetch_row r with
      | Raise e => Raise e
      | Ok None => rows_loop rest out
      | Ok (Some e) => rows_loop rest (out ++ [e])
      end
  end.

Definition fetch_listing : io (list (string * string)) :=
  let* r := http_get base_url (user_agent cfg) 30 in
  match soup r with
  | Raise e => throw e
  | Ok doc =>
      match first_table doc with
      | None => ret []
      | Some trs =>
          let rows := drop 1 trs in
          fun w => (rows_loop rows [], w)
      end
  end.

End Listing.

(** The cell in which the link is looked up. *)
Definition selected_cell (cfg : FetchConfig) (c1 c2 : cell) : cell :=
  if String.eqb (Str.lower (doc_type cfg)) "minutes" then c2 else c1.

(** The entries a row adds to the list: none or one. *)
Definition added (o : option (string * string)) : list (string * string) :=
  match o with
  | Some e => [e]
  | None => []
  end.

(** What a row dated [dt], at or after the floor, gives when its link is
    looked up in cell [c]: nothing, an entry, or the error of the
    resolution. *)
Definition link_outcome (urljoin : string -> string -> result string)
    (pad_year : bool) (base_url : string) (dt : datetime) (c : cell)
  : result (option (string * string)) :=
  match find_pdf_link (cell_anchors c) with
  | None => Ok None
  | Some href =>
      rbind (urljoin base_url href) (fun u =>
        Ok (Some (Strptime.strftime pad_year dt, u)))
  end.

(** ** Content hashing: [hashlib.sha256] and [sfbos_extractor._sha256_file] *)

Module SHA256.

Local Open Scope Z_scope.

(** 32-bit words are integers reduced modulo [2^32]. *)
Definition w32 (x : Z) : Z := x mod 2 ^ 32.
Definition add32 (x y : Z) : Z := w32 (x + y).
Definition rotr (n x : Z) : Z := Z.lor (Z.shiftr x n) (w32 (Z.shiftl x (32 - n))).
Definition not32 (x : Z) : Z := Z.lxor x (2 ^ 32 - 1).

Definition ch (x y z : Z) : Z := Z.lxor (Z.land x y) (Z.land (not32 x) z).
Definition maj (x y z : Z) : Z :=
  Z.lxor (Z.lxor (Z.land x y) (Z.land x z)) (Z.land y z).
Definition bsig0 (x : Z) : Z := Z.lxor (Z.lxor (rotr 2 x) (rotr 13 x)) (rotr 22 x).
Definition bsig1 (x : Z) : Z := Z.lxor (Z.lxor (rotr 6 x) (rotr 11 x)) (rotr 25 x).
Definition ssig0 (x : Z) : Z := Z.lxor (Z.lxor (rotr 7 x) (rotr 18 x)) (Z.shiftr x 3).
Definition ssig1 (x : Z) : Z := Z.lxor (Z.lxor (rotr 17 x) (rotr 19 x)) (Z.shiftr x 10).

(** The constants of the algorithm are the first 32 bits of the fractional
    parts of the cube roots of the first 64 primes, and its initial state
    those of the square roots of the first 8. *)
Definition primes : list Z :=
  [2; 3; 5; 7; 11; 13; 17; 19; 23; 29; 31; 37; 41; 43; 47; 53;
   59; 61; 67; 71; 73; 79; 83; 89; 97; 101; 103; 107; 109; 113; 127; 131;
   137; 139; 149; 151; 157; 163; 167; 173; 179; 181; 191; 193; 197; 199;
   211; 223; 227; 229; 233; 239; 241; 251; 257; 263; 269; 271; 277; 281;
   283; 293; 307; 311].

(** The integer cube root, found bit by bit from bit [k - 1] down. *)
Fixpoint cube_root_bits (k : nat) (n r : Z) : Z :=
  match k with
  | O => r
  | S k' =>
      let r' := r + 2 ^ Z.of_nat k' in
      cube_root_bits k' n (if r' * r' * r' <=? n then r' else r)
  end.

Definition cube_root_fraction (p : Z) : Z := w32 (cube_root_bits 40 (p * 2 ^ 96) 0).
Definition square_root_fraction (p : Z) : Z := w32 (Z.sqrt (p * 2 ^ 64)).

Definition round_constants : list Z :=
  Eval vm_compute in map cube_root_fraction primes.

Definition initial_state : list Z :=
  Eval vm_compute in map square_root_fraction (firstn 8 primes).

Definition byte_val (b : Byte.byte) : Z := Z.of_N (Byte.to_N b).

(** Big-endian words of a block. *)
Fixpoint words_of (bs : list Byte.byte) : list Z :=
  match bs with
  | b0 :: b1 :: b2 :: b3 :: rest =>
      (byte_val b0 * 2 ^ 24 + byte_val b1 * 2 ^ 16 + byte_val b2 * 2 ^ 8 + byte_val b3)
      :: words_of rest
  | _ => []
  end.

Definition word_at (ws : list Z) (i : nat) : Z := nth i ws 0.

(** The message schedule: [k] more words after those of [ws]. *)
Fixpoint schedule (k : nat) (ws : list Z) : list Z :=
  match k with
  | O => ws
  | S k' =>
      let t := length ws in
      let x := add32 (add32 (ssig1 (word_at ws (t - 2))) (word_at ws (t - 7)))
                     (add32 (ssig0 (word_at ws (t - 15))) (word_at ws (t - 16))) in
      schedule k' (ws ++ [x])
  end.

Definition round (v : list Z) (kw : Z * Z) : list Z :=
  match v with
  | [a; b; c; d; e; f; g; h] =>
      let t1 := add32 (add32 (add32 h (bsig1 e)) (add32 (ch e f g) (fst kw))) (snd kw) in
      let t2 := add32 (bsig0 a) (maj a b c) in
      [add32 t1 t2; a; b; c; add32 d t1; e; f; g]
  | _ => v
  end.

(** The compression function on one 64-byte block. *)
Definition compress (st : list Z) (block : list Byte.byte) : list Z :=
  let ws := schedule 48 (words_of block) in
  let v := fold_left round (combine round_constants ws) st in
  map (fun p => add32 (fst p) (snd p)) (combine st v).

(** The blocks of [data] compressed into [st], [n] of them, and what is
    left of [data]. *)
Fixpoint absorb_n (n : nat) (st : list Z) (data : list Byte.byte)
  : list Z * list Byte.byte :=
  match n with
  | O => (st, data)
  | S n' => absorb_n n' (compress st (firstn 64 data)) (skipn 64 data)
  end.

(** Every whole block of [data] is compressed; fewer than 64 bytes stay. *)
Definition absorb (st : list Z) (data : list Byte.byte) : list Z * list Byte.byte :=
  absorb_n (length data / 64) st data.

Definition byte_of (x : Z) : Byte.byte :=
  match Byte.of_N (Z.to_N (x mod 256)) with
  | Some b => b
  | None => Byte.x00
  end.

(** The padding of a message of [len] bytes: the byte 0x80, zeros up to 56
    modulo 64, and the length in bits as a 64-bit big-endian integer. *)
Definition padding (len : Z) : list Byte.byte :=
  let bits := (8 * len) mod 2 ^ 64 in
  Byte.x80 :: repeat Byte.x00 (Z.to_nat ((55 - len) mod 64))
  ++ map (fun i => byte_of (Z.shiftr bits (8 * i))) [7; 6; 5; 4; 3; 2; 1; 0].

Definition hex_digit (d : Z) : ascii :=
  if d <? 10 then ascii_of_N (Z.to_N (48 + d)) else ascii_of_N (Z.to_N (87 + d)).

Fixpoint hex_of_word (digits : nat) (x : Z) (acc : string) : string :=
  match digits with
  | O => acc
  | S k => hex_of_word k (x / 16) (String (hex_digit (x mod 16)) acc)
  end.

(** Lowercase hexadecimal of the state words, eight digits each. *)
Fixpoint hex_of_state (st : list Z) : string :=
  match st with
  | [] => EmptyString
  | x :: st' => hex_of_word 8 x EmptyString +:+ hex_of_state st'
  end.

(** [hashlib.sha256(data).hexdigest()]: the digest of the whole message in
    one pass. *)
Definition hexdigest_of (data : list Byte.byte) : string :=
  hex_of_state (fst (absorb initial_state (data ++ padding (Z.of_nat (length data))))).

(** The hash object [hashlib.sha256()]: the state after the whole blocks
    seen so far, the bytes of the block in progress and the number of bytes
    seen. *)
Record hasher : Type := { state : list Z; buffer : list Byte.byte; count : Z }.

Definition new : hasher := {| state := initial_state; buffer := []; count := 0 |}.

(** [h.update(data)] *)
Definition update (h : hasher) (data : list Byte.byte) : hasher :=
  let '(st, rest) := absorb (state h) (buffer h ++ data) in
  {| state := st; buffer := rest; count := count h + Z.of_nat (length data) |}.

(** [h.hexdigest()] *)
Definition hexdigest (h : hasher) : string :=
  hex_of_state (fst (absorb (state h) (buffer h ++ padding (count h)))).

(** The hash object [h] has seen exactly the message [m]. *)
Definition holds (h : hasher) (m : list Byte.byte) : Prop :=
  absorb initial_state m = (state h, buffer h) /\ count h = Z.of_nat (length m).

End SHA256.

(** An open binary file is what is left to read; [f.read(n)] returns up to
    [n] bytes and moves on. *)
Definition read (n : nat) (f : list Byte.byte) : list Byte.byte * list Byte.byte :=
  (firstn n f, skipn n f).

(** [for chunk in iter(lambda: f.read(8192), b""): h.update(chunk)].  The
    loop stops at the first empty chunk; [fuel] bounds the number of reads
    and [None] means it ran out. *)
Fixpoint update_chunks (fuel : nat) (f : list Byte.byte) (h : SHA256.hasher)
  : option SHA256.hasher :=
  match fuel with
  | O => None
  | S fuel' =>
      let '(chunk, f') := read 8192 f in
      match chunk with
      | [] => Some h
      | _ => update_chunks fuel' f' (SHA256.update h chunk)
      end
  end.

(** The digest [_sha256_file] computes from the bytes of the file; one read
    more than there are bytes always suffices. *)
Definition sha256_stream (data : list Byte.byte) : option string :=
  option_map SHA256.hexdigest (update_chunks (S (length data)) data SHA256.new).

Definition _sha256_file (p : path) : io string :=
  let* data := read_bytes p in
  match sha256_stream data with
  | Some digest => ret digest
  | None => throw OtherError
  end.

(** ** JSON text *)

Module Json.

Inductive value : Type :=
  | Null
  | Bool (b : bool)
  | Int (z : Z)
  | Text (s : string)
  | Arr (l : list value)
  | Obj (l : list (string * value)).

(** The double quote. *)
Definition quote : ascii := ascii_of_N 34.

Definition hex_char (d : N) : ascii :=
  if (d <? 10)%N then ascii_of_N (48 + d) else ascii_of_N (87 + d).

(** One character of a string as the serializer writes it before [k]:
    the quote and the backslash are escaped, the control characters below
    0x20 are written as [\b \t \n \f \r] or [\u00XX], every other character
    is written as it is. *)
Definition escape_char (c : ascii) (k : string) : string :=
  let n := Str.code c in
  if (n =? 34)%N then String "\" (String quote k)
  else if (n =? 92)%N then String "\" (String "\" k)
  else if (n =? 8)%N then String "\" (String "b" k)
  else if (n =? 9)%N then String "\" (String "t" k)
  else if (n =? 10)%N then String "\" (String "n" k)
  else if (n =? 12)%N then String "\" (String "f" k)
  else if (n =? 13)%N then String "\" (String "r" k)
  else if (n <? 32)%N then
    String "\" (String "u" (String "0" (String "0"
      (String (hex_char (n / 16)) (String (hex_char (n mod 16)) k)))))
  else String c k.

Fixpoint escape (s : string) (k : string) : string :=
  match s with
  | EmptyString => k
  | String c s' => escape_char c (escape s' k)
  end.

Definition write_string (s : string) (k : string) : string :=
  String quote (escape s (String quote k)).

(** [write v k] is the compact text of [v] followed by [k]. *)
Fixpoint write (v : value) (k : string) : string :=
  match v with
  | Null => "null" +:+ k
  | Bool true => "true" +:+ k
  | Bool false => "false" +:+ k
  | Int z => Str.str_of_int z +:+ k
  | Text s => write_string s k
  | Arr [] => "[]" +:+ k
  | Arr (x :: l) =>
      String "[" (write x
        ((fix tail (l : list value) : string :=
            match l with
            | [] => String "]" k
            | y :: l' => String "," (write y (tail l'))
            end) l))
  | Obj [] => "{}" +:+ k
  | Obj ((key, x) :: l) =>
      String "{" (write_string key (String ":" (write x
        ((fix tail (l : list (string * value)) : string :=
            match l with
            | [] => String "}" k
            | (key', y) :: l' =>
                String "," (write_string key' (String ":" (write y (tail l'))))
            end) l))))
  end.

Definition dumps (v : value) : string := write v "".

(** The elements after the first one, and the members after the first
    one, up to the closing bracket. *)
Fixpoint write_elems (l : list value) (k : string) : string :=
  match l with
  | [] => String "]" k
  | y :: l' => String "," (write y (write_elems l' k))
  end.

Fixpoint write_members (l : list (string * value)) (k : string) : string :=
  match l with
  | [] => String "}" k
  | (key, y) :: l' =>
      String "," (write_string key (String ":" (write y (write_members l' k))))
  end.

(** What may follow a value inside a text: nothing, a comma or a closing
    bracket. *)
Definition follow_ok (k : string) : bool :=
  match k with
  | EmptyString => true
  | String c _ =>
      let n := Str.code c in ((n =? 44) || (n =? 93) || (n =? 125))%N
  end.

(** *** Reading JSON text, as [json.loads] does, for the values above:
    numbers with a fraction or an exponent and [\u] escapes of code points
    from 256 on are outside what is modelled and are refused. *)

Definition is_ws (c : ascii) : bool :=
  let n := Str.code c in ((n =? 32) || (n =? 9) || (n =? 10) || (n =? 13))%N.

Fixpoint skip_ws (s : string) : string :=
  match s with
  | String c s' => if is_ws c then skip_ws s' else s
  | EmptyString => EmptyString
  end.

Definition hex_val (c : ascii) : option N :=
  let n := Str.code c in
  if ((48 <=? n) && (n <=? 57))%N then Some (n - 48)%N
  else if ((97 <=? n) && (n <=? 102))%N then Some (n - 87)%N
  else if ((65 <=? n) && (n <=? 70))%N then Some (n - 55)%N
  else None.

Definition hex4 (h1 h2 h3 h4 : ascii) : option N :=
  match hex_val h1, hex_val h2, hex_val h3, hex_val h4 with
  | Some a, Some b, Some c, Some d => Some (((a * 16 + b) * 16 + c) * 16 + d)%N
  | _, _, _, _ => None
  end.

Definition unescape (e : ascii) : option ascii :=
  let n := Str.code e in
  if (n =? 34)%N then Some quote
  else if (n =? 92)%N then Some "\"%char
  else if (n =? 47)%N then Some "/"%char
  else if (n =? 98)%N then Some (ascii_of_N 8)
  else if (n =? 102)%N then Some (ascii_of_N 12)
  else if (n =? 110)%N then Some (ascii_of_N 10)
  else if (n =? 114)%N then Some (ascii_of_N 13)
  else if (n =? 116)%N then Some (ascii_of_N 9)
  else None.

Definition cons_char (c : ascii) (r : option (string * string))
  : option (string * string) :=
  match r with
  | Some (s, rest) => Some (String c s, rest)
  | None => None
  end.

(** The characters of a string up to its closing quote, and what follows
    the quote. *)
Fixpoint parse_string (s : string) : option (string * string) :=
  match s with
  | EmptyString => None
  | String c s' =>
      if (Str.code c =? 34)%N then Some (EmptyString, s')
      else if (Str.code c =? 92)%N then
        match s' with
        | EmptyString => None
        | String e s'' =>
            if (Str.code e =? 117)%N then
              match s'' with
              | String h1 (String h2 (String h3 (String h4 s5))) =>
                  match hex4 h1 h2 h3 h4 with
                  | Some n =>
                      if (n <? 256)%N then cons_char (ascii_of_N n) (parse_string s5)
                      else None
                  | None => None
                  end
              | _ => None
              end
            else
              match unescape e with
              | Some c' => cons_char c' (parse_string s'')
              | None => None
              end
        end
      else if (Str.code c <? 32)%N then None
      else cons_char c (parse_string s')
  end.

(** An integer: an optional minus sign and digits without a leading zero. *)
Definition parse_int (s : string) : option (Z * string) :=
  let '(neg, s1) :=
    match s with
    | String c r => if (Str.code c =? 45)%N then (true, r) else (false, s)
    | EmptyString => (false, s)
    end in
  let '(ds, rest) := Str.span Str.is_digit s1 in
  match ds with
  | EmptyString => None
  | String d ds' =>
      if (Str.code d =? 48)%N && negb (String.eqb ds' "") then None
      else
        let float :=
          match rest with
          | String c _ =>
              let n := Str.code c in ((n =? 46) || (n =? 101) || (n =? 69))%N
          | EmptyString => false
          end in
        if float then None
        else Some (if neg then (- Str.int_of_digits ds)%Z else Str.int_of_digits ds, rest)
  end.

Fixpoint strip_prefix (p s : string) : option string :=
  match p, s with
  | EmptyString, _ => Some s
  | String a p', String b s' => if Ascii.eqb a b then strip_prefix p' s' else None
  | String _ _, EmptyString => None
  end.

Fixpoint parse_value (fuel : nat) (s : string) : option (value * string) :=
  match fuel with
  | O => None
  | S fuel' =>
      match skip_ws s with
      | EmptyString => None
      | String c r as s1 =>
          let n := Str.code c in
          if (n =? 34)%N then
            match parse_string r with
            | Some (x, r') => Some (Text x, r')
            | None => None
            end
          else if (n =? 91)%N then
            match skip_ws r with
            | String c' r' as r1 =>
                if (Str.code c' =? 93)%N then Some (Arr [], r')
                else match parse_elements fuel' r1 with
                     | Some (vs, r2) => Some (Arr vs, r2)
                     | None => None
                     end
            | EmptyString => None
            end
          else if (n =? 123)%N then
            match skip_ws r with
            | String c' r' as r1 =>
                if (Str.code c' =? 125)%N then Some (Obj [], r')
                else match parse_members fuel' r1 with
                     | Some (ms, r2) => Some (Obj ms, r2)
                     | None => None
                     end
            | EmptyString => None
            end
          else if Str.is_digit c || (n =? 45)%N then
            match parse_int s1 with
            | Some (z, r') => Some (Int z, r')
            | None => None
            end
          else
            match strip_prefix "null" s1, strip_prefix "true" s1,
                  strip_prefix "false" s1 with
            | Some r', _, _ => Some (Null, r')
            | _, Some r', _ => Some (Bool true, r')
            | _, _, Some r' => Some (Bool false, r')
            | _, _, _ => None
            end
      end
  end
with parse_elements (fuel : nat) (s : string) : option (list value * string) :=
  match fuel with
  | O => None
  | S fuel' =>
      match parse_value fuel' s with
      | Some (v, r) =>
          match skip_ws r with
          | String c r' =>
              if (Str.code c =? 44)%N then
                match parse_elements fuel' r' with
                | Some (vs, r2) => Some (v :: vs, r2)
                | None => None
                end
              else if (Str.code c =? 93)%N then Some ([v], r')
              else None
          | EmptyString => None
          end
      | None => None
      end
  end
with parse_members (fuel : nat) (s : string)
  : option (list (string * value) * string) :=
  match fuel with
  | O => None
  | S fuel' =>
      match skip_ws s with
      | String q r =>
          if (Str.code q =? 34)%N then
            match parse_string r with
            | Some (key, r1) =>
                match skip_ws r1 with
                | String c r2 =>
                    if (Str.code c =? 58)%N then
                      match parse_value fuel' r2 with
                      | Some (v, r3) =>
                          match skip_ws r3 with
                          | String c' r4 =>
                              if (Str.code c' =? 44)%N then
                                match parse_members fuel' r4 with
                                | Some (ms, r5) => Some ((key, v) :: ms, r5)
                                | None => None
                                end
                              else if (Str.code c' =? 125)%N then Some ([(key, v)], r4)
                              else None
                          | EmptyString => None
                          end
                      | None => None
                      end
                    else None
                | EmptyString => None
                end
            | None => None
            end
          else None
      | EmptyString => None
      end
  end.

(** [json.loads(s)]: one value, with nothing but white space after it. *)
Definition loads (s : string) : option value :=
  match parse_value (S (String.length s)) s with
  | Some (v, rest) =>
      match skip_ws rest with
      | EmptyString => Some v
      | String _ _ => None
      end
  | None => None
  end.

(** [d[key]] for the object [d] *)
Fixpoint lookup (key : string) (members : list (string * value)) : option value :=
  match members with
  | [] => None
  | (k, v) :: rest =>
      match lookup key rest with
      | Some v' => Some v'
      | None => if String.eqb k key then Some v else None
      end
  end.

(** The fuel that reading a value takes. *)
Fixpoint size (v : value) : nat :=
  match v with
  | Arr l => S (fold_right (fun x acc => S (size x + acc)) O l)
  | Obj l => S (fold_right (fun kx acc => S (size (snd kx) + acc)) O l)
  | _ => 1
  end.

Fixpoint has_newline (s : string) : bool :=
  match s with
  | EmptyString => false
  | String c s' => (Str.code c =? 10)%N || has_newline s'
  end.

End Json.

(** *** Notions used in the proofs about JSON text *)

(** The numeral of a natural number: digits only, no leading zero unless
    the number is zero, and the number is its value. *)
Definition numeral_of (ds : string) (n : Z) : Prop :=
  Str.all_digits ds = true /\ Str.int_of_digits ds = n /\
  exists c ds', ds = String c ds' /\
                ((Str.code c =? 48)%N = true -> ds' = "" /\ n = 0%Z).

(** A written value starts with a character that is neither white space
    nor a closing bracket. *)
Definition starts_value (s : string) : Prop :=
  exists c r, s = String c r /\ Json.is_ws c = false /\
              (Str.code c =? 93)%N = false /\ (Str.code c =? 125)%N = false.

Definition reads_back (fuel : nat) : Prop :=
  forall v k, Json.size v <= fuel -> Json.follow_ok k = true ->
              Json.parse_value fuel (Json.write v k) = Some (v, k).

(** ** Records: [models.py] *)

Module Models.

Record ExtractedItem : Type := { position : Z; item_title : string }.

Record ExtractedPayload : Type := {
  title : option string;
  items : list ExtractedItem
}.

Record ExtractorMeta : Type := { name : string; version : string }.

Definition default_extractor : ExtractorMeta :=
  {| name := "civic-ingest"; version := "0.1.0" |}.

(** [Literal["minutes", "agenda"]] *)
Inductive DocType : Type := minutes | agenda.

(** A [datetime.date] *)
Record date : Type := { date_year : Z; date_month : Z; date_day : Z }.

Record DocRecord : Type := {
  source_url : string;
  doc_type : DocType;
  committee : option string;
  meeting_date : option date;
  sha256 : string;
  mime : string;
  file_size : option Z;
  page_count : option Z;
  extracted : ExtractedPayload;
  extracted_at : datetime;
  extractor : ExtractorMeta
}.

(** Validation of the [doc_type] argument of the constructor: one of the
    two literals, or a [ValidationError]. *)
Definition validate_doc_type (s : string) : result DocType :=
  if String.eqb s "minutes" then Ok minutes
  else if String.eqb s "agenda" then Ok agenda
  else Raise ValidationError.

Definition doc_type_str (t : DocType) : string :=
  match t with minutes => "minutes" | agenda => "agenda" end.

(** ISO 8601 texts of dates and times, as the serializer writes them. *)
Definition iso_date (y m d : Z) : string :=
  Str.zfill 4 (Str.str_of_int y) +:+ "-" +:+ Str.zfill 2 (Str.str_of_int m)
  +:+ "-" +:+ Str.zfill 2 (Str.str_of_int d).

Definition iso_datetime (t : datetime) : string :=
  iso_date (year t) (month t) (day t) +:+ "T"
  +:+ Str.zfill 2 (Str.str_of_int (hour t)) +:+ ":"
  +:+ Str.zfill 2 (Str.str_of_int (minute t)) +:+ ":"
  +:+ Str.zfill 2 (Str.str_of_int (second t))
  +:+ (if (microsecond t =? 0)%Z then ""
       else "." +:+ Str.zfill 6 (Str.str_of_int (microsecond t))).

Definition opt {A} (f : A -> Json.value) (o : option A) : Json.value :=
  match o with
  | Some a => f a
  | None => Json.Null
  end.

Definition item_json (i : ExtractedItem) : Json.value :=
  Json.Obj [("position", Json.Int (position i)); ("title", Json.Text (item_title i))].

Definition payload_json (p : ExtractedPayload) : Json.value :=
  Json.Obj [("title", opt Json.Text (title p));
            ("items", Json.Arr (map item_json (items p)))].

(** The fields of a record in declaration order. *)
Definition record_json (r : DocRecord) : Json.value :=
  Json.Obj
    [("source_url", Json.Text (source_url r));
     ("doc_type", Json.Text (doc_type_str (doc_type r)));
     ("committee", opt Json.Text (committee r));
     ("meeting_date",
       opt (fun d => Json.Text (iso_date (date_year d) (date_month d) (date_day d)))
           (meeting_date r));
     ("sha256", Json.Text (sha256 r));
     ("mime", Json.Text (mime r));
     ("file_size", opt Json.Int (file_size r));
     ("page_count", opt Json.Int (page_count r));
     ("extracted", payload_json (extracted r));
     ("extracted_at", Json.Text (iso_datetime (extracted_at r)));
     ("extractor",
       Json.Obj [("name", Json.Text (name (extractor r)));
                 ("version", Json.Text (version (extractor r)))])].

(** [record.model_dump_json()] *)
Definition to_jsonl_line (r : DocRecord) : string :=
  Json.dumps (record_json r).

End Models.

(** ** Metadata builder: [sfbos_extractor.extract_metadata] *)

(** The PDF library as a capability.  A page answers [extract_text()] with
    a text, with [None], or by raising; a document answers [pdf.pages] with
    its pages or by raising; opening may raise; and the library may be
    missing altogether, which makes the [import] raise. *)
Abbreviation pdf_page := (result (option string)).
Record pdf_document : Type := { pages : result (list pdf_page) }.
Abbreviation pdf_library := (option (list Byte.byte -> result pdf_document)).

Module TitleRe.

Fixpoint starts_with (p s : string) : bool :=
  match p, s with
  | EmptyString, _ => true
  | String a p', String b s' => Ascii.eqb a (Str.lower_char b) && starts_with p' s'
  | String _ _, EmptyString => false
  end.

(** What [.*] takes: everything up to the next newline. *)
Fixpoint line (s : string) : string :=
  match s with
  | EmptyString => EmptyString
  | String c s' => if (Str.code c =? 10)%N then EmptyString else String c (line s')
  end.

(** [re.search(r"(?:Meeting|Agenda).*", s, re.I)], the whole match. *)
Fixpoint search (s : string) : option string :=
  if starts_with "meeting" s || starts_with "agenda" s then Some (line s)
  else match s with
       | EmptyString => None
       | String _ s' => search s'
       end.

End TitleRe.

(** The [try] block of [extract_metadata]: the values of [page_count] and
    [title] when the block is left, normally or through the [except] clause.
    An assignment that was made before an exception stays made. *)
Definition sniff (pdfplumber : pdf_library) (data : list Byte.byte)
  : option Z * option string :=
  match pdfplumber with
  | None => (None, None)                                 (* import fails *)
  | Some open_pdf =>
      match open_pdf data with
      | Raise _ => (None, None)
      | Ok pdf =>
          match pages pdf with
          | Raise _ => (None, None)
          | Ok ps =>
              let page_count := Some (Z.of_nat (length ps)) in
              match ps with
              | [] => (page_count, None)                 (* pdf.pages[0]: IndexError *)
              | first :: _ =>
                  match first with
                  | Raise _ => (page_count, None)
                  | Ok t =>
                      let first_text := match t with Some x => x | None => "" end in
                      (page_count, option_map Str.strip (TitleRe.search first_text))
                  end
              end
          end
      end
  end.

(** [p.stat().st_size] *)
Definition stat_size (p : path) : io Z :=
  fun w =>
    match fs w !! p with
    | Some (File data) => (Ok (Z.of_nat (length data)), w)
    | Some Dir => (Ok 4096%Z, w)     (* some size; hashing a directory raised before *)
    | None =>
        if bool_decide (p = []) then (Ok 4096%Z, w)
        else (Raise (missing_error p (fs w)), w)
    end.

Section Extract.

Variable pdfplumber : pdf_library.
(** [datetime.utcnow()] *)
Variable utcnow : datetime.

Definition extract_metadata (pdf_path : path) (source_url : string)
    (committee : option string) (doc_type : string) : io Models.DocRecord :=
  let* sha := _sha256_file pdf_path in
  let* size := stat_size pdf_path in
  let* data := read_bytes pdf_path in
  let '(page_count, title) := sniff pdfplumber data in
  match Models.validate_doc_type doc_type with
  | Raise e => throw e
  | Ok dt =>
      ret {| Models.source_url := source_url;
             Models.doc_type := dt;
             Models.committee := committee;
             Models.meeting_date := None;
             Models.sha256 := sha;
             Models.mime := "application/pdf";
             Models.file_size := Some size;
             Models.page_count := page_count;
             Models.extracted := {| Models.title := title; Models.items := [] |};
             Models.extracted_at := utcnow;
             Models.extractor := Models.default_extractor |}
  end.

End Extract.

(** When the [try] block is left through the [except] clause: the library
    is missing, opening or listing the pages raises, there is no first page,
    or its text extraction raises.  The first three happen before
    [page_count] is assigned. *)
Definition introspection_fails_early (pdfplumber : pdf_library) (data : list Byte.byte)
  : Prop :=
  match pdfplumber with
  | None => True
  | Some open_pdf =>
      match open_pdf data with
      | Raise _ => True
      | Ok pdf => match pages pdf with Raise _ => True | Ok _ => False end
      end
  end.

Definition introspection_fails_late (pdfplumber : pdf_library) (data : list Byte.byte)
  (count : nat) : Prop :=
  exists open_pdf pdf ps,
    pdfplumber = Some open_pdf /\ open_pdf data = Ok pdf /\ pages pdf = Ok ps /\
    length ps = count /\
    match ps with
    | [] | Raise _ :: _ => True
    | Ok _ :: _ => False
    end.

(** ** Site registry: [sites.py] *)

(** The display name of a site is only printed by [list-sites] and is left
    out of the record. *)
Record Site : Type := {
  key : string;
  base_url : string;
  site_committee : string;
  default_doc_type : string
}.

Definition SITES : list Site :=
  [{| key := "sfbos_lut";
      base_url := "https://sfbos.org/meetings/land-use-and-transportation-committee";
      site_committee := "Land Use and Transportation";
      default_doc_type := "minutes" |}].

Fixpoint find_site (k : string) (sites : list Site) : result Site :=
  match sites with
  | [] => Raise KeyError
  | s :: rest => if String.eqb (key s) k then Ok s else find_site k rest
  end.

Definition get_site (k : string) : result Site := find_site k SITES.

(** ** Command [extract]: [cli.cmd_extract] *)

Definition byte_of_N (n : N) : Byte.byte :=
  match Byte.of_N n with
  | Some b => b
  | None => Byte.x00
  end.

(** The UTF-8 encoding of a text whose code points are below 256. *)
Definition utf8_char (c : ascii) : list Byte.byte :=
  let n := Str.code c in
  if (n <? 128)%N then [byte_of_N n]
  else [byte_of_N (192 + n / 64); byte_of_N (128 + n mod 64)].

Fixpoint utf8 (s : string) : list Byte.byte :=
  match s with
  | EmptyString => []
  | String c s' => utf8_char c ++ utf8 s'
  end.

(** [sorted(names)] by insertion. *)
Fixpoint insert_sorted (x : string) (l : list string) : list string :=
  match l with
  | [] => [x]
  | y :: l' => if String.leb x y then x :: l else y :: insert_sorted x l'
  end.

Definition sort_names (l : list string) : list string :=
  fold_right insert_sorted [] l.

(** The names of the entries of directory [d] that match [*.pdf]. *)
Definition pdf_names (d : path) (m : gmap path node) : list string :=
  omap (fun pn : path * node =>
          let p := fst pn in
          match p with
          | [] => None
          | _ :: _ =>
              let name := List.last p "" in
              if bool_decide (parent p = d) && Str.endswith name ".pdf"
              then Some name else None
          end)
       (map_to_list m).

(** [sorted(in_dir.glob("*.pdf"))] *)
Definition pdf_listing (d : path) (m : gmap path node) : list path :=
  map (fun name => d ++ [name]) (sort_names (pdf_names d m)).

Definition glob_pdf_sorted (d : path) : io (list path) :=
  fun w => (Ok (pdf_listing d (fs w)), w).

Record ExtractArgs : Type := {
  arg_site : string;
  arg_input : path;
  arg_out : path;
  arg_doc_type : option string
}.

Definition newline : string := String (ascii_of_N 10) "".

(** The bytes one record adds to the output file. *)
Definition record_line (r : Models.DocRecord) : list Byte.byte :=
  utf8 (Models.to_jsonl_line r +:+ newline).

(** The output is a text file that stays open while the records are
    written.  Such a file is buffered: a [write] hands the bytes to the
    buffers, and the buffers pass them on to the disk when they fill up and
    when the file is closed.  An open file is the list of the byte strings
    written to it so far. *)
Abbreviation text_file := (list (list Byte.byte)).

(** What [extract_metadata] returns, as a function of what opening and
    reading the file gives. *)
Definition metadata_of (pdfplumber : pdf_library) (utcnow : datetime)
    (opened : result (list Byte.byte)) (source_url : string)
    (committee : option string) (doc_type : string) : result Models.DocRecord :=
  rbind opened (fun data =>
    rbind (Models.validate_doc_type doc_type) (fun dt =>
      Ok {| Models.source_url := source_url;
            Models.doc_type := dt;
            Models.committee := committee;
            Models.meeting_date := None;
            Models.sha256 := SHA256.hexdigest_of data;
            Models.mime := "application/pdf";
            Models.file_size := Some (Z.of_nat (length data));
            Models.page_count := fst (sniff pdfplumber data);
            Models.extracted :=
              {| Models.title := snd (sniff pdfplumber data); Models.items := [] |};
            Models.extracted_at := utcnow;
            Models.extractor := Models.default_extractor |})).

Section Cli.

Variable pdfplumber : pdf_library.
(** How many of the bytes written to an open text file are on the disk,
    as the writes so far and the sizes of the buffers decide it. *)
Variable flushed : text_file -> nat.
(** [datetime.utcnow()] when the record number [n] of a run is built,
    counting from 0. *)
Variable utcnow : nat -> datetime.

(** The part of a text file that is on the disk while it is open. *)
Definition on_disk (f : text_file) : list Byte.byte := take (flushed f) (concat f).

(** [f.write(text)] on the open text file at [p]. *)
Definition write_text (p : path) (f : text_file) (data : list Byte.byte)
  : world -> text_file * world :=
  fun w => (f ++ [data], set_fs w (<[p := File (on_disk (f ++ [data]))]> (fs w))).

(** Closing the file, as the end of the [with] block does on every way out
    of it: all that was written is on the disk. *)
Definition close_text (p : path) (f : text_file) (w : world) : world :=
  set_fs w (<[p := File (concat f)]> (fs w)).

(** The [for] loop over the PDF files, inside the [with] block: the result
    is [count] or the exception that ends the loop, together with the open
    file. *)
Fixpoint extract_loop (out_path : path) (committee doc_type : string)
    (pdfs : list path) (count : Z) (f : text_file) (w : world)
  : result Z * text_file * world :=
  match pdfs with
  | [] => (Ok count, f, w)
  | pdf :: rest =>
      match extract_metadata pdfplumber (utcnow (Z.to_nat count)) pdf
              ("file://" +:+ path_str pdf) (Some committee) doc_type w with
      | (Raise e, w1) => (Raise e, f, w1)
      | (Ok rec, w1) =>
          let '(f1, w2) := write_text out_path f (record_line rec) w1 in
          extract_loop out_path committee doc_type rest (count + 1)%Z f1 w2
      end
  end.

Definition cmd_extract (args : ExtractArgs) : io Z :=
  match get_site (arg_site args) with
  | Raise e => throw e
  | Ok site =>
      let in_dir := arg_input args in
      let out_path := arg_out args in
      do* mkdir_parents (parent out_path) in
      let doc_type :=
        match arg_doc_type args with
        | Some s => if String.eqb s "" then default_doc_type site else s
        | None => default_doc_type site
        end in
      do* open_w out_path in
      let* pdfs := glob_pdf_sorted in_dir in
      fun w =>
        let '(r, f, w1) :=
          extract_loop out_path (site_committee site) doc_type pdfs 0 [] w in
        let w2 := close_text out_path f w1 in
        match r with
        | Raise e => (Raise e, w2)
        | Ok count =>
            (do* print ("Wrote " +:+ Str.str_of_int count +:+ " records to "
                        +:+ path_str out_path) in
             ret 0%Z) w2
        end
  end.

(** The disk while the output file is open: [m] apart from the output
    file, which holds what the buffers have passed on of [lines]. *)
Definition disk_during (out_path : path) (m : gmap path node) (lines : text_file)
  : gmap path node :=
  <[out_path := File (on_disk lines)]> m.

End Cli.

(** ** Command [fetch]: [cli.cmd_fetch] *)

Record FetchArgs : Type := {
  fetch_site : string;
  fetch_doc_type : string;
  fetch_since_year : Z;
  fetch_out : path
}.

(** [path.name] *)
Definition path_name (p : path) : string := List.last p "".

(** The loop over the listed items: each one is downloaded and reported. *)
Fixpoint download_all (out_dir : path) (items : list (string * string)) : io unit :=
  match items with
  | [] => ret tt
  | (_, url) :: rest =>
      let* p := download_pdf url out_dir None in
      do* print ("saved " +:+ path_name p) in
      download_all out_dir rest
  end.

Section Fetch.

Variable urljoin : string -> string -> result string.
Variable pad_year : bool.

Definition cmd_fetch (args : FetchArgs) : io Z :=
  match get_site (fetch_site args) with
  | Raise e => throw e
  | Ok site =>
      let cfg := {| since_year := fetch_since_year args;
                    doc_type := fetch_doc_type args;
                    user_agent := default_user_agent |} in
      let out_dir := fetch_out args in
      do* print ("Listing documents from " +:+ base_url site +:+ " since "
                 +:+ Str.str_of_int (since_year cfg) +:+ " (" +:+ doc_type cfg +:+ ")") in
      let* items := fetch_listing urljoin pad_year (base_url site) cfg in
      do* print ("Found " +:+ Str.str_of_int (Z.of_nat (length items)) +:+ " items") in
      do* download_all out_dir items in
      ret 0%Z
  end.

End Fetch.

(** The lines the download loop prints for a list of items. *)
Definition saved_lines (items : list (string * string)) : list string :=
  map (fun item => "saved " +:+ derived_name (snd item)) items.

(** ** Notions used in further properties *)

(** How often the byte [b] occurs in [l]. *)
Fixpoint count_byte (b : Byte.byte) (l : list Byte.byte) : nat :=
  match l with
  | [] => O
  | x :: l' => (if Byte.eqb x b then 1 else 0) + count_byte b l'
  end.

Definition newline_byte : Byte.byte := Byte.x0a.

(** Adjacent names are in order. *)
Fixpoint names_sorted (l : list string) : bool :=
  match l with
  | x :: ((y :: _) as l') => String.leb x y && names_sorted l'
  | _ => true
  end.

(** Hexadecimal digits in lower case. *)
Definition is_lower_hex (c : ascii) : bool :=
  let n := Str.code c in
  (((48 <=? n) && (n <=? 57)) || ((97 <=? n) && (n <=? 102)))%N.

Fixpoint all_lower_hex (s : string) : bool :=
  match s with
  | EmptyString => true
  | String c s' => is_lower_hex c && all_lower_hex s'
  end.

(** A calendar date that exists. *)
Definition valid_date (dt : datetime) : Prop :=
  (1 <= year dt <= 9999 /\ 1 <= month dt <= 12 /\
   1 <= day dt <= Strptime.days_in_month (year dt) (month dt))%Z.

(** A text of the form [YYYY-MM-DD]. *)
Definition iso_date_text (s : string) : bool :=
  match s with
  | String y1 (String y2 (String y3 (String y4 (String h1
      (String m1 (String m2 (String h2 (String d1 (String d2 EmptyString))))))))) =>
      Str.is_digit y1 && Str.is_digit y2 && Str.is_digit y3 && Str.is_digit y4
      && Ascii.eqb h1 "-" && Str.is_digit m1 && Str.is_digit m2
      && Ascii.eqb h2 "-" && Str.is_digit d1 && Str.is_digit d2
  | _ => false
  end.

(** ** Sample worlds *)

Definition pdf_magic : list Byte.byte := list_byte_of_string "%PDF-1.4".

Definition empty_document : document := {| first_table := None |}.

(** A world with an empty disk in which exactly [url] is served. *)
Definition serving (url : string) (r : response) : world :=
  {| fs := ∅;
     remote := fun u => if String.eqb u url then Responds r else Unreachable;
     requests := [];
     stdout := [] |}.

Definition pdf_response : response :=
  {| status := 200; content := pdf_magic; soup := Ok empty_document |}.

Definition sample_pdf_url : string :=
  "https://sfbos.org/sites/default/files/lut061519_minutes.pdf".

(** The listing page of the registered site and rows in its layout: the
    date, then the agenda link, then the minutes link. *)
Definition sample_base : string :=
  "https://sfbos.org/meetings/land-use-and-transportation-committee".

Definition text_cell (t : string) : cell := {| cell_text := t; cell_anchors := [] |}.
Definition link_cell (href : string) : cell :=
  {| cell_text := "PDF"; cell_anchors := [Some href] |}.

Definition header_row : row :=
  [text_cell "Date"; text_cell "Agenda"; text_cell "Minutes"].

Definition listing_row (date agenda minutes : string) : row :=
  [text_cell date; link_cell agenda; link_cell minutes].

Definition listing_response (rows : list row) : response :=
  {| status := 200; content := [];
     soup := Ok {| first_table := Some (header_row :: rows) |} |}.

Definition listing_world (rows : list row) : world :=
  serving sample_base (listing_response rows).

(** Reference resolution for a bare file name: it replaces what follows
    the last slash of the base. *)
Fixpoint up_to_last_slash (s : string) : string :=
  match s with
  | EmptyString => EmptyString
  | String c s' => if Str.has_slash s then String c (up_to_last_slash s') else EmptyString
  end.

(** A resolver in the manner of [urljoin]: a reference that opens a
    bracketed host is refused, any other is taken for a file name beside
    the base. *)
Definition sibling (base href : string) : result string :=
  if String.prefix "//[" href then Raise ValueError
  else Ok (up_to_last_slash base +:+ href).

(** A world whose disk holds the directory [pdfs] with one file in it. *)
Definition one_file_world (name : string) (data : list Byte.byte) : world :=
  {| fs := <[["pdfs"; name] := File data]> (<[["pdfs"] := Dir]> ∅);
     remote := fun _ => Unreachable;
     requests := [];
     stdout := [] |}.

(** A disk with one PDF to extract and an output file left by an
    earlier run. *)
Definition old_line : list Byte.byte := list_byte_of_string "a line of an earlier run".

Definition rerun_world : world :=
  {| fs := <[["out"; "records.jsonl"] := File old_line]>
           (<[["out"] := Dir]>
            (<[["pdfs"; "abc.pdf"] := File (list_byte_of_string "abc")]>
             (<[["pdfs"] := Dir]> ∅)));
     remote := fun _ => Unreachable;
     requests := [];
     stdout := [] |}.

Definition rerun_args : ExtractArgs :=
  {| arg_site := "sfbos_lut"; arg_input := ["pdfs"];
     arg_out := ["out"; "records.jsonl"]; arg_doc_type := None |}.

Definition sample_now : datetime :=
  {| year := 2024; month := 5; day := 6; hour := 7; minute := 8; second := 9;
     microsecond := 0 |}.

(** A clock that advances by one second from one record to the next. *)
Definition sample_clock (n : nat) : datetime :=
  {| year := 2024; month := 5; day := 6; hour := 7; minute := 8;
     second := Z.of_nat n; microsecond := 0 |}.

(** Buffers large enough to hold everything until the file is closed, and
    buffers that hold nothing back. *)
Definition nothing_flushed : text_file -> nat := fun _ => 0.
Definition all_flushed : text_file -> nat := fun f => length (concat f).

(** A PDF library that opens every file as three pages whose first page
    fails to give its text. *)
Definition broken_text_library : pdf_library :=
  Some (fun _ => Ok {| pages := Ok [Raise OtherError; Ok None; Ok None] |}).

(** ** Notions and samples for the further properties *)

(** An entry a listing may hold: the text [strftime] gives for a date of
    the calendar at or after the floor, and the resolution of a PDF
    link. *)
Definition listed (urljoin : string -> string -> result string) (pad_year : bool)
    (base : string) (cfg : FetchConfig) (e : string * string) : Prop :=
  exists dt href u,
    e = (Strptime.strftime pad_year dt, u) /\ urljoin base href = Ok u /\
    valid_date dt /\ (since_year cfg <= year dt)%Z /\ href_is_pdf href = true.

(** The record of the package's test, [test_jsonl_roundtrip_minimal]. *)
Definition test_record : Models.DocRecord :=
  {| Models.source_url := "https://example.test/x.pdf";
     Models.doc_type := Models.minutes;
     Models.committee := Some "Test Committee";
     Models.meeting_date := None;
     Models.sha256 := "abc123";
     Models.mime := "application/pdf";
     Models.file_size := Some 123%Z;
     Models.page_count := Some 1%Z;
     Models.extracted :=
       {| Models.title := Some "Meeting Minutes";
          Models.items := [{| Models.position := 1; Models.item_title := "Call to order" |}] |};
     Models.extracted_at := sample_now;
     Models.extractor := Models.default_extractor |}.

(** A PDF library that opens every file as one page with a fixed text. *)
Definition one_page_library (text : string) : pdf_library :=
  Some (fun _ => Ok {| pages := Ok [Ok (Some text)] |}).

(** No character of the text is white space. *)
Fixpoint no_space (s : string) : bool :=
  match s with
  | EmptyString => true
  | String a s' => negb (Str.is_space a) && no_space s'
  end.

(** A first page as a text extractor may give it. *)
Definition sample_page_text : string :=
  "City and County" +:+ newline +:+ "  Agenda for the meeting  " +:+ newline +:+ "next".

(** The world after more lines were printed. *)
Definition printed (w : world) (lines : list string) : world :=
  {| fs := fs w; remote := remote w; requests := requests w;
     stdout := stdout w ++ lines |}.

(** The configuration [cmd_fetch] builds from its arguments, the request
    for the listing and the two lines printed around it. *)
Definition fetch_config (args : FetchArgs) : FetchConfig :=
  {| since_year := fetch_since_year args; doc_type := fetch_doc_type args;
     user_agent := default_user_agent |}.

Definition listing_request (base : string) (cfg : FetchConfig) : request :=
  {| req_url := base; req_user_agent := user_agent cfg; req_timeout := 30 |}.

Definition listing_line (site : Site) (cfg : FetchConfig) : string :=
  "Listing documents from " +:+ base_url site +:+ " since "
  +:+ Str.str_of_int (since_year cfg) +:+ " (" +:+ doc_type cfg +:+ ")".

Definition found_line (items : list (string * string)) : string :=
  "Found " +:+ Str.str_of_int (Z.of_nat (length items)) +:+ " items".

(** A record with another time of extraction. *)
Definition stamped (t : datetime) (r : Models.DocRecord) : Models.DocRecord :=
  {| Models.source_url := Models.source_url r;
     Models.doc_type := Models.doc_type r;
     Models.committee := Models.committee r;
     Models.meeting_date := Models.meeting_date r;
     Models.sha256 := Models.sha256 r;
     Models.mime := Models.mime r;
     Models.file_size := Models.file_size r;
     Models.page_count := Models.page_count r;
     Models.extracted := Models.extracted r;
     Models.extracted_at := t;
     Models.extractor := Models.extractor r |}.

(** The line [cmd_extract] prints at the end of a run. *)
Definition wrote_line (count : Z) (out_path : path) : string :=
  "Wrote " +:+ Str.str_of_int count +:+ " records to " +:+ path_str out_path.

(** The site as served: its listing holds one meeting, whose minutes can
    be fetched. *)
Definition fetch_world : world :=
  {| fs := ∅;
     remote := fun u =>
       if String.eqb u sample_base
       then Responds (listing_response
                        [listing_row "June 15, 2019" "a190615.pdf" "m190615.pdf"])
       else if String.eqb u "https://sfbos.org/meetings/m190615.pdf"
            then Responds pdf_response else Unreachable;
     requests := [];
     stdout := [] |}.

Definition fetch_args : FetchArgs :=
  {| fetch_site := "sfbos_lut"; fetch_doc_type := "minutes";
     fetch_since_year := 2018; fetch_out := ["pdfs"] |}.

(** An input directory in which a directory is named like a PDF file. *)
Definition dir_pdf_world : world :=
  {| fs := <[["pdfs"; "b.pdf"] := Dir]>
           (<[["pdfs"; "a.pdf"] := File (list_byte_of_string "abc")]>
            (<[["pdfs"] := Dir]> ∅));
     remote := fun _ => Unreachable;
     requests := [];
     stdout := [] |}.

(* ================================================================== *)
(** * Part II: properties                                              *)
(* ================================================================== *)

(** ** File system lemmas *)

Lemma set_fs_same w : set_fs w (fs w) = w.
Proof. by destruct w. Qed.

Lemma mkdir_from_noop (pre : path) (rest : list string) (m : gmap path node) :
  all_dirs pre rest m = true -> mkdir_from pre rest m = Ok m.
Proof.
  revert pre. induction rest as [|c rest IH]; intros pre H; simpl in *; [done|].
  destruct (m !! (pre ++ [c])) as [[|]|]; try done. by apply IH.
Qed.

(** Writing a file strictly below [pre ++ rest] leaves the chain of
    directories alone. *)
Lemma all_dirs_insert_longer (pre : path) (rest : list string) (m : gmap path node) q x :
  length (pre ++ rest) < length q ->
  all_dirs pre rest m = true -> all_dirs pre rest (<[q := x]> m) = true.
Proof.
  revert pre. induction rest as [|c rest IH]; intros pre Hlen H; simpl in *; [done|].
  rewrite lookup_insert_ne.
  2:{ intros ->. rewrite !length_app in Hlen. simpl in Hlen. lia. }
  destruct (m !! (pre ++ [c])) as [[|]|]; try done.
  apply IH; [|done]. by rewrite <- app_assoc.
Qed.

Lemma mkdir_from_post (pre : path) (rest : list string) (m m' : gmap path node) :
  mkdir_from pre rest m = Ok m' ->
  all_dirs pre rest m' = true /\
  (forall q, is_Some (m !! q) -> m' !! q = m !! q) /\
  (forall q x, m !! q = None -> m' !! q = Some x -> x = Dir /\ length q <= length (pre ++ rest)).
Proof.
  revert pre m. induction rest as [|c rest IH]; intros pre m H; simpl in *.
  - injection H as <-. split; [done|]. split; [done|]. intros q x Hn Hs. congruence.
  - destruct (m !! (pre ++ [c])) as [[|]|] eqn:E; try done.
    + destruct (IH _ _ H) as (Ha & Hb & Hc).
      rewrite (Hb (pre ++ [c])), E by (rewrite E; eauto).
      split; [done|]. split; [done|].
      intros q x Hn Hs. destruct (Hc q x Hn Hs) as [? Hl]. split; [done|].
      by rewrite <- app_assoc in Hl.
    + destruct (IH _ _ H) as (Ha & Hb & Hc).
      rewrite (Hb (pre ++ [c])) by (rewrite lookup_insert_eq; eauto).
      rewrite lookup_insert_eq. split; [done|]. split.
      * intros q Hq. rewrite Hb.
        -- apply lookup_insert_ne. intros <-. rewrite E in Hq. by destruct Hq.
        -- destruct (decide (pre ++ [c] = q)) as [<-|Hne];
             [rewrite lookup_insert_eq; eauto | by rewrite lookup_insert_ne].
      * intros q x Hn Hs. destruct (decide (pre ++ [c] = q)) as [<-|Hne].
        -- rewrite (Hb (pre ++ [c])) in Hs by (rewrite lookup_insert_eq; eauto).
           rewrite lookup_insert_eq in Hs. injection Hs as <-. split; [done|].
           rewrite !length_app. simpl. lia.
        -- assert (Hn' : <[pre ++ [c] := Dir]> m !! q = None)
             by (by rewrite lookup_insert_ne).
           destruct (Hc q x Hn' Hs) as [? Hl]. split; [done|].
           by rewrite <- app_assoc in Hl.
Qed.

Lemma all_dirs_last (pre : path) (rest : list string) (m : gmap path node) :
  all_dirs pre rest m = true -> rest <> [] -> m !! (pre ++ rest) = Some Dir.
Proof.
  revert pre. induction rest as [|c rest IH]; intros pre H Hne; [done|].
  simpl in H. destruct (m !! (pre ++ [c])) as [[|]|] eqn:E; try done.
  destruct rest as [|c' rest'].
  - done.
  - replace (pre ++ c :: c' :: rest') with ((pre ++ [c]) ++ c' :: rest')
      by (by rewrite <- app_assoc).
    by apply IH.
Qed.

Lemma parent_snoc (d : path) (name : string) : parent (d ++ [name]) = d.
Proof. apply removelast_last. Qed.

(** Opening for writing either creates or empties the file, or raises and
    leaves the world alone. *)
Lemma open_w_cases (p : path) w :
  open_w p w = (Ok tt, set_fs w (<[p := File []]> (fs w))) \/
  exists e, open_w p w = (Raise e, w).
Proof.
  unfold open_w. case_bool_decide; [eauto|].
  destruct (fs w !! p) as [[|]|];
    destruct (parent p); try destruct (fs w !! (_ :: _)) as [[|]|]; eauto.
Qed.

Lemma open_w_new (d : path) (name : string) w :
  fs w !! (d ++ [name]) = None ->
  d = [] \/ fs w !! d = Some Dir ->
  open_w (d ++ [name]) w = (Ok tt, set_fs w (<[d ++ [name] := File []]> (fs w))).
Proof.
  intros Hn Hd. unfold open_w. rewrite Hn, parent_snoc.
  rewrite bool_decide_eq_false_2 by (by destruct d).
  destruct Hd as [->|Hd]; [done|]. rewrite Hd. by destruct d.
Qed.

(** ** PDF acquisition *)

(** A hit: the destination directory is there and something of the derived
    name is in it.  The path comes back and the world is untouched. *)
Lemma download_pdf_hit url (dest : path) headers w :
  all_dirs [] dest (fs w) = true ->
  is_Some (fs w !! (dest ++ [derived_name url])) ->
  download_pdf url dest headers w = (Ok (dest ++ [derived_name url]), w).
Proof.
  intros Hd He. unfold download_pdf, bind, mkdir_parents, exists_.
  rewrite (mkdir_from_noop _ _ _ Hd), set_fs_same.
  by rewrite bool_decide_eq_true_2 by (by right).
Qed.

(** What a successful call leaves behind and what it costs. *)
Lemma download_pdf_ok url (dest : path) headers w p w1 :
  download_pdf url dest headers w = (Ok p, w1) ->
  p = dest ++ [derived_name url] /\
  all_dirs [] dest (fs w1) = true /\
  is_Some (fs w1 !! p) /\
  (is_Some (fs w !! p) -> requests w1 = requests w) /\
  (fs w !! p = None ->
   requests w1 =
     requests w ++ [{| req_url := url; req_user_agent := headers_or_default headers;
                       req_timeout := 60 |}]).
Proof.
  unfold download_pdf, bind, mkdir_parents, exists_.
  destruct (mkdir_from [] dest (fs w)) as [m|e] eqn:Em; [|done].
  destruct (mkdir_from_post _ _ _ _ Em) as (Hdirs & Hkeep & Hnew).
  simpl. case_bool_decide as Hex.
  - intros [= <- <-]. simpl.
    assert (Hsome : is_Some (m !! (dest ++ [derived_name url]))).
    { destruct Hex as [Hnil|Hs]; [by destruct dest | done]. }
    split; [done|]. split; [done|]. split; [done|].
    split; [done|]. intros Hn. destruct Hsome as [x Hx].
    destruct (Hnew _ _ Hn Hx) as [_ Hl]. rewrite length_app in Hl. simpl in Hl. lia.
  - unfold http_get. simpl.
    assert (Hnone : m !! (dest ++ [derived_name url]) = None).
    { destruct (m !! (dest ++ [derived_name url])) eqn:E; [|done].
      exfalso. apply Hex. right. eauto. }
    assert (Hw : fs w !! (dest ++ [derived_name url]) = None).
    { destruct (fs w !! (dest ++ [derived_name url])) eqn:E; [|done].
      rewrite <- (Hkeep (dest ++ [derived_name url])) in E by (rewrite E; eauto).
      congruence. }
    destruct (remote w url) as [|r]; [done|].
    destruct ((400 <=? status r)%Z && (status r <? 600)%Z); [done|].
    rewrite open_w_new; [|done|].
    2:{ simpl. destruct dest as [|d0 dest']; [by left|right].
        apply (all_dirs_last [] (d0 :: dest') m Hdirs). done. }
    unfold write. simpl. rewrite lookup_insert_eq. simpl.
    intros [= <- <-]. simpl. rewrite lookup_insert_eq.
    split; [done|]. split; [|split; [eauto|split; [|done]]].
    + apply all_dirs_insert_longer; [rewrite !length_app; simpl; lia|].
      apply all_dirs_insert_longer; [rewrite !length_app; simpl; lia|done].
    + intros [x Hx]. congruence.
Qed.

Lemma rsplit_last_no_slash s : Str.has_slash (Str.rsplit_last s) = false.
Proof.
  induction s as [|c s IH]; simpl; [done|].
  destruct (Str.has_slash s) eqn:E; [done|].
  destruct (Ascii.eqb c "/") eqn:Ec; [done|]. simpl. by rewrite Ec, E.
Qed.

Lemma rsplit_last_spec s :
  (Str.has_slash s = false /\ Str.rsplit_last s = s) \/
  (exists pre, s = pre +:+ "/" +:+ Str.rsplit_last s).
Proof.
  induction s as [|c s IH]; simpl; [by left|].
  destruct (Str.has_slash s) eqn:E.
  - right. destruct IH as [[? _]|[pre Hpre]]; [congruence|].
    exists (String c pre).
    change (String c s = String c (pre +:+ "/" +:+ Str.rsplit_last s)). congruence.
  - destruct (Ascii.eqb c "/") eqn:Ec.
    + right. exists EmptyString. simpl. apply Ascii.eqb_eq in Ec. by subst.
    + left. by rewrite orb_false_r.
Qed.

(** C5. Idempotence of PDF acquisition.  After a call of [download_pdf]
    that returned, a second call with the same URL and destination returns
    the same path and leaves the world as it is: no request is issued and
    nothing is written.  The first call issued exactly one GET, for the URL
    itself, when nothing of the derived name was at the destination, and
    none when something was; so the two calls together fetch once.  More
    generally, whenever the destination directory holds an entry of the
    derived name the call returns its path at once and issues no request. *)
Theorem download_pdf_idempotent url (dest : path) headers w p w1 :
  download_pdf url dest headers w = (Ok p, w1) ->
  download_pdf url dest headers w1 = (Ok p, w1) /\
  p = dest ++ [derived_name url] /\
  (fs w !! p = None ->
   requests w1 =
     requests w ++ [{| req_url := url; req_user_agent := headers_or_default headers;
                       req_timeout := 60 |}]) /\
  (is_Some (fs w !! p) -> requests w1 = requests w) /\
  (forall w', all_dirs [] dest (fs w') = true -> is_Some (fs w' !! p) ->
              download_pdf url dest headers w' = (Ok p, w')).
Proof.
  intros H. destruct (download_pdf_ok _ _ _ _ _ _ H) as (-> & Hd & He & Hhit & Hmiss).
  split; [by apply download_pdf_hit|]. split; [done|]. split; [done|]. split; [done|].
  intros w' Hd' He'. by apply download_pdf_hit.
Qed.

Lemma download_pdf_idempotent_witness :
  let w := serving sample_pdf_url pdf_response in
  let w1 := snd (download_pdf sample_pdf_url ["out"] None w) in
  download_pdf sample_pdf_url ["out"] None w1 = (Ok ["out"; "lut061519_minutes.pdf"], w1) /\
  length (requests w1) = 1 /\
  fs w1 !! ["out"; "lut061519_minutes.pdf"] = Some (File pdf_magic).
Proof.
  intros w w1.
  assert (H : download_pdf sample_pdf_url ["out"] None w
              = (Ok ["out"; "lut061519_minutes.pdf"], w1)) by reflexivity.
  destruct (download_pdf_idempotent _ _ _ _ _ _ H) as (H2 & _ & Hmiss & _ & _).
  split; [exact H2|]. split.
  - rewrite Hmiss; reflexivity.
  - reflexivity.
Defined.

(** C10. The local name is what follows the last slash of the whole URL
    string, query suffix included, with [.pdf] added when that text does not
    end in it; and the existence check looks at that name only.  So when two
    different URLs have the same derived name and the first has been
    downloaded, the call for the second returns the first one's file and the
    world is unchanged: no request is issued. *)
Theorem download_pdf_name_collision url1 url2 (dest : path) h1 h2 w p w1 :
  url1 <> url2 ->
  derived_name url1 = derived_name url2 ->
  download_pdf url1 dest h1 w = (Ok p, w1) ->
  download_pdf url2 dest h2 w1 = (Ok p, w1) /\
  p = dest ++ [derived_name url1] /\
  requests (snd (download_pdf url2 dest h2 w1)) = requests w1 /\
  Str.has_slash (Str.rsplit_last url2) = false /\
  ((Str.has_slash url2 = false /\ Str.rsplit_last url2 = url2) \/
   (exists pre, url2 = pre +:+ "/" +:+ Str.rsplit_last url2)) /\
  derived_name url2 =
    (if Str.endswith (Str.lower (Str.rsplit_last url2)) ".pdf"
     then Str.rsplit_last url2 else Str.rsplit_last url2 +:+ ".pdf") /\
  derived_name "https://sfbos.org/files/lut.pdf?rev=2" = "lut.pdf?rev=2.pdf".
Proof.
  intros _ Hname H.
  destruct (download_pdf_ok _ _ _ _ _ _ H) as (-> & Hd & He & _ & _).
  assert (H2 : download_pdf url2 dest h2 w1 = (Ok (dest ++ [derived_name url1]), w1)).
  { rewrite Hname in *. by apply download_pdf_hit. }
  split; [done|]. split; [done|]. split; [by rewrite H2|].
  split; [apply rsplit_last_no_slash|]. split; [apply rsplit_last_spec|].
  split; [|reflexivity].
  unfold derived_name. by destruct (Str.endswith _ _).
Qed.

Lemma download_pdf_name_collision_witness :
  let url1 := "https://sfbos.org/files/2019/report.pdf" in
  let url2 := "https://example.org/other/report" in
  let w := serving url1 pdf_response in
  let w1 := snd (download_pdf url1 ["out"] None w) in
  download_pdf url2 ["out"] None w1 = (Ok ["out"; "report.pdf"], w1) /\
  requests w1 = [{| req_url := url1; req_user_agent := default_user_agent;
                    req_timeout := 60 |}].
Proof.
  intros url1 url2 w w1.
  assert (Hne : url1 <> url2) by discriminate.
  assert (Hname : derived_name url1 = derived_name url2) by reflexivity.
  assert (H : download_pdf url1 ["out"] None w = (Ok ["out"; "report.pdf"], w1))
    by reflexivity.
  destruct (download_pdf_name_collision url1 url2 ["out"] None None w _ w1 Hne Hname H)
    as (H2 & _).
  split; [exact H2 | reflexivity].
Defined.

(** ** Listing extractor *)

Section ListingFacts.

Variable urljoin : string -> string -> result string.
Variable pad_year : bool.
Variable base_url : string.
Variable cfg : FetchConfig.

Lemma href_is_pdf_nonempty href : href_is_pdf href = true -> String.eqb href "" = false.
Proof.
  intros H. destruct href as [|c href]; [|done]. by vm_compute in H.
Qed.

Lemma find_pdf_link_nonempty anchors href :
  find_pdf_link anchors = Some href -> String.eqb href "" = false.
Proof.
  induction anchors as [|[h|] anchors IH]; simpl; try done.
  destruct (href_is_pdf h) eqn:E; [|done].
  intros [= <-]. by apply href_is_pdf_nonempty.
Qed.

(** A row with at least three cells and a date that parses. *)
Lemma fetch_row_dated c0 c1 c2 more g dt :
  DateRe.search (cell_text c0) = Some g ->
  Strptime.strptime (Str.remove_commas g) = Ok dt ->
  fetch_row urljoin pad_year base_url cfg (c0 :: c1 :: c2 :: more) =
    if (year dt <? since_year cfg)%Z then Ok None
    else link_outcome urljoin pad_year base_url dt (selected_cell cfg c1 c2).
Proof.
  intros Hg Hdt. unfold fetch_row. simpl. rewrite Hg, Hdt. simpl.
  destruct (year dt <? since_year cfg)%Z; [done|].
  unfold link_outcome, selected_cell.
  destruct (find_pdf_link _) as [href|] eqn:E; [|done].
  by rewrite (find_pdf_link_nonempty _ _ E).
Qed.

Lemma rows_loop_acc rows out :
  rows_loop urljoin pad_year base_url cfg rows out =
  rbind (rows_loop urljoin pad_year base_url cfg rows []) (fun l => Ok (out ++ l)).
Proof.
  revert out. induction rows as [|r rows IH]; intros out; simpl.
  - by rewrite app_nil_r.
  - destruct (fetch_row urljoin pad_year base_url cfg r) as [[e|]|e]; try done.
    rewrite (IH (out ++ [e])), (IH [e]).
    destruct (rows_loop urljoin pad_year base_url cfg rows []); simpl; [|done].
    by rewrite <- app_assoc.
Qed.

Lemma rows_loop_cons r rows :
  rows_loop urljoin pad_year base_url cfg (r :: rows) [] =
  rbind (fetch_row urljoin pad_year base_url cfg r) (fun o =>
    rbind (rows_loop urljoin pad_year base_url cfg rows []) (fun l =>
      Ok (match o with Some e => e :: l | None => l end))).
Proof.
  simpl. destruct (fetch_row urljoin pad_year base_url cfg r) as [[e|]|e]; simpl; try done.
  - by rewrite rows_loop_acc.
  - by destruct (rows_loop urljoin pad_year base_url cfg rows []).
Qed.

Lemma rows_loop_app rows1 rows2 :
  rows_loop urljoin pad_year base_url cfg (rows1 ++ rows2) [] =
  rbind (rows_loop urljoin pad_year base_url cfg rows1 []) (fun l1 =>
    rbind (rows_loop urljoin pad_year base_url cfg rows2 []) (fun l2 => Ok (l1 ++ l2))).
Proof.
  induction rows1 as [|r rows1 IH].
  - simpl. by destruct (rows_loop urljoin pad_year base_url cfg rows2 []).
  - rewrite <- app_comm_cons, !rows_loop_cons, IH.
    destruct (fetch_row urljoin pad_year base_url cfg r) as [o|e]; simpl; [|done].
    destruct (rows_loop urljoin pad_year base_url cfg rows1 []) as [l1|e]; simpl; [|done].
    destruct (rows_loop urljoin pad_year base_url cfg rows2 []) as [l2|e]; simpl; [|done].
    by destruct o.
Qed.

(** The loop over a table, seen from one of its rows: the rows before it,
    the row, the rows after it, in this order. *)
Lemma rows_loop_middle (before after : list row) r :
  rows_loop urljoin pad_year base_url cfg (before ++ r :: after) [] =
  rbind (rows_loop urljoin pad_year base_url cfg before []) (fun l1 =>
    rbind (fetch_row urljoin pad_year base_url cfg r) (fun o =>
      rbind (rows_loop urljoin pad_year base_url cfg after []) (fun l2 =>
        Ok (l1 ++ added o ++ l2)))).
Proof.
  rewrite rows_loop_app, rows_loop_cons.
  destruct (rows_loop urljoin pad_year base_url cfg before []) as [l1|e]; simpl; [|done].
  destruct (fetch_row urljoin pad_year base_url cfg r) as [o|e]; simpl; [|done].
  destruct (rows_loop urljoin pad_year base_url cfg after []) as [l2|e]; simpl; [|done].
  by destruct o.
Qed.

(** When the page is served and parsed, the result is that of the loop
    over the rows after the header, and the only effect is the one GET. *)
Lemma fetch_listing_served w resp doc trs :
  remote w base_url = Responds resp ->
  ((400 <=? status resp) && (status resp <? 600))%Z = false ->
  soup resp = Ok doc ->
  first_table doc = Some trs ->
  fst (fetch_listing urljoin pad_year base_url cfg w) =
    rows_loop urljoin pad_year base_url cfg (drop 1 trs) [] /\
  fs (snd (fetch_listing urljoin pad_year base_url cfg w)) = fs w /\
  requests (snd (fetch_listing urljoin pad_year base_url cfg w)) =
    requests w ++ [{| req_url := base_url; req_user_agent := user_agent cfg;
                      req_timeout := 30 |}].
Proof.
  intros Hr Hs Hd Ht. unfold fetch_listing, bind, http_get.
  rewrite Hr, Hs, Hd, Ht. done.
Qed.

End ListingFacts.

Lemma month_of_name_range name m :
  Strptime.month_of_name name = Some m -> (1 <= m <= 12)%Z.
Proof.
  unfold Strptime.month_of_name, Strptime.month_names. cbn [Strptime.index_of].
  repeat (destruct (String.eqb _ name); [intros [= <-]; lia|]). done.
Qed.

Lemma digit_val_range c : Str.is_digit c = true -> (0 <= Str.digit_val c <= 9)%Z.
Proof.
  unfold Str.is_digit, Str.digit_val. intros H.
  apply andb_true_iff in H as [H1 H2]. apply N.leb_le in H1, H2. lia.
Qed.

(** What [strptime] returns is a date of the calendar, at midnight. *)
Lemma strptime_valid s dt :
  Strptime.strptime s = Ok dt ->
  valid_date dt /\ dt = midnight (year dt) (month dt) (day dt).
Proof.
  unfold Strptime.strptime.
  destruct (Str.span Str.is_alpha s) as [letters r1].
  destruct (Strptime.month_of_name (Str.lower letters)) as [m|] eqn:Hm; [|done].
  destruct (Str.span Str.is_space r1) as [ws1 r2].
  destruct (String.eqb ws1 ""); [done|].
  destruct (Str.span Str.is_digit r2) as [dd r3].
  destruct (negb _) eqn:Hd; [done|].
  destruct (Str.span Str.is_space r3) as [ws2 r4].
  destruct (String.eqb ws2 ""); [done|].
  destruct r4 as [|y1 [|y2 [|y3 [|y4 [|? ?]]]]]; try done.
  destruct (Str.is_digit y1 && Str.is_digit y2 && Str.is_digit y3 && Str.is_digit y4)
    eqn:Hy; [|done].
  destruct ((1 <=? _)%Z && (_ <=? _)%Z) eqn:Hr; [|done].
  intros [= <-]. split; [|done]. unfold valid_date. simpl.
  apply negb_false_iff in Hd. apply andb_true_iff in Hd as [Hd Hd31].
  apply andb_true_iff in Hd as [_ Hd1]. apply Z.leb_le in Hd1.
  apply andb_true_iff in Hr as [Hy1 Hdm]. apply Z.leb_le in Hy1, Hdm.
  apply andb_true_iff in Hy as [Hy Hy4]. apply andb_true_iff in Hy as [Hy Hy3].
  apply andb_true_iff in Hy as [Hy1' Hy2].
  pose proof (digit_val_range _ Hy1'). pose proof (digit_val_range _ Hy2).
  pose proof (digit_val_range _ Hy3). pose proof (digit_val_range _ Hy4).
  pose proof (month_of_name_range _ _ Hm).
  unfold Str.int_of_digits in *. simpl Str.int_acc in *. lia.
Qed.

(** [strptime] fails with [ValueError] and nothing else. *)
Lemma strptime_raise s e : Strptime.strptime s = Raise e -> e = ValueError.
Proof.
  unfold Strptime.strptime.
  repeat match goal with
         | |- context [let '(_, _) := ?x in _] => destruct x
         | |- context [match ?x with _ => _ end] => destruct x
         end; congruence.
Qed.

Lemma find_pdf_link_is_pdf anchors href :
  find_pdf_link anchors = Some href -> href_is_pdf href = true.
Proof.
  induction anchors as [|[h|] anchors IH]; simpl; try done.
  destruct (href_is_pdf h) eqn:E; [|done]. by intros [= <-].
Qed.

Section RowFacts.

Variable urljoin : string -> string -> result string.
Variable pad_year : bool.
Variable base : string.
Variable cfg : FetchConfig.

(** The ways through the body of the loop. *)
Lemma fetch_row_cases (r : row) :
  (length r < 3 /\ fetch_row urljoin pad_year base cfg r = Ok None) \/
  exists c0 c1 c2 more, r = c0 :: c1 :: c2 :: more /\
    ((DateRe.search (cell_text c0) = None /\
      fetch_row urljoin pad_year base cfg r = Ok None) \/
     exists g, DateRe.search (cell_text c0) = Some g /\
       ((Strptime.strptime (Str.remove_commas g) = Raise ValueError /\
         fetch_row urljoin pad_year base cfg r = Raise ValueError) \/
        exists dt, Strptime.strptime (Str.remove_commas g) = Ok dt /\
          fetch_row urljoin pad_year base cfg r =
            if (year dt <? since_year cfg)%Z then Ok None
            else link_outcome urljoin pad_year base dt (selected_cell cfg c1 c2))).
Proof.
  destruct r as [|c0 [|c1 [|c2 more]]]; try (left; split; [simpl; lia | done]).
  right. exists c0, c1, c2, more. split; [done|].
  destruct (DateRe.search (cell_text c0)) as [g|] eqn:Hg.
  - right. exists g. split; [done|].
    destruct (Strptime.strptime (Str.remove_commas g)) as [dt|e] eqn:Hdt.
    + right. exists dt. split; [done|].
      exact (fetch_row_dated _ _ _ _ _ _ _ _ _ _ Hg Hdt).
    + apply strptime_raise in Hdt as He. subst e. left. split; [done|].
      unfold fetch_row. simpl. by rewrite Hg, Hdt.
  - left. split; [done|]. unfold fetch_row. simpl. by rewrite Hg.
Qed.

Lemma link_outcome_listed dt c e :
  valid_date dt -> (since_year cfg <= year dt)%Z ->
  link_outcome urljoin pad_year base dt c = Ok (Some e) ->
  listed urljoin pad_year base cfg e.
Proof.
  intros Hv Hy. unfold link_outcome.
  destruct (find_pdf_link _) as [href|] eqn:Hl; [|done].
  destruct (urljoin base href) as [u|e0] eqn:Hu; [|done].
  intros [= <-]. exists dt, href, u.
  repeat split; try done; try apply Hv. by apply find_pdf_link_is_pdf in Hl.
Qed.

Lemma fetch_row_listed r e :
  fetch_row urljoin pad_year base cfg r = Ok (Some e) -> listed urljoin pad_year base cfg e.
Proof.
  destruct (fetch_row_cases r) as [[_ ->]|(c0 & c1 & c2 & more & -> & H)]; [done|].
  destruct H as [[_ ->]|(g & Hg & [[_ ->]|(dt & Hdt & ->)])]; try done.
  destruct (year dt <? since_year cfg)%Z eqn:Hy; [done|].
  apply link_outcome_listed; [by apply strptime_valid in Hdt as [? _]|].
  by apply Z.ltb_ge in Hy.
Qed.

Lemma rows_loop_listed rows : forall l,
  rows_loop urljoin pad_year base cfg rows [] = Ok l ->
  Forall (listed urljoin pad_year base cfg) l /\ length l <= length rows.
Proof.
  induction rows as [|r rows IH]; intros l.
  - intros [= <-]. split; [constructor | done].
  - rewrite rows_loop_cons.
    destruct (fetch_row urljoin pad_year base cfg r) as [o|e] eqn:Hr; [|done]. simpl.
    destruct (rows_loop urljoin pad_year base cfg rows []) as [l'|e]; [|done]. simpl.
    destruct (IH l' eq_refl) as [Hl Hlen].
    intros [= <-]. destruct o as [e|].
    + split; [constructor; [by eapply fetch_row_listed | done] | simpl; lia].
    + split; [done | simpl; lia].
Qed.

Lemma rows_loop_skip (before after : list row) r : forall out,
  fetch_row urljoin pad_year base cfg r = Ok None ->
  rows_loop urljoin pad_year base cfg (before ++ r :: after) out =
  rows_loop urljoin pad_year base cfg (before ++ after) out.
Proof.
  induction before as [|a before IH]; intros out Hr; simpl.
  - by rewrite Hr.
  - destruct (fetch_row urljoin pad_year base cfg a) as [[e|]|e];
      [by apply IH | by apply IH | done].
Qed.

(** The listing of a served table, seen from one dated row of it. *)
Lemma fetch_listing_at_row w resp doc header (before after : list row)
    c0 c1 c2 more g dt :
  remote w base = Responds resp ->
  ((400 <=? status resp) && (status resp <? 600))%Z = false ->
  soup resp = Ok doc ->
  first_table doc = Some (header :: before ++ (c0 :: c1 :: c2 :: more) :: after) ->
  DateRe.search (cell_text c0) = Some g ->
  Strptime.strptime (Str.remove_commas g) = Ok dt ->
  fst (fetch_listing urljoin pad_year base cfg w) =
  rbind (rows_loop urljoin pad_year base cfg before []) (fun l1 =>
    rbind (if (year dt <? since_year cfg)%Z then Ok None
           else link_outcome urljoin pad_year base dt (selected_cell cfg c1 c2))
      (fun o =>
         rbind (rows_loop urljoin pad_year base cfg after []) (fun l2 =>
           Ok (l1 ++ added o ++ l2)))).
Proof.
  intros Hr Hs Hd Ht Hg Hdt.
  destruct (fetch_listing_served urljoin pad_year base cfg w resp doc _ Hr Hs Hd Ht)
    as (-> & _).
  rewrite skipn_cons, drop_0, rows_loop_middle.
  by rewrite (fetch_row_dated _ _ _ _ _ _ _ _ _ _ Hg Hdt).
Qed.

(** The listing of a served table without one of its rows. *)
Lemma rows_loop_without (before after : list row) :
  rows_loop urljoin pad_year base cfg (before ++ after) [] =
  rbind (rows_loop urljoin pad_year base cfg before []) (fun l1 =>
    rbind (Ok None) (fun o =>
      rbind (rows_loop urljoin pad_year base cfg after []) (fun l2 =>
        Ok (l1 ++ added o ++ l2)))).
Proof. by rewrite rows_loop_app. Qed.

End RowFacts.

(** C7. The year floor.  Every entry [fetch_listing] returns is dated at
    or after [since_year].  In a served table, a row of three cells or more
    whose first cell holds a date that parses to a year before the floor
    leaves no entry and no error: the result is that of the table without
    the row.  A row dated at or after the floor is not held back by its
    date: when its selected cell holds a PDF link that the URL library
    resolves, its entry is in the result, between those of the rows before
    it and those of the rows after it; when the library refuses the link
    the call raises that error; when there is no link the row is skipped.
    In particular the table with rows dated March 1, 2017 and June 15, 2019
    gives, with the floor 2018, the single entry of 2019. *)
Theorem fetch_listing_year_floor urljoin pad_year base_url cfg w :
  (forall l, fst (fetch_listing urljoin pad_year base_url cfg w) = Ok l ->
     Forall (fun e => exists dt href u,
               e = (Strptime.strftime pad_year dt, u) /\ urljoin base_url href = Ok u /\
               valid_date dt /\ (since_year cfg <= year dt)%Z /\
               href_is_pdf href = true) l) /\
  (forall resp doc header (before after : list row) c0 c1 c2 more g dt,
     remote w base_url = Responds resp ->
     ((400 <=? status resp) && (status resp <? 600))%Z = false ->
     soup resp = Ok doc ->
     first_table doc = Some (header :: before ++ (c0 :: c1 :: c2 :: more) :: after) ->
     DateRe.search (cell_text c0) = Some g ->
     Strptime.strptime (Str.remove_commas g) = Ok dt ->
     ((year dt < since_year cfg)%Z ->
      fst (fetch_listing urljoin pad_year base_url cfg w) =
        rows_loop urljoin pad_year base_url cfg (before ++ after) []) /\
     ((since_year cfg <= year dt)%Z ->
      (forall href u,
         find_pdf_link (cell_anchors (selected_cell cfg c1 c2)) = Some href ->
         urljoin base_url href = Ok u ->
         fst (fetch_listing urljoin pad_year base_url cfg w) =
           rbind (rows_loop urljoin pad_year base_url cfg before []) (fun l1 =>
             rbind (rows_loop urljoin pad_year base_url cfg after []) (fun l2 =>
               Ok (l1 ++ [(Strptime.strftime pad_year dt, u)] ++ l2)))) /\
      (forall href e,
         find_pdf_link (cell_anchors (selected_cell cfg c1 c2)) = Some href ->
         urljoin base_url href = Raise e ->
         fst (fetch_listing urljoin pad_year base_url cfg w) =
           rbind (rows_loop urljoin pad_year base_url cfg before []) (fun _ => Raise e)) /\
      (find_pdf_link (cell_anchors (selected_cell cfg c1 c2)) = None ->
       fst (fetch_listing urljoin pad_year base_url cfg w) =
         rows_loop urljoin pad_year base_url cfg (before ++ after) []))) /\
  fst (fetch_listing sibling pad_year sample_base default_config
         (listing_world
            [listing_row "March 1, 2017" "a170301.pdf" "m170301.pdf";
             listing_row "June 15, 2019" "a190615.pdf" "m190615.pdf"])) =
    Ok [("2019-06-15", "https://sfbos.org/meetings/m190615.pdf")].
Proof.
  split; [|split; [|by destruct pad_year]].
  - intros l. unfold fetch_listing, bind, http_get.
    destruct (remote w base_url) as [|r]; [done|].
    destruct ((400 <=? status r)%Z && (status r <? 600)%Z); [done|].
    destruct (soup r) as [doc|e]; [|done].
    destruct (first_table doc) as [trs|].
    + intros Hl. by apply rows_loop_listed in Hl as [Hl _].
    + intros [= <-]. constructor.
  - intros resp doc header before after c0 c1 c2 more g dt Hr Hs Hd Ht Hg Hdt.
    rewrite (fetch_listing_at_row _ _ _ _ _ _ _ _ _ _ _ _ _ _ _ _ Hr Hs Hd Ht Hg Hdt).
    rewrite rows_loop_without. split.
    + intros Hy. by replace (year dt <? since_year cfg)%Z with true
        by (symmetry; apply Z.ltb_lt; lia).
    + intros Hy.
      replace (year dt <? since_year cfg)%Z with false by (symmetry; apply Z.ltb_ge; lia).
      unfold link_outcome. split; [|split].
      * intros href u Hl Hu. by rewrite Hl, Hu.
      * intros href e Hl Hu. rewrite Hl, Hu.
        by destruct (rows_loop urljoin pad_year base_url cfg before []).
      * intros Hl. by rewrite Hl.
Qed.

Lemma fetch_listing_year_floor_witness :
  let old := listing_row "March 1, 2017" "a170301.pdf" "m170301.pdf" in
  let new := listing_row "June 15, 2019" "a190615.pdf" "m190615.pdf" in
  fst (fetch_listing sibling false sample_base default_config (listing_world [old; new])) =
    rows_loop sibling false sample_base default_config [new] [] /\
  fst (fetch_listing sibling false sample_base default_config (listing_world [old; new])) =
    Ok [("2019-06-15", "https://sfbos.org/meetings/m190615.pdf")].
Proof.
  intros old new.
  destruct (fetch_listing_year_floor sibling false sample_base default_config
              (listing_world [old; new])) as (_ & Hrows & _).
  assert (H2017 : (2017 < since_year default_config)%Z) by (simpl; lia).
  assert (H2019 : (since_year default_config <= 2019)%Z) by (simpl; lia).
  split.
  - exact (proj1 (Hrows (listing_response [old; new])
                    {| first_table := Some (header_row :: [old; new]) |}
                    header_row [] [new]
                    (text_cell "March 1, 2017") (link_cell "a170301.pdf")
                    (link_cell "m170301.pdf") [] "March 1, 2017" (midnight 2017 3 1)
                    eq_refl eq_refl eq_refl eq_refl eq_refl eq_refl) H2017).
  - exact (proj1 (proj2 (Hrows (listing_response [old; new])
                    {| first_table := Some (header_row :: [old; new]) |}
                    header_row [old] []
                    (text_cell "June 15, 2019") (link_cell "a190615.pdf")
                    (link_cell "m190615.pdf") [] "June 15, 2019" (midnight 2019 6 15)
                    eq_refl eq_refl eq_refl eq_refl eq_refl eq_refl) H2019)
             "m190615.pdf" "https://sfbos.org/meetings/m190615.pdf" eq_refl eq_refl).
Defined.

(** C4. Column selection.  For a recognized document type, a row of a
    served table with at least three cells whose date parses to a year at
    or after the floor is looked up in its third cell when the type is
    [minutes] and in its second cell when it is [agenda], and in that cell
    only.  If the cell holds a PDF link that the URL library resolves, the
    entry of the row is in the result, between those of the rows before and
    after it; if the library refuses the link, the call raises that error;
    if the cell holds no PDF link the row is skipped, whatever the other
    cell holds.  In particular the row with [agenda.pdf] in the second cell
    and [minutes.pdf] in the third yields the resolution of [minutes.pdf]
    for [minutes] and that of [agenda.pdf] for [agenda]. *)
Theorem fetch_listing_column urljoin pad_year base_url cfg w resp doc header
    (before after : list row) c0 c1 c2 more g dt :
  In (doc_type cfg) ["minutes"; "agenda"] ->
  remote w base_url = Responds resp ->
  ((400 <=? status resp) && (status resp <? 600))%Z = false ->
  soup resp = Ok doc ->
  first_table doc = Some (header :: before ++ (c0 :: c1 :: c2 :: more) :: after) ->
  DateRe.search (cell_text c0) = Some g ->
  Strptime.strptime (Str.remove_commas g) = Ok dt ->
  (since_year cfg <= year dt)%Z ->
  let picked := if String.eqb (doc_type cfg) "minutes" then c2 else c1 in
  (forall href u,
     find_pdf_link (cell_anchors picked) = Some href ->
     urljoin base_url href = Ok u ->
     fst (fetch_listing urljoin pad_year base_url cfg w) =
       rbind (rows_loop urljoin pad_year base_url cfg before []) (fun l1 =>
         rbind (rows_loop urljoin pad_year base_url cfg after []) (fun l2 =>
           Ok (l1 ++ [(Strptime.strftime pad_year dt, u)] ++ l2)))) /\
  (forall href e,
     find_pdf_link (cell_anchors picked) = Some href ->
     urljoin base_url href = Raise e ->
     fst (fetch_listing urljoin pad_year base_url cfg w) =
       rbind (rows_loop urljoin pad_year base_url cfg before []) (fun _ => Raise e)) /\
  (find_pdf_link (cell_anchors picked) = None ->
   fst (fetch_listing urljoin pad_year base_url cfg w) =
     rows_loop urljoin pad_year base_url cfg (before ++ after) []) /\
  fst (fetch_listing sibling pad_year sample_base (with_doc_type default_config "minutes")
         (listing_world [listing_row "June 15, 2019" "agenda.pdf" "minutes.pdf"])) =
    Ok [("2019-06-15", "https://sfbos.org/meetings/minutes.pdf")] /\
  fst (fetch_listing sibling pad_year sample_base (with_doc_type default_config "agenda")
         (listing_world [listing_row "June 15, 2019" "agenda.pdf" "minutes.pdf"])) =
    Ok [("2019-06-15", "https://sfbos.org/meetings/agenda.pdf")].
Proof.
  intros Hty Hr Hs Hd Ht Hg Hdt Hy picked.
  assert (Hsel : selected_cell cfg c1 c2 = picked).
  { unfold selected_cell, picked. destruct Hty as [<-|[<-|[]]]; reflexivity. }
  rewrite (fetch_listing_at_row _ _ _ _ _ _ _ _ _ _ _ _ _ _ _ _ Hr Hs Hd Ht Hg Hdt).
  rewrite rows_loop_without, Hsel.
  replace (year dt <? since_year cfg)%Z with false by (symmetry; apply Z.ltb_ge; lia).
  unfold link_outcome. split; [|split; [|split; [|split; by destruct pad_year]]].
  - intros href u Hl Hu. by rewrite Hl, Hu.
  - intros href e Hl Hu. rewrite Hl, Hu.
    by destruct (rows_loop urljoin pad_year base_url cfg before []).
  - intros Hl. by rewrite Hl.
Qed.

Lemma fetch_listing_column_witness :
  let rows := [listing_row "June 15, 2019" "agenda.pdf" "minutes.pdf"] in
  fst (fetch_listing sibling false sample_base (with_doc_type default_config "agenda")
         (listing_world rows)) =
    Ok [("2019-06-15", "https://sfbos.org/meetings/agenda.pdf")] /\
  fst (fetch_listing sibling false sample_base (with_doc_type default_config "minutes")
         (listing_world rows)) =
    Ok [("2019-06-15", "https://sfbos.org/meetings/minutes.pdf")] /\
  fst (fetch_listing sibling false sample_base (with_doc_type default_config "agenda")
         (listing_world [listing_row "June 15, 2019" "//[x/agenda.pdf" "minutes.pdf"])) =
    Raise ValueError.
Proof.
  intros rows.
  assert (Hagenda : In "agenda" ["minutes"; "agenda"]) by (right; left; reflexivity).
  assert (Hminutes : In "minutes" ["minutes"; "agenda"]) by (left; reflexivity).
  assert (Hy : (2018 <= 2019)%Z) by lia.
  split; [|split].
  - exact (proj1 (fetch_listing_column sibling false sample_base
              (with_doc_type default_config "agenda")
              (listing_world rows) (listing_response rows)
              {| first_table := Some (header_row :: rows) |} header_row [] []
              (text_cell "June 15, 2019") (link_cell "agenda.pdf")
              (link_cell "minutes.pdf") [] "June 15, 2019" (midnight 2019 6 15)
              Hagenda eq_refl eq_refl eq_refl eq_refl eq_refl eq_refl Hy)
             "agenda.pdf" "https://sfbos.org/meetings/agenda.pdf" eq_refl eq_refl).
  - exact (proj1 (fetch_listing_column sibling false sample_base
              (with_doc_type default_config "minutes")
              (listing_world rows) (listing_response rows)
              {| first_table := Some (header_row :: rows) |} header_row [] []
              (text_cell "June 15, 2019") (link_cell "agenda.pdf")
              (link_cell "minutes.pdf") [] "June 15, 2019" (midnight 2019 6 15)
              Hminutes eq_refl eq_refl eq_refl eq_refl eq_refl eq_refl Hy)
             "minutes.pdf" "https://sfbos.org/meetings/minutes.pdf" eq_refl eq_refl).
  - exact (proj1 (proj2 (fetch_listing_column sibling false sample_base
              (with_doc_type default_config "agenda")
              (listing_world [listing_row "June 15, 2019" "//[x/agenda.pdf" "minutes.pdf"])
              (listing_response [listing_row "June 15, 2019" "//[x/agenda.pdf" "minutes.pdf"])
              {| first_table :=
                   Some (header_row ::
                         [listing_row "June 15, 2019" "//[x/agenda.pdf" "minutes.pdf"]) |}
              header_row [] []
              (text_cell "June 15, 2019") (link_cell "//[x/agenda.pdf")
              (link_cell "minutes.pdf") [] "June 15, 2019" (midnight 2019 6 15)
              Hagenda eq_refl eq_refl eq_refl eq_refl eq_refl eq_refl Hy))
             "//[x/agenda.pdf" ValueError eq_refl eq_refl).
Defined.

(** C9. The document type is not validated.  Whatever string the
    configuration carries, [fetch_listing] does exactly what it does for
    [agenda] when the lower-cased string differs from [minutes], and what
    it does for [minutes] when it equals it; no value of the type makes it
    raise.  So for every type whose lower-cased form is not [minutes] a
    dated row at or after the floor is looked up in its second cell: it
    gives the entry of the PDF link there when the URL library resolves it,
    the error of the library when it refuses it, and nothing when the cell
    has no PDF link.  [MINUTES] counts as minutes and [budget] is read as
    agenda. *)
Theorem fetch_listing_doc_type_unvalidated urljoin pad_year base_url cfg w (s : string) :
  (Str.lower s <> "minutes" ->
   fetch_listing urljoin pad_year base_url (with_doc_type cfg s) w =
   fetch_listing urljoin pad_year base_url (with_doc_type cfg "agenda") w) /\
  (Str.lower s = "minutes" ->
   fetch_listing urljoin pad_year base_url (with_doc_type cfg s) w =
   fetch_listing urljoin pad_year base_url (with_doc_type cfg "minutes") w) /\
  (forall c0 c1 c2 more g dt,
     Str.lower s <> "minutes" ->
     DateRe.search (cell_text c0) = Some g ->
     Strptime.strptime (Str.remove_commas g) = Ok dt ->
     (since_year cfg <= year dt)%Z ->
     (forall href u,
        find_pdf_link (cell_anchors c1) = Some href -> urljoin base_url href = Ok u ->
        fetch_row urljoin pad_year base_url (with_doc_type cfg s) (c0 :: c1 :: c2 :: more) =
          Ok (Some (Strptime.strftime pad_year dt, u))) /\
     (forall href e,
        find_pdf_link (cell_anchors c1) = Some href -> urljoin base_url href = Raise e ->
        fetch_row urljoin pad_year base_url (with_doc_type cfg s) (c0 :: c1 :: c2 :: more) =
          Raise e) /\
     (find_pdf_link (cell_anchors c1) = None ->
      fetch_row urljoin pad_year base_url (with_doc_type cfg s) (c0 :: c1 :: c2 :: more) =
        Ok None)) /\
  fst (fetch_listing sibling pad_year sample_base (with_doc_type default_config "MINUTES")
         (listing_world [listing_row "June 15, 2019" "agenda.pdf" "minutes.pdf"])) =
    Ok [("2019-06-15", "https://sfbos.org/meetings/minutes.pdf")] /\
  fst (fetch_listing sibling pad_year sample_base (with_doc_type default_config "budget")
         (listing_world [listing_row "June 15, 2019" "agenda.pdf" "minutes.pdf"])) =
    Ok [("2019-06-15", "https://sfbos.org/meetings/agenda.pdf")].
Proof.
  assert (Hrow : forall b : bool,
    String.eqb (Str.lower s) "minutes" = b ->
    forall r, fetch_row urljoin pad_year base_url (with_doc_type cfg s) r =
              fetch_row urljoin pad_year base_url
                (with_doc_type cfg (if b then "minutes" else "agenda")) r).
  { intros b Hb r. unfold fetch_row. simpl. rewrite Hb. by destruct b. }
  assert (Hloop : forall b : bool,
    String.eqb (Str.lower s) "minutes" = b ->
    forall rows out, rows_loop urljoin pad_year base_url (with_doc_type cfg s) rows out =
                     rows_loop urljoin pad_year base_url
                       (with_doc_type cfg (if b then "minutes" else "agenda")) rows out).
  { intros b Hb rows. induction rows as [|r rows IH]; intros out; simpl; [done|].
    rewrite (Hrow b Hb). destruct (fetch_row _ _ _ _ r) as [[e|]|e]; by rewrite ?IH. }
  assert (Hall : forall b : bool,
    String.eqb (Str.lower s) "minutes" = b ->
    fetch_listing urljoin pad_year base_url (with_doc_type cfg s) w =
    fetch_listing urljoin pad_year base_url
      (with_doc_type cfg (if b then "minutes" else "agenda")) w).
  { intros b Hb. unfold fetch_listing, bind. simpl.
    destruct (http_get base_url (user_agent cfg) 30 w) as [[r|e] w']; [|done].
    destruct (soup r) as [doc|e]; [|done].
    destruct (first_table doc); [|done]. by rewrite (Hloop b Hb). }
  split; [intros Hne; apply (Hall false); by apply String.eqb_neq|].
  split; [intros He; apply (Hall true); by apply String.eqb_eq|].
  split; [|split; by destruct pad_year].
  intros c0 c1 c2 more g dt Hne Hg Hdt Hy.
  rewrite (fetch_row_dated _ _ _ _ _ _ _ _ _ _ Hg Hdt). simpl.
  replace (year dt <? since_year cfg)%Z with false by (symmetry; apply Z.ltb_ge; lia).
  unfold selected_cell, link_outcome. simpl.
  apply String.eqb_neq in Hne. rewrite Hne.
  split; [|split].
  - intros href u Hl Hu. by rewrite Hl, Hu.
  - intros href e Hl Hu. by rewrite Hl, Hu.
  - intros Hl. by rewrite Hl.
Qed.

Lemma fetch_listing_doc_type_unvalidated_witness :
  let rows := [listing_row "June 15, 2019" "agenda.pdf" "minutes.pdf"] in
  fetch_listing sibling false sample_base (with_doc_type default_config "Budget")
    (listing_world rows) =
  fetch_listing sibling false sample_base (with_doc_type default_config "agenda")
    (listing_world rows) /\
  fetch_listing sibling false sample_base (with_doc_type default_config "Minutes")
    (listing_world rows) =
  fetch_listing sibling false sample_base (with_doc_type default_config "minutes")
    (listing_world rows) /\
  fetch_row sibling false sample_base (with_doc_type default_config "Budget")
    (listing_row "June 15, 2019" "agenda.pdf" "minutes.pdf") =
  Ok (Some ("2019-06-15", "https://sfbos.org/meetings/agenda.pdf")).
Proof.
  intros rows.
  destruct (fetch_listing_doc_type_unvalidated sibling false sample_base default_config
              (listing_world rows) "Budget") as (Ha & _ & Hr & _).
  destruct (fetch_listing_doc_type_unvalidated sibling false sample_base default_config
              (listing_world rows) "Minutes") as (_ & Hm & _).
  assert (Hne : Str.lower "Budget" <> "minutes") by discriminate.
  assert (Hy : (since_year default_config <= 2019)%Z) by (simpl; lia).
  split; [exact (Ha Hne)|]. split; [exact (Hm eq_refl)|].
  exact (proj1 (Hr (text_cell "June 15, 2019") (link_cell "agenda.pdf")
                  (link_cell "minutes.pdf") [] "June 15, 2019"
                  (midnight 2019 6 15) Hne eq_refl eq_refl Hy)
           "agenda.pdf" "https://sfbos.org/meetings/agenda.pdf" eq_refl eq_refl).
Defined.

(** C2. Rows that cannot be listed.  A row of two cells, a row whose first
    cell holds nothing that looks like a date and a row whose selected cell
    has no PDF link are skipped.  But a first cell that matches the date
    pattern and does not parse, such as the abbreviated month of
    [Sept 5, 2019] or the 31st of June, makes [fetch_listing] raise
    [ValueError], and the entries of the good rows are lost with it. *)
Theorem fetch_listing_row_date_raises :
  forall pad_year,
  let good := listing_row "June 15, 2019" "a190615.pdf" "m190615.pdf" in
  fst (fetch_listing sibling pad_year sample_base default_config
         (listing_world [good; [text_cell "June 1, 2019"; link_cell "a.pdf"]])) =
    Ok [("2019-06-15", "https://sfbos.org/meetings/m190615.pdf")] /\
  fst (fetch_listing sibling pad_year sample_base default_config
         (listing_world [good; listing_row "to be announced" "a.pdf" "m.pdf"])) =
    Ok [("2019-06-15", "https://sfbos.org/meetings/m190615.pdf")] /\
  fst (fetch_listing sibling pad_year sample_base default_config
         (listing_world [good; listing_row "June 1, 2019" "a.pdf" "m.html"])) =
    Ok [("2019-06-15", "https://sfbos.org/meetings/m190615.pdf")] /\
  fst (fetch_listing sibling pad_year sample_base default_config
         (listing_world [good; listing_row "Sept 5, 2019" "a.pdf" "m.pdf"])) =
    Raise ValueError /\
  fst (fetch_listing sibling pad_year sample_base default_config
         (listing_world [good; listing_row "June 31, 2019" "a.pdf" "m.pdf"])) =
    Raise ValueError.
Proof. intros []; repeat split; reflexivity. Qed.

(** ** Content hashing *)

Section Streaming.

Import SHA256.

Lemma absorb_small st (data : list Byte.byte) :
  length data < 64 -> absorb st data = (st, data).
Proof. intros H. unfold absorb. by rewrite Nat.div_small. Qed.

Lemma absorb_step st (data : list Byte.byte) :
  64 <= length data ->
  absorb st data = absorb (compress st (firstn 64 data)) (skipn 64 data).
Proof.
  intros H. unfold absorb. rewrite length_skipn.
  replace (length data / 64) with (S ((length data - 64) / 64)); [done|].
  replace (length data) with ((length data - 64) + 1 * 64) at 2 by lia.
  rewrite Nat.div_add by lia. lia.
Qed.

(** Absorbing a message and then more data is absorbing their
    concatenation: the bytes held back join the data that follows. *)
Lemma absorb_app (m d : list Byte.byte) : forall st,
  absorb st (m ++ d) = absorb (fst (absorb st m)) (snd (absorb st m) ++ d).
Proof.
  remember (length m) as n eqn:Hn. revert m Hn.
  induction n as [n IH] using lt_wf_ind. intros m Hn st.
  destruct (Nat.lt_ge_cases (length m) 64) as [Hlt|Hge].
  - by rewrite (absorb_small st m Hlt).
  - rewrite (absorb_step st m Hge).
    rewrite (absorb_step st (m ++ d)) by (rewrite length_app; lia).
    rewrite firstn_app, skipn_app.
    replace (64 - length m) with 0 by lia.
    rewrite firstn_O, app_nil_r, skipn_O.
    apply (IH (length (skipn 64 m))); [rewrite length_skipn; lia | done].
Qed.

Lemma holds_new : holds new [].
Proof. split; reflexivity. Qed.

Lemma holds_update h m data : holds h m -> holds (update h data) (m ++ data).
Proof.
  intros [Ha Hc]. unfold holds, update.
  rewrite (absorb_app m), Ha. simpl.
  destruct (absorb (state h) (buffer h ++ data)) as [st rest]. simpl.
  split; [done|]. rewrite length_app. lia.
Qed.

Lemma holds_hexdigest h m : holds h m -> hexdigest h = hexdigest_of m.
Proof.
  intros [Ha Hc]. unfold hexdigest, hexdigest_of.
  by rewrite (absorb_app m), Ha, Hc.
Qed.

Lemma firstn_nil_inv {A} n (f : list A) : 0 < n -> firstn n f = [] -> f = [].
Proof. destruct n; [lia|]. by destruct f. Qed.

Lemma chunk_positive : 0 < 8192.
Proof. apply Nat.ltb_lt. by vm_compute. Qed.

(** The reading loop ends before the fuel does and has then fed the whole
    file to the hash object. *)
Lemma update_chunks_holds fuel : forall (f : list Byte.byte) h m,
  length f < fuel -> holds h m ->
  exists h', update_chunks fuel f h = Some h' /\ holds h' (m ++ f).
Proof.
  induction fuel as [|fuel IH]; intros f h m Hlen Hh; [lia|].
  cbn [update_chunks read].
  destruct (firstn 8192 f) as [|b chunk] eqn:E.
  - exists h. split; [done|].
    rewrite (firstn_nil_inv _ _ chunk_positive E). by rewrite app_nil_r.
  - rewrite <- E.
    destruct (IH (skipn 8192 f) (update h (firstn 8192 f)) (m ++ firstn 8192 f))
      as (h' & Hrun & Hh').
    + rewrite length_skipn. pose proof chunk_positive.
      destruct f; [by rewrite firstn_nil in E|]. simpl length in *. lia.
    + by apply holds_update.
    + exists h'. split; [done|].
      by rewrite <- app_assoc, firstn_skipn in Hh'.
Qed.

End Streaming.

(** The loop always ends, with the digest of the whole content. *)
Lemma sha256_stream_correct (data : list Byte.byte) :
  sha256_stream data = Some (SHA256.hexdigest_of data).
Proof.
  unfold sha256_stream.
  destruct (update_chunks_holds (S (length data)) data SHA256.new [])
    as (h' & -> & Hh'); [lia | apply holds_new |].
  simpl. f_equal. by apply holds_hexdigest.
Qed.

Lemma sha256_file_at w (p : path) (data : list Byte.byte) :
  fs w !! p = Some (File data) ->
  _sha256_file p w = (Ok (SHA256.hexdigest_of data), w).
Proof.
  intros Hp. unfold _sha256_file, bind, read_bytes, read_result.
  by rewrite Hp, sha256_stream_correct.
Qed.

(** C8. Streaming and hashing in one pass agree.  For every file content
    the loop of [_sha256_file], which feeds the hash object chunks of 8192
    bytes until a read returns nothing, ends and yields the lowercase
    hexadecimal SHA-256 digest of the whole content; so for every file on
    disk [_sha256_file] returns that digest and changes nothing. *)
Theorem sha256_file_single_pass w (p : path) (data : list Byte.byte) :
  fs w !! p = Some (File data) ->
  sha256_stream data = Some (SHA256.hexdigest_of data) /\
  _sha256_file p w = (Ok (SHA256.hexdigest_of data), w).
Proof.
  intros Hp. split; [apply sha256_stream_correct | by apply sha256_file_at].
Qed.

(** The digest of the three bytes [abc], a published test vector. *)
Lemma sha256_abc :
  SHA256.hexdigest_of (list_byte_of_string "abc")
  = "ba7816bf8f01cfea414140de5dae2223b00361a396177a9cb410ff61f20015ad".
Proof. lazy. reflexivity. Qed.

(** A message that fills more than one block, also a published vector. *)
Lemma sha256_two_blocks :
  SHA256.hexdigest_of
    (list_byte_of_string "abcdbcdecdefdefgefghfghighijhijkijkljklmklmnlmnomnopnopq")
  = "248d6a61d20638b8e5c026930c3e6039a33ce45964ff2167f6ecedd419db06c1".
Proof. lazy. reflexivity. Qed.

Lemma sha256_file_single_pass_witness :
  _sha256_file ["pdfs"; "abc.pdf"] (one_file_world "abc.pdf" (list_byte_of_string "abc"))
  = (Ok "ba7816bf8f01cfea414140de5dae2223b00361a396177a9cb410ff61f20015ad",
     one_file_world "abc.pdf" (list_byte_of_string "abc")).
Proof.
  destruct (sha256_file_single_pass
              (one_file_world "abc.pdf" (list_byte_of_string "abc"))
              ["pdfs"; "abc.pdf"] (list_byte_of_string "abc") eq_refl) as [_ H].
  rewrite <- sha256_abc. exact H.
Defined.

(** ** JSON text *)

(** *** Decimal numerals *)

Lemma append_cons c (a b : string) : String c a +:+ b = String c (a +:+ b).
Proof. reflexivity. Qed.

Lemma append_nil_l (b : string) : "" +:+ b = b.
Proof. reflexivity. Qed.

Lemma append_nil_r (a : string) : a +:+ "" = a.
Proof. induction a as [|x a IH]; [done|]. by rewrite append_cons, IH. Qed.

Lemma append_assoc_s (a b c : string) : (a +:+ b) +:+ c = a +:+ (b +:+ c).
Proof. induction a as [|x a IH]; [done|]. by rewrite !append_cons, IH. Qed.

Lemma int_acc_app a (s1 s2 : string) :
  Str.int_acc a (s1 +:+ s2) = Str.int_acc (Str.int_acc a s1) s2.
Proof.
  revert a. induction s1 as [|c s1 IH]; intros a; [done|].
  rewrite append_cons. simpl. apply IH.
Qed.

Lemma all_digits_app (s1 s2 : string) :
  Str.all_digits (s1 +:+ s2) = Str.all_digits s1 && Str.all_digits s2.
Proof.
  induction s1 as [|c s1 IH]; [done|].
  rewrite append_cons. simpl. by rewrite IH, andb_assoc.
Qed.

Lemma digit_char_spec d :
  (0 <= d < 10)%Z ->
  Str.is_digit (Str.digit_char d) = true /\ Str.digit_val (Str.digit_char d) = d /\
  (Str.code (Str.digit_char d) =? 48)%N = (d =? 0)%Z.
Proof.
  intros H.
  assert (Hd : (d = 0 \/ d = 1 \/ d = 2 \/ d = 3 \/ d = 4 \/ d = 5 \/ d = 6 \/ d = 7
                \/ d = 8 \/ d = 9)%Z) by lia.
  destruct Hd as [->|[->|[->|[->|[->|[->|[->|[->|[->| ->]]]]]]]]]; by vm_compute.
Qed.

Lemma digits_fuel_spec fuel : forall n acc,
  (0 <= n < 10 ^ Z.of_nat fuel)%Z -> (0 < fuel)%nat ->
  exists ds, Str.digits_fuel fuel n acc = ds +:+ acc /\ numeral_of ds n.
Proof.
  induction fuel as [|fuel IH]; intros n acc Hn Hf; [lia|].
  cbn [Str.digits_fuel].
  assert (Hmod : (0 <= n mod 10 < 10)%Z) by (apply Z.mod_pos_bound; lia).
  destruct (digit_char_spec _ Hmod) as (Hd1 & Hd2 & Hd3).
  destruct (n <? 10)%Z eqn:E.
  - apply Z.ltb_lt in E. rewrite Z.mod_small in * by lia.
    exists (String (Str.digit_char n) ""). split; [done|].
    split; [simpl; by rewrite Hd1|]. split.
    + unfold Str.int_of_digits. simpl. lia.
    + exists (Str.digit_char n), "". split; [done|]. intros H0.
      rewrite Hd3 in H0. apply Z.eqb_eq in H0. done.
  - apply Z.ltb_ge in E.
    destruct fuel as [|fuel'].
    { simpl in Hn. lia. }
    destruct (IH (n / 10)%Z (String (Str.digit_char (n mod 10)) acc))
      as (ds & Hds & Hall & Hval & c & ds' & -> & Hlead); [|lia|].
    { split; [apply Z.div_pos; lia|].
      apply Z.div_lt_upper_bound; [lia|].
      replace (Z.of_nat (S (S fuel'))) with (Z.of_nat (S fuel') + 1)%Z in Hn by lia.
      rewrite Z.pow_add_r in Hn by lia. lia. }
    exists (String c ds' +:+ String (Str.digit_char (n mod 10)) "").
    split; [by rewrite Hds, append_assoc_s|].
    split; [rewrite all_digits_app, Hall; simpl; by rewrite Hd1|]. split.
    + unfold Str.int_of_digits in *. rewrite int_acc_app, Hval. simpl.
      rewrite Hd2. pose proof (Z.div_mod n 10). lia.
    + exists c, (ds' +:+ String (Str.digit_char (n mod 10)) "").
      split; [done|]. intros H0. destruct (Hlead H0) as [_ Hz].
      assert (1 <= n / 10)%Z by (apply Z.div_le_lower_bound; lia). lia.
Qed.

Lemma nat_digits_spec n : (0 <= n)%Z -> numeral_of (Str.nat_digits n) n.
Proof.
  intros Hn. unfold Str.nat_digits.
  destruct (digits_fuel_spec (S (Z.to_nat (Z.log2 n))) n "") as (ds & Hds & Hnum).
  - split; [done|].
    destruct (Z.eq_dec n 0%Z) as [->|Hne]; [by vm_compute|].
    assert (Hlog : (n < 2 ^ Z.succ (Z.log2 n))%Z) by (apply Z.log2_spec; lia).
    pose proof (Z.log2_nonneg n).
    replace (Z.of_nat (S (Z.to_nat (Z.log2 n)))) with (Z.succ (Z.log2 n)) by lia.
    assert (2 ^ Z.succ (Z.log2 n) <= 10 ^ Z.succ (Z.log2 n))%Z
      by (apply Z.pow_le_mono_l; lia).
    lia.
  - lia.
  - by rewrite Hds, append_nil_r.
Qed.

(** *** Reading back what was written *)

Lemma span_digits (ds k : string) :
  Str.all_digits ds = true ->
  match k with String c _ => Str.is_digit c = false | EmptyString => True end ->
  Str.span Str.is_digit (ds +:+ k) = (ds, k).
Proof.
  intros Hds Hk. induction ds as [|c ds IH].
  - rewrite append_nil_l. destruct k as [|c k]; [done|]. simpl. by rewrite Hk.
  - simpl in Hds. apply andb_true_iff in Hds as [Hc Hds].
    rewrite append_cons. simpl. by rewrite Hc, (IH Hds).
Qed.

Lemma follow_not_digit k :
  Json.follow_ok k = true ->
  match k with String c _ => Str.is_digit c = false | EmptyString => True end.
Proof.
  destruct k as [|c k]; [done|]. unfold Json.follow_ok, Str.is_digit.
  intros H. destruct (Str.code c =? 44)%N eqn:E1.
  { apply N.eqb_eq in E1. by rewrite E1. }
  destruct (Str.code c =? 93)%N eqn:E2.
  { apply N.eqb_eq in E2. by rewrite E2. }
  simpl in H. apply N.eqb_eq in H. by rewrite H.
Qed.

Lemma follow_not_float k :
  Json.follow_ok k = true ->
  match k with
  | String c _ =>
      ((Str.code c =? 46) || (Str.code c =? 101) || (Str.code c =? 69))%N = false
  | EmptyString => True
  end.
Proof.
  destruct k as [|c k]; [done|]. unfold Json.follow_ok.
  intros H. destruct (Str.code c =? 44)%N eqn:E1.
  { apply N.eqb_eq in E1. by rewrite E1. }
  destruct (Str.code c =? 93)%N eqn:E2.
  { apply N.eqb_eq in E2. by rewrite E2. }
  simpl in H. apply N.eqb_eq in H. by rewrite H.
Qed.

Lemma digit_not_minus c : Str.is_digit c = true -> (Str.code c =? 45)%N = false.
Proof.
  unfold Str.is_digit. intros H. apply andb_true_iff in H as [H1 H2].
  apply N.leb_le in H1. apply N.eqb_neq. lia.
Qed.

Lemma parse_nat_digits n k :
  (0 <= n)%Z -> Json.follow_ok k = true ->
  Json.parse_int (Str.nat_digits n +:+ k) = Some (n, k).
Proof.
  intros Hn Hk.
  destruct (nat_digits_spec n Hn) as (Hall & Hval & c & ds' & Hds & Hlead).
  unfold Json.parse_int. rewrite Hds in *. rewrite append_cons.
  simpl in Hall. apply andb_true_iff in Hall as [Hc Hall'].
  rewrite (digit_not_minus c Hc). rewrite <- append_cons.
  rewrite span_digits; [|by simpl; rewrite Hc, Hall' | by apply follow_not_digit].
  destruct ((Str.code c =? 48)%N) eqn:E0.
  - destruct (Hlead eq_refl) as [-> ->]. simpl.
    pose proof (follow_not_float k Hk) as Hf. destruct k as [|c' k].
    + by rewrite Hval.
    + by rewrite Hf, Hval.
  - simpl. pose proof (follow_not_float k Hk) as Hf. destruct k as [|c' k].
    + by rewrite Hval.
    + by rewrite Hf, Hval.
Qed.

Lemma parse_str_of_int z k :
  Json.follow_ok k = true ->
  Json.parse_int (Str.str_of_int z +:+ k) = Some (z, k).
Proof.
  intros Hk. unfold Str.str_of_int. destruct (z <? 0)%Z eqn:E.
  - apply Z.ltb_lt in E. rewrite append_cons.
    assert (Hn : (0 <= - z)%Z) by lia.
    pose proof (parse_nat_digits (- z) k Hn Hk) as Hp.
    destruct (nat_digits_spec (- z) Hn) as (Hall & Hval & c & ds' & Hds & Hlead).
    unfold Json.parse_int in *. simpl.
    rewrite Hds in *. rewrite append_cons in *.
    simpl in Hall. apply andb_true_iff in Hall as [Hc Hall'].
    rewrite (digit_not_minus c Hc) in Hp.
    destruct (Str.span Str.is_digit (String c (ds' +:+ k))) as [ds rest].
    destruct ds as [|d ds'']; [done|].
    destruct ((Str.code d =? 48)%N && negb (String.eqb ds'' "")); [done|].
    destruct (match rest with String c0 _ => _ | EmptyString => false end); [done|].
    injection Hp as Hv ->. f_equal. f_equal. lia.
  - apply Z.ltb_ge in E. by apply parse_nat_digits.
Qed.

Lemma str_of_int_head z k :
  exists c r, Str.str_of_int z +:+ k = String c r /\
              (Str.is_digit c || (Str.code c =? 45)%N) = true.
Proof.
  unfold Str.str_of_int. destruct (z <? 0)%Z eqn:E.
  - rewrite append_cons. eexists _, _. split; [done|]. by vm_compute.
  - apply Z.ltb_ge in E.
    destruct (nat_digits_spec z E) as (Hall & _ & c & ds' & Hds & _).
    rewrite Hds in *. rewrite append_cons. eexists _, _. split; [done|].
    simpl in Hall. apply andb_true_iff in Hall as [-> _]. done.
Qed.

(** Every character comes back from its escaped form. *)
Lemma parse_escape_char c k :
  Json.parse_string (Json.escape_char c k) = Json.cons_char c (Json.parse_string k).
Proof.
  destruct c as [[] [] [] [] [] [] [] []]; reflexivity.
Qed.

Lemma parse_escape s k :
  Json.parse_string (Json.escape s (String Json.quote k)) = Some (s, k).
Proof.
  induction s as [|c s IH]; [done|].
  cbn [Json.escape]. by rewrite parse_escape_char, IH.
Qed.

Lemma write_arr_cons x l k :
  Json.write (Json.Arr (x :: l)) k = String "[" (Json.write x (Json.write_elems l k)).
Proof.
  cbn [Json.write]. do 2 f_equal.
  induction l as [|y l IH]; [done|]. cbn [Json.write_elems]. by rewrite <- IH.
Qed.

Lemma write_obj_cons key x l k :
  Json.write (Json.Obj ((key, x) :: l)) k =
  String "{" (Json.write_string key (String ":" (Json.write x (Json.write_members l k)))).
Proof.
  cbn [Json.write]. do 4 f_equal.
  induction l as [|[key' y] l IH]; [done|]. cbn [Json.write_members]. by rewrite <- IH.
Qed.

Lemma digit_or_minus_plain c :
  (Str.is_digit c || (Str.code c =? 45)%N) = true ->
  Json.is_ws c = false /\ (Str.code c =? 93)%N = false /\ (Str.code c =? 125)%N = false
  /\ (Str.code c =? 34)%N = false /\ (Str.code c =? 91)%N = false
  /\ (Str.code c =? 123)%N = false.
Proof.
  unfold Str.is_digit, Json.is_ws. intros H.
  assert (Hc : (48 <= Str.code c <= 57 \/ Str.code c = 45)%N).
  { apply orb_true_iff in H as [H|H].
    - apply andb_true_iff in H as [H1 H2]. apply N.leb_le in H1, H2. lia.
    - apply N.eqb_eq in H. lia. }
  repeat split; repeat (apply orb_false_iff; split); apply N.eqb_neq; lia.
Qed.

Lemma write_starts_value v k : starts_value (Json.write v k).
Proof.
  destruct v as [|[]|z|s|[|x l]|[|[key x] l]].
  1-3, 5-9: (eexists _, _; split; [reflexivity|]; by vm_compute).
  destruct (str_of_int_head z k) as (c & r & Hw & Hc).
  exists c, r. split; [exact Hw|].
  destruct (digit_or_minus_plain c Hc) as (? & ? & ? & _). done.
Qed.

Lemma skip_ws_starts_value s : starts_value s -> Json.skip_ws s = s.
Proof. intros (c & r & -> & Hc & _). simpl. by rewrite Hc. Qed.

Lemma follow_write_elems l k : Json.follow_ok (Json.write_elems l k) = true.
Proof. by destruct l. Qed.

Lemma follow_write_members l k : Json.follow_ok (Json.write_members l k) = true.
Proof. by destruct l as [|[key y] l]. Qed.

Lemma parse_elements_last f s x k :
  Json.parse_value f s = Some (x, String "]" k) ->
  Json.parse_elements (S f) s = Some ([x], k).
Proof. intros H. cbn [Json.parse_elements]. by rewrite H. Qed.

Lemma parse_elements_more f s x r :
  Json.parse_value f s = Some (x, String "," r) ->
  Json.parse_elements (S f) s =
  match Json.parse_elements f r with
  | Some (vs, r2) => Some (x :: vs, r2)
  | None => None
  end.
Proof. intros H. cbn [Json.parse_elements]. by rewrite H. Qed.

Lemma parse_elements_write fuel :
  (forall f, f < fuel -> reads_back f) ->
  forall l x f k,
    f <= fuel ->
    S (Json.size x + fold_right (fun y acc => S (Json.size y + acc)) O l) <= f ->
    Json.follow_ok k = true ->
    Json.parse_elements f (Json.write x (Json.write_elems l k)) = Some (x :: l, k).
Proof.
  intros IH l. induction l as [|y l IHl]; intros x f k Hf Hsz Hk.
  - destruct f as [|f]; [lia|].
    apply parse_elements_last, (IH f); [lia|simpl in Hsz; lia|done].
  - destruct f as [|f]; [lia|]. cbn [Json.write_elems].
    rewrite (parse_elements_more f _ x (Json.write y (Json.write_elems l k))).
    + rewrite IHl; [done|lia|simpl in Hsz; lia|done].
    + apply (IH f); [lia|simpl in Hsz; lia|done].
Qed.

Lemma parse_members_last f key s x k :
  Json.parse_value f s = Some (x, String "}" k) ->
  Json.parse_members (S f) (Json.write_string key (String ":" s)) = Some ([(key, x)], k).
Proof.
  intros H. cbn [Json.parse_members]. unfold Json.write_string.
  change (Json.skip_ws (String Json.quote ?r)) with (String Json.quote r).
  change ((Str.code Json.quote =? 34)%N) with true. cbv iota.
  rewrite parse_escape.
  change (Json.skip_ws (String ":" s)) with (String ":" s).
  change ((Str.code ":" =? 58)%N) with true. cbv iota.
  by rewrite H.
Qed.

Lemma parse_members_more f key s x r :
  Json.parse_value f s = Some (x, String "," r) ->
  Json.parse_members (S f) (Json.write_string key (String ":" s)) =
  match Json.parse_members f r with
  | Some (ms, r2) => Some ((key, x) :: ms, r2)
  | None => None
  end.
Proof.
  intros H. cbn [Json.parse_members]. unfold Json.write_string.
  change (Json.skip_ws (String Json.quote ?r)) with (String Json.quote r).
  change ((Str.code Json.quote =? 34)%N) with true. cbv iota.
  rewrite parse_escape.
  change (Json.skip_ws (String ":" s)) with (String ":" s).
  change ((Str.code ":" =? 58)%N) with true. cbv iota.
  by rewrite H.
Qed.

Lemma parse_members_write fuel :
  (forall f, f < fuel -> reads_back f) ->
  forall l key x f k,
    f <= fuel ->
    S (Json.size x + fold_right (fun kx acc => S (Json.size (snd kx) + acc)) O l) <= f ->
    Json.follow_ok k = true ->
    Json.parse_members f
      (Json.write_string key (String ":" (Json.write x (Json.write_members l k))))
    = Some ((key, x) :: l, k).
Proof.
  intros IH l. induction l as [|[key' y] l IHl]; intros key x f k Hf Hsz Hk.
  - destruct f as [|f]; [lia|].
    apply parse_members_last, (IH f); [lia|simpl in Hsz; lia|done].
  - destruct f as [|f]; [lia|]. cbn [Json.write_members].
    rewrite (parse_members_more f key _ x
               (Json.write_string key' (String ":" (Json.write y (Json.write_members l k))))).
    + rewrite IHl; [done|lia|simpl in Hsz; lia|done].
    + apply (IH f); [lia|simpl in Hsz; lia|done].
Qed.

Lemma parse_value_text f s k :
  Json.parse_value (S f) (Json.write_string s k) = Some (Json.Text s, k).
Proof.
  cbn [Json.parse_value]. unfold Json.write_string.
  change (Json.skip_ws (String Json.quote ?r)) with (String Json.quote r). cbv beta iota zeta.
  change ((Str.code Json.quote =? 34)%N) with true. cbv iota.
  by rewrite parse_escape.
Qed.

Lemma parse_value_int f z k :
  Json.follow_ok k = true ->
  Json.parse_value (S f) (Str.str_of_int z +:+ k) = Some (Json.Int z, k).
Proof.
  intros Hk. pose proof (parse_str_of_int z k Hk) as Hp.
  destruct (str_of_int_head z k) as (c & r & Hw & Hc).
  rewrite Hw in *.
  destruct (digit_or_minus_plain c Hc) as (Hws & _ & _ & H34 & H91 & H123).
  cbn [Json.parse_value Json.skip_ws]. rewrite Hws. cbv beta iota zeta.
  by rewrite H34, H91, H123, Hc, Hp.
Qed.

Lemma parse_value_arr f r :
  starts_value r ->
  Json.parse_value (S f) (String "[" r) =
  match Json.parse_elements f r with
  | Some (vs, r2) => Some (Json.Arr vs, r2)
  | None => None
  end.
Proof.
  intros Hr. pose proof (skip_ws_starts_value r Hr) as Hs.
  destruct Hr as (c & r' & -> & Hws & H93 & _).
  cbn [Json.parse_value].
  change (Json.skip_ws (String "[" ?x)) with (String "[" x). cbv beta iota zeta.
  change ((Str.code "[" =? 34)%N) with false.
  change ((Str.code "[" =? 91)%N) with true. cbv iota.
  rewrite Hs. by rewrite H93.
Qed.

Lemma parse_value_obj f r :
  Json.parse_value (S f) (String "{" (String Json.quote r)) =
  match Json.parse_members f (String Json.quote r) with
  | Some (ms, r2) => Some (Json.Obj ms, r2)
  | None => None
  end.
Proof. reflexivity. Qed.

Lemma reads_back_all fuel : reads_back fuel.
Proof.
  induction fuel as [fuel IH] using lt_wf_ind. intros v k Hsz Hk.
  destruct fuel as [|f]; [destruct v; simpl in Hsz; lia|].
  destruct v as [|[]|z|s|[|x l]|[|[key x] l]]; try reflexivity.
  - by apply parse_value_int.
  - apply parse_value_text.
  - rewrite write_arr_cons, parse_value_arr by apply write_starts_value.
    rewrite (parse_elements_write (S f) IH); [done|lia|simpl in Hsz; lia|done].
  - rewrite write_obj_cons. unfold Json.write_string at 1. rewrite parse_value_obj.
    change (String Json.quote (Json.escape key (String Json.quote ?r)))
      with (Json.write_string key r).
    rewrite (parse_members_write (S f) IH); [done|lia|simpl in Hsz; lia|done].
Qed.

Lemma append_length (a b : string) :
  String.length (a +:+ b) = String.length a + String.length b.
Proof. induction a as [|c a IH]; [done|]. rewrite append_cons. simpl. by rewrite IH. Qed.

Lemma escape_char_length c k : String.length k < String.length (Json.escape_char c k).
Proof.
  unfold Json.escape_char.
  repeat match goal with |- context [if ?b then _ else _] => destruct b end; simpl; lia.
Qed.

Lemma escape_length s k : String.length k <= String.length (Json.escape s k).
Proof.
  induction s as [|c s IH]; simpl; [lia|].
  pose proof (escape_char_length c (Json.escape s k)). lia.
Qed.

Lemma write_string_length s k :
  2 + String.length k <= String.length (Json.write_string s k).
Proof.
  unfold Json.write_string. simpl.
  pose proof (escape_length s (String Json.quote k)). simpl in *. lia.
Qed.

(** The text of a value is at least as long as the fuel its reading takes. *)
Lemma write_length : forall v k,
  Json.size v + String.length k <= String.length (Json.write v k).
Proof.
  fix F 1. intros v k.
  destruct v as [|[]|z|s|[|x l]|[|[key x] l]].
  1-3, 6, 8: (cbn [Json.write Json.size]; rewrite append_length; simpl; lia).
  - cbn [Json.write Json.size]. rewrite append_length.
    destruct (str_of_int_head z "") as (c & r & Hw & _). rewrite append_nil_r in Hw.
    rewrite Hw. simpl. lia.
  - pose proof (write_string_length s k). simpl in *. lia.
  - rewrite write_arr_cons. cbn [Json.size fold_right String.length].
    assert (Hl : forall l k, fold_right (fun y acc => S (Json.size y + acc)) O l
                             + S (String.length k)
                             <= String.length (Json.write_elems l k)).
    { clear l k. fix G 1. intros [|y l] k; [simpl; lia|].
      cbn [Json.write_elems fold_right String.length].
      pose proof (F y (Json.write_elems l k)). pose proof (G l k). lia. }
    pose proof (F x (Json.write_elems l k)). pose proof (Hl l k). lia.
  - rewrite write_obj_cons. cbn [Json.size fold_right String.length snd].
    assert (Hl : forall l k,
               fold_right (fun kx acc => S (Json.size (snd kx) + acc)) O l
               + S (String.length k)
               <= String.length (Json.write_members l k)).
    { clear l k. fix G 1. intros [|[key' y] l] k; [simpl; lia|].
      cbn [Json.write_members fold_right String.length snd].
      pose proof (write_string_length key'
                    (String ":" (Json.write y (Json.write_members l k)))).
      pose proof (F y (Json.write_members l k)). pose proof (G l k).
      cbn [String.length] in *. lia. }
    pose proof (write_string_length key
                  (String ":" (Json.write x (Json.write_members l k)))).
    pose proof (F x (Json.write_members l k)). pose proof (Hl l k).
    cbn [String.length] in *. lia.
Qed.

(** Reading what [dumps] wrote gives the value back. *)
Lemma loads_dumps v : Json.loads (Json.dumps v) = Some v.
Proof.
  unfold Json.loads, Json.dumps.
  rewrite reads_back_all; [done| |done].
  pose proof (write_length v ""). simpl in *. lia.
Qed.

(** *** No raw newline *)

Lemma escape_char_newline c k :
  Json.has_newline (Json.escape_char c k) = Json.has_newline k.
Proof. destruct c as [[] [] [] [] [] [] [] []]; reflexivity. Qed.

Lemma escape_newline s k : Json.has_newline (Json.escape s k) = Json.has_newline k.
Proof.
  induction s as [|c s IH]; [done|]. cbn [Json.escape]. by rewrite escape_char_newline.
Qed.

Lemma write_string_newline s k :
  Json.has_newline (Json.write_string s k) = Json.has_newline k.
Proof. unfold Json.write_string. simpl. by rewrite escape_newline. Qed.

Lemma digits_newline (ds k : string) :
  Str.all_digits ds = true -> Json.has_newline (ds +:+ k) = Json.has_newline k.
Proof.
  induction ds as [|c ds IH]; [done|]. intros H. simpl in H.
  apply andb_true_iff in H as [Hc Hds]. rewrite append_cons. simpl.
  rewrite (IH Hds). unfold Str.is_digit in Hc.
  apply andb_true_iff in Hc as [H1 _]. apply N.leb_le in H1.
  replace (Str.code c =? 10)%N with false; [done|]. symmetry. apply N.eqb_neq. lia.
Qed.

Lemma str_of_int_newline z k :
  Json.has_newline (Str.str_of_int z +:+ k) = Json.has_newline k.
Proof.
  unfold Str.str_of_int. destruct (z <? 0)%Z eqn:E.
  - apply Z.ltb_lt in E. rewrite append_cons. simpl.
    apply digits_newline. apply nat_digits_spec. lia.
  - apply Z.ltb_ge in E. apply digits_newline. by apply nat_digits_spec.
Qed.

(** Writing a value adds no newline to the text. *)
Lemma write_newline : forall v k, Json.has_newline (Json.write v k) = Json.has_newline k.
Proof.
  fix F 1. intros v k.
  destruct v as [|[]|z|s|[|x l]|[|[key x] l]]; try reflexivity.
  - apply str_of_int_newline.
  - apply write_string_newline.
  - rewrite write_arr_cons. simpl. rewrite F.
    clear x. revert k. induction l as [|y l IH]; intros k; [done|].
    cbn [Json.write_elems]. simpl. by rewrite F.
  - rewrite write_obj_cons. simpl. rewrite escape_newline. simpl. rewrite F.
    clear x key. revert k. induction l as [|[key' y] l IH]; intros k; [done|].
    cbn [Json.write_members]. simpl. rewrite escape_newline. simpl. by rewrite F.
Qed.

(** C3. One record, one line, one JSON object.  For every record, the text
    [to_jsonl_line] returns holds no newline character, and reading it as
    JSON gives back an object, the one with the fields of the record in
    declaration order; in it [source_url], [doc_type], [sha256] and
    [extracted] are present with the values of the record. *)
Theorem to_jsonl_line_one_json_object (r : Models.DocRecord) :
  Json.has_newline (Models.to_jsonl_line r) = false /\
  exists members,
    Json.loads (Models.to_jsonl_line r) = Some (Json.Obj members) /\
    Json.Obj members = Models.record_json r /\
    Json.lookup "source_url" members = Some (Json.Text (Models.source_url r)) /\
    Json.lookup "doc_type" members
      = Some (Json.Text (Models.doc_type_str (Models.doc_type r))) /\
    Json.lookup "sha256" members = Some (Json.Text (Models.sha256 r)) /\
    Json.lookup "extracted" members = Some (Models.payload_json (Models.extracted r)).
Proof.
  split.
  - unfold Models.to_jsonl_line, Json.dumps. by rewrite write_newline.
  - eexists. split; [apply loads_dumps|]. split; [reflexivity|]. by repeat split.
Qed.

(** ** Metadata builder *)

Lemma read_result_file (m : gmap path node) (p : path) (data : list Byte.byte) :
  m !! p = Some (File data) -> read_result m p = Ok data.
Proof. intros H. unfold read_result. by rewrite H. Qed.

Lemma extract_metadata_pure lib now (p : path) src committee dt w :
  extract_metadata lib now p src committee dt w =
  (metadata_of lib now (read_result (fs w) p) src committee dt, w).
Proof.
  unfold extract_metadata, metadata_of, bind.
  destruct (fs w !! p) as [[data|]|] eqn:Hp.
  - rewrite (sha256_file_at w p data Hp), (read_result_file _ _ _ Hp).
    unfold stat_size, read_bytes.
    rewrite Hp, (read_result_file _ _ _ Hp). simpl.
    destruct (sniff lib data) as [pc t]. simpl.
    destruct (Models.validate_doc_type dt); reflexivity.
  - unfold _sha256_file, bind, read_bytes, read_result. by rewrite Hp.
  - unfold _sha256_file, bind, read_bytes, read_result. by rewrite Hp.
Qed.

(** C6. Degraded introspection.  For a file on disk and a recognized
    document type, [extract_metadata] returns a record and changes nothing,
    whatever the PDF library does; [sha256] and [file_size] are those of the
    content.  When the library is missing, or opening the document or listing
    its pages raises, [page_count] and the title are unset.  When the failure
    comes after the pages were counted (there is no first page, or its text
    extraction raises) the title is unset and [page_count] holds the number
    of pages. *)
Theorem extract_metadata_degrades lib now w (p : path) (data : list Byte.byte)
    src committee dt :
  fs w !! p = Some (File data) ->
  In dt ["minutes"; "agenda"] ->
  exists rec,
    extract_metadata lib now p src committee dt w = (Ok rec, w) /\
    Models.sha256 rec = SHA256.hexdigest_of data /\
    Models.file_size rec = Some (Z.of_nat (length data)) /\
    (introspection_fails_early lib data ->
     Models.page_count rec = None /\ Models.title (Models.extracted rec) = None) /\
    (forall n, introspection_fails_late lib data n ->
     Models.page_count rec = Some (Z.of_nat n) /\
     Models.title (Models.extracted rec) = None).
Proof.
  intros Hp Hdt. rewrite extract_metadata_pure, (read_result_file _ _ _ Hp).
  unfold metadata_of, rbind.
  assert (Hv : exists t, Models.validate_doc_type dt = Ok t).
  { destruct Hdt as [<-|[<-|[]]]; eexists; reflexivity. }
  destruct Hv as [t ->]. simpl. eexists. split; [reflexivity|]. simpl.
  split; [done|]. split; [done|]. split.
  - unfold introspection_fails_early, sniff.
    destruct lib as [open_pdf|]; [|done].
    destruct (open_pdf data) as [pdf|e]; [|done].
    by destruct (pages pdf).
  - intros n (open_pdf & pdf & ps & -> & Ho & Hps & <- & Hfail).
    unfold sniff. rewrite Ho, Hps.
    destruct ps as [|[t0|e] ps]; done.
Qed.

Lemma extract_metadata_degrades_witness :
  exists rec,
    extract_metadata broken_text_library sample_now ["pdfs"; "abc.pdf"]
      "file://pdfs/abc.pdf" (Some "Land Use and Transportation") "minutes" rerun_world
    = (Ok rec, rerun_world) /\
    Models.sha256 rec = "ba7816bf8f01cfea414140de5dae2223b00361a396177a9cb410ff61f20015ad" /\
    Models.file_size rec = Some 3%Z /\
    Models.page_count rec = Some 3%Z /\
    Models.title (Models.extracted rec) = None.
Proof.
  assert (Hin : In "minutes" ["minutes"; "agenda"]) by (left; reflexivity).
  destruct (extract_metadata_degrades broken_text_library sample_now rerun_world
              ["pdfs"; "abc.pdf"] (list_byte_of_string "abc") "file://pdfs/abc.pdf"
              (Some "Land Use and Transportation") "minutes" eq_refl Hin)
    as (rec & Hrun & Hsha & Hsize & _ & Hlate).
  exists rec. split; [exact Hrun|]. split; [rewrite Hsha; apply sha256_abc|].
  split; [exact Hsize|].
  apply (Hlate 3%nat).
  exists (fun _ => Ok {| pages := Ok [Raise OtherError; Ok None; Ok None] |}).
  eexists _, _. repeat split; reflexivity.
Defined.

(** The claim as the specification states it fails: text extraction raises
    on the first of three pages, and the record still says three pages. *)
Lemma extract_metadata_page_count_survives :
  introspection_fails_late broken_text_library (list_byte_of_string "abc") 3 /\
  exists rec,
    fst (extract_metadata broken_text_library sample_now ["pdfs"; "abc.pdf"]
           "file://pdfs/abc.pdf" (Some "Land Use and Transportation") "minutes"
           rerun_world) = Ok rec /\
    Models.page_count rec = Some 3%Z /\
    ~ (Models.page_count rec = None /\ Models.title (Models.extracted rec) = None).
Proof.
  split.
  - exists (fun _ => Ok {| pages := Ok [Raise OtherError; Ok None; Ok None] |}).
    eexists _, _. repeat split; reflexivity.
  - rewrite extract_metadata_pure. eexists. split; [reflexivity|].
    split; [reflexivity|]. by intros [? _].
Qed.

(** ** Command [extract] *)

Lemma In_insert_sorted x a l : In x (insert_sorted a l) -> x = a \/ In x l.
Proof.
  induction l as [|y l IH]; simpl.
  - intros [<-|[]]. by left.
  - destruct (String.leb a y); simpl.
    + intros [<-|H]; [by left | by right].
    + intros [<-|H]; [right; by left|]. destruct (IH H); [by left | right; by right].
Qed.

Lemma In_sort_names x l : In x (sort_names l) -> In x l.
Proof.
  induction l as [|a l IH]; simpl; [done|].
  intros H. destruct (In_insert_sorted _ _ _ H); [by left | right; by apply IH].
Qed.

(** Every listed path is a [*.pdf] entry of the directory. *)
Lemma pdf_listing_name (d : path) (m : gmap path node) (p : path) :
  In p (pdf_listing d m) -> Str.endswith (List.last p "") ".pdf" = true.
Proof.
  unfold pdf_listing. intros H. apply in_map_iff in H as (name & <- & Hn).
  rewrite last_last. apply In_sort_names in Hn.
  unfold pdf_names in Hn. apply list_elem_of_In, list_elem_of_omap in Hn
    as ([q n] & _ & Hq). simpl in Hq.
  destruct q as [|c q]; [done|].
  destruct (bool_decide _ && Str.endswith _ _) eqn:E; [|done].
  injection Hq as <-. by apply andb_true_iff in E as [_ E].
Qed.

Lemma pdf_name_path (d : path) (q : path) (name : string) :
  match q with
  | [] => None
  | _ :: _ =>
      if bool_decide (parent q = d) && Str.endswith (List.last q "") ".pdf"
      then Some (List.last q "") else None
  end = Some name ->
  q = d ++ [name] /\ Str.endswith name ".pdf" = true.
Proof.
  destruct q as [|c q]; [done|].
  destruct (bool_decide (parent (c :: q) = d)) eqn:Hp; [|done].
  destruct (Str.endswith (List.last (c :: q) "") ".pdf") eqn:He; [|done].
  cbn [andb]. intros [= <-]. apply bool_decide_eq_true_1 in Hp. subst d.
  split; [|exact He]. unfold parent.
  exact (app_removelast_last (l := c :: q) "" ltac:(discriminate)).
Qed.

(** The names listed for a directory are those of its entries that end in
    [.pdf]. *)
Lemma In_pdf_names (d : path) (m : gmap path node) (name : string) :
  In name (pdf_names d m) <->
  is_Some (m !! (d ++ [name])) /\ Str.endswith name ".pdf" = true.
Proof.
  unfold pdf_names. rewrite <- list_elem_of_In, list_elem_of_omap. split.
  - intros ([q n] & Hq & Hf). apply elem_of_map_to_list in Hq.
    apply (pdf_name_path d q name) in Hf as [-> He]. eauto.
  - intros [[n Hn] He]. exists (d ++ [name], n).
    split; [by apply elem_of_map_to_list|]. cbn [fst].
    destruct (d ++ [name]) as [|c q] eqn:E; [by destruct d|].
    rewrite <- E, parent_snoc, last_last, He.
    by rewrite bool_decide_eq_true_2.
Qed.

(** Every listed path is on the disk. *)
Lemma pdf_listing_present (d : path) (m : gmap path node) (p : path) :
  In p (pdf_listing d m) -> is_Some (m !! p).
Proof.
  unfold pdf_listing. intros H. apply in_map_iff in H as (name & <- & Hn).
  by apply In_sort_names, In_pdf_names in Hn as [? _].
Qed.

(** Creating the directories above a path leaves the path itself alone. *)
Lemma mkdir_keeps_path (p : path) (m0 m : gmap path node) :
  mkdir_from [] (parent p) m0 = Ok m -> m !! p = m0 !! p.
Proof.
  intros Hm. destruct (mkdir_from_post _ _ _ _ Hm) as (_ & Hkeep & Hnew).
  destruct (m0 !! p) as [x|] eqn:E; [rewrite Hkeep; [done | rewrite E; eauto]|].
  destruct (m !! p) as [x|] eqn:E'; [|done].
  destruct (Hnew _ _ E E') as [_ Hl]. simpl in Hl.
  destruct p as [|c p] using rev_ind.
  - simpl in Hm. injection Hm as <-. congruence.
  - rewrite parent_snoc, length_app in Hl. simpl in Hl. lia.
Qed.

(** What is read at a path that holds something depends on that alone. *)
Lemma read_result_present (m1 m2 : gmap path node) (p : path) :
  is_Some (m1 !! p) -> m2 !! p = m1 !! p -> read_result m2 p = read_result m1 p.
Proof. intros [x Hx] H. unfold read_result. by rewrite H, Hx. Qed.

Lemma to_jsonl_line_no_newline (rec : Models.DocRecord) :
  Json.has_newline (Models.to_jsonl_line rec) = false.
Proof. unfold Models.to_jsonl_line, Json.dumps. by rewrite write_newline. Qed.

Section ExtractFacts.

Variable pdfplumber : pdf_library.
Variable flushed : text_file -> nat.
Variable utcnow : nat -> datetime.
Variable out_path : path.
Variable committee doc_type : string.
(** The disk apart from the output file. *)
Variable m : gmap path node.

(** The loop, whatever its outcome: the records it wrote, one per file in
    the order of the list, each built from its file as the disk stood at
    that moment and with the clock of that moment; the open file holds
    their lines after what it held; and the loop stopped either at the end
    of the list or at the first file that gave no record. *)
Lemma extract_loop_spec (pdfs : list path) : forall count (f : text_file) w r f' w',
  (0 <= count)%Z ->
  fs w = disk_during flushed out_path m f ->
  extract_loop pdfplumber flushed utcnow out_path committee doc_type pdfs count f w
    = (r, f', w') ->
  exists recs,
    f' = f ++ map record_line recs /\
    fs w' = disk_during flushed out_path m f' /\
    remote w' = remote w /\ requests w' = requests w /\ stdout w' = stdout w /\
    (forall i rec, recs !! i = Some rec ->
       exists pdf, pdfs !! i = Some pdf /\
         metadata_of pdfplumber (utcnow (Z.to_nat count + i))
           (read_result
              (disk_during flushed out_path m (f ++ map record_line (take i recs))) pdf)
           ("file://" +:+ path_str pdf) (Some committee) doc_type = Ok rec) /\
    match r with
    | Ok n => length recs = length pdfs /\ n = (count + Z.of_nat (length recs))%Z
    | Raise e =>
        exists pdf, pdfs !! (length recs) = Some pdf /\
          metadata_of pdfplumber (utcnow (Z.to_nat count + length recs))
            (read_result (disk_during flushed out_path m f') pdf)
            ("file://" +:+ path_str pdf) (Some committee) doc_type = Raise e
    end.
Proof.
  induction pdfs as [|pdf pdfs IH]; intros count f w r f' w' Hc Hfs Hrun.
  - injection Hrun as <- <- <-. exists []. simpl. rewrite app_nil_r.
    repeat split; try done. lia.
  - cbn [extract_loop] in Hrun. rewrite extract_metadata_pure, Hfs in Hrun.
    destruct (metadata_of _ _ _ _ _ _) as [rec|e] eqn:Hrec.
    + unfold write_text in Hrun.
      apply IH in Hrun; [|lia|].
      2:{ simpl. rewrite Hfs. unfold disk_during. by rewrite insert_insert_eq. }
      destruct Hrun as (recs & Hf' & Hfs' & Hre & Hrq & Hso & Hidx & Hres).
      exists (rec :: recs). simpl.
      split; [by rewrite Hf', <- app_assoc|].
      split; [done|]. split; [done|]. split; [done|]. split; [done|]. split.
      * intros [|i] rec' Hi.
        -- injection Hi as <-. exists pdf. split; [done|].
           simpl. by rewrite app_nil_r, Nat.add_0_r.
        -- destruct (Hidx i rec' Hi) as (pdf' & Hp & Hm).
           exists pdf'. split; [done|]. simpl.
           rewrite <- app_assoc in Hm. simpl in Hm.
           by replace (Z.to_nat count + S i) with (Z.to_nat (count + 1) + i) by lia.
      * destruct r as [n|e].
        -- destruct Hres as [Hl ->]. split; [by rewrite Hl | lia].
        -- destruct Hres as (pdf' & Hp & Hm). exists pdf'. split; [done|].
           by replace (Z.to_nat count + S (length recs))
             with (Z.to_nat (count + 1) + length recs) by lia.
    + injection Hrun as <- <- <-. exists []. simpl. rewrite app_nil_r.
      repeat split; try done. exists pdf. split; [done|].
      by rewrite Nat.add_0_r.
Qed.

End ExtractFacts.

(** A run of [extract], whatever its outcome.  Either it did not get to
    open the output, and then it raised and the output is untouched; or it
    opened it, and then the output holds the lines of the records built
    until the loop stopped. *)
Lemma cmd_extract_outcome lib flushed clock args w r w' :
  cmd_extract lib flushed clock args w = (r, w') ->
  (exists e, r = Raise e /\ w' = w /\
     (get_site (arg_site args) = Raise e \/
      mkdir_from [] (parent (arg_out args)) (fs w) = Raise e)) \/
  (exists e m, r = Raise e /\
     mkdir_from [] (parent (arg_out args)) (fs w) = Ok m /\ w' = set_fs w m /\
     open_w (arg_out args) (set_fs w m) = (Raise e, set_fs w m)) \/
  exists site m recs,
    get_site (arg_site args) = Ok site /\
    mkdir_from [] (parent (arg_out args)) (fs w) = Ok m /\
    arg_out args <> [] /\
    fs w' = <[arg_out args := File (concat (map record_line recs))]> m /\
    remote w' = remote w /\ requests w' = requests w /\
    (forall i rec, recs !! i = Some rec ->
       exists pdf,
         pdf_listing (arg_input args) (<[arg_out args := File []]> m) !! i = Some pdf /\
         metadata_of lib (clock i)
           (read_result
              (disk_during flushed (arg_out args) m (map record_line (take i recs))) pdf)
           ("file://" +:+ path_str pdf) (Some (site_committee site))
           (match arg_doc_type args with
            | Some s => if String.eqb s "" then default_doc_type site else s
            | None => default_doc_type site
            end) = Ok rec) /\
    ((r = Ok 0%Z /\
      length recs = length (pdf_listing (arg_input args) (<[arg_out args := File []]> m)) /\
      stdout w' = stdout w ++ [wrote_line (Z.of_nat (length recs)) (arg_out args)]) \/
     (exists e pdf,
        r = Raise e /\
        pdf_listing (arg_input args) (<[arg_out args := File []]> m) !! length recs
          = Some pdf /\
        metadata_of lib (clock (length recs))
          (read_result
             (disk_during flushed (arg_out args) m (map record_line recs)) pdf)
          ("file://" +:+ path_str pdf) (Some (site_committee site))
          (match arg_doc_type args with
           | Some s => if String.eqb s "" then default_doc_type site else s
           | None => default_doc_type site
           end) = Raise e /\
        stdout w' = stdout w)).
Proof.
  intros Hrun. unfold cmd_extract in Hrun.
  destruct (get_site (arg_site args)) as [site|e] eqn:Hsite;
    [|injection Hrun as <- <-; left; eauto].
  unfold bind at 1, mkdir_parents at 1 in Hrun.
  destruct (mkdir_from [] (parent (arg_out args)) (fs w)) as [m|e] eqn:Hm;
    [|injection Hrun as <- <-; left; eauto].
  unfold bind at 1 in Hrun.
  assert (Hne : (exists e, open_w (arg_out args) (set_fs w m) = (Raise e, set_fs w m))
                \/ arg_out args <> []).
  { destruct (decide (arg_out args = [])) as [Hnil|Hne]; [left|by right].
    exists IsADirectoryError. unfold open_w. by rewrite bool_decide_eq_true_2. }
  destruct (open_w_cases (arg_out args) (set_fs w m)) as [Ho|[e Ho]].
  2:{ rewrite Ho in Hrun. injection Hrun as <- <-. right. left. eauto 8. }
  destruct Hne as [[e He]|Hne]; [rewrite He in Ho; discriminate Ho|].
  rewrite Ho in Hrun.
  unfold bind at 1, glob_pdf_sorted at 1 in Hrun.
  change (fs (set_fs (set_fs w m) (<[arg_out args := File []]> (fs (set_fs w m)))))
    with (<[arg_out args := File []]> m) in Hrun.
  destruct (extract_loop _ _ _ _ _ _ _ _ _ _) as [[r0 f] w1] eqn:Hloop.
  apply (extract_loop_spec lib flushed clock (arg_out args) (site_committee site) _ m)
    in Hloop; [|lia|].
  2:{ unfold disk_during, on_disk. simpl. by rewrite firstn_nil. }
  destruct Hloop as (recs & Hf & Hfs & Hre & Hrq & Hso & Hidx & Hres).
  simpl in Hf, Hre, Hrq, Hso. subst f. simpl in Hidx.
  right. right. exists site, m, recs.
  assert (Hclosed : fs (close_text (arg_out args) (map record_line recs) w1)
                    = <[arg_out args := File (concat (map record_line recs))]> m).
  { unfold close_text. simpl. rewrite Hfs. unfold disk_during.
    by rewrite insert_insert_eq. }
  destruct r0 as [count|e].
  - destruct Hres as [Hlen ->].
    unfold bind, print, ret in Hrun. injection Hrun as <- <-.
    split; [done|]. split; [done|]. split; [done|]. split; [exact Hclosed|].
    split; [done|]. split; [done|]. split; [exact Hidx|].
    left. split; [done|]. split; [done|]. simpl. by rewrite Hso.
  - injection Hrun as <- <-. destruct Hres as (pdf & Hp & Hmeta).
    split; [done|]. split; [done|]. split; [done|]. split; [exact Hclosed|].
    split; [done|]. split; [done|]. split; [exact Hidx|].
    right. exists e, pdf. by repeat split.
Qed.

(** C1. The output file of a run.  [cmd_extract] opens the output for
    writing, which empties it, and writes one line per PDF entry of the
    input directory in sorted order through the open file; the file is
    closed on every way out of the loop.  So a run that gets to open the
    output leaves in it exactly the lines of the records it built, each a
    text without newline followed by one newline, all of them when it
    returns and those of the files before the failing one when it raises,
    and nothing of what the file held before; the rest of the disk is as
    the creation of the parent directories left it.  Each record is built
    from its file as it was before the run, with the clock of its moment;
    if the output is itself an entry of the listing, its record is built
    from what the buffers of the open file have passed on of the lines
    before it.  A run that fails before opening the output leaves the
    output as it was. *)
Theorem cmd_extract_rewrites_output lib flushed clock args w r w' :
  cmd_extract lib flushed clock args w = (r, w') ->
  ((exists e, r = Raise e) /\ stdout w' = stdout w /\
   fs w' !! arg_out args = fs w !! arg_out args) \/
  exists site m recs,
    get_site (arg_site args) = Ok site /\
    mkdir_from [] (parent (arg_out args)) (fs w) = Ok m /\
    fs w' = <[arg_out args := File (concat (map record_line recs))]> m /\
    Forall (fun rec => Json.has_newline (Models.to_jsonl_line rec) = false) recs /\
    (forall i rec, recs !! i = Some rec ->
       exists pdf,
         pdf_listing (arg_input args) (<[arg_out args := File []]> m) !! i = Some pdf /\
         metadata_of lib (clock i)
           (if bool_decide (pdf = arg_out args)
            then Ok (on_disk flushed (map record_line (take i recs)))
            else read_result m pdf)
           ("file://" +:+ path_str pdf) (Some (site_committee site))
           (match arg_doc_type args with
            | Some s => if String.eqb s "" then default_doc_type site else s
            | None => default_doc_type site
            end) = Ok rec) /\
    ((r = Ok 0%Z /\
      length recs = length (pdf_listing (arg_input args) (<[arg_out args := File []]> m)) /\
      stdout w' = stdout w ++ ["Wrote " +:+ Str.str_of_int (Z.of_nat (length recs))
                               +:+ " records to " +:+ path_str (arg_out args)]) \/
     ((exists e, r = Raise e) /\
      length recs < length (pdf_listing (arg_input args) (<[arg_out args := File []]> m)) /\
      stdout w' = stdout w)).
Proof.
  intros Hrun.
  apply cmd_extract_outcome in Hrun
    as [(e & -> & -> & _)|[(e & m & -> & Hm & -> & _)|Hrun]].
  - left. eauto.
  - left. split; [eauto|]. split; [done|]. simpl. by apply mkdir_keeps_path.
  - destruct Hrun as (site & m & recs & Hsite & Hm & Hne & Hfs & _ & _ & Hidx & Hres).
    right. exists site, m, recs.
    split; [done|]. split; [done|]. split; [done|].
    split; [apply Forall_forall; intros rec _; apply to_jsonl_line_no_newline|].
    split.
    + intros i rec Hi. destruct (Hidx i rec Hi) as (pdf & Hp & Hmeta).
      exists pdf. split; [done|]. case_bool_decide as Hout.
      * subst pdf. unfold read_result, disk_during in Hmeta.
        by rewrite lookup_insert_eq in Hmeta.
      * erewrite <- (read_result_present m); [exact Hmeta | |].
        -- apply list_elem_of_lookup_2, list_elem_of_In, pdf_listing_present in Hp.
           by rewrite lookup_insert_ne in Hp.
        -- unfold disk_during. by rewrite lookup_insert_ne.
    + destruct Hres as [(-> & Hlen & Hso)|(e & pdf & -> & Hp & _ & Hso)].
      * left. done.
      * right. split; [eauto|]. split; [|done].
        by apply lookup_lt_Some in Hp.
Qed.

Lemma cmd_extract_rewrites_output_witness :
  let w' := snd (cmd_extract None nothing_flushed sample_clock rerun_args rerun_world) in
  ((exists e, Ok 0%Z = Raise e) /\ stdout w' = stdout rerun_world /\
   fs w' !! arg_out rerun_args = fs rerun_world !! arg_out rerun_args) \/
  exists site m recs,
    get_site (arg_site rerun_args) = Ok site /\
    mkdir_from [] (parent (arg_out rerun_args)) (fs rerun_world) = Ok m /\
    fs w' = <[arg_out rerun_args := File (concat (map record_line recs))]> m /\
    Forall (fun rec => Json.has_newline (Models.to_jsonl_line rec) = false) recs /\
    (forall i rec, recs !! i = Some rec ->
       exists pdf,
         pdf_listing (arg_input rerun_args) (<[arg_out rerun_args := File []]> m) !! i
           = Some pdf /\
         metadata_of None (sample_clock i)
           (if bool_decide (pdf = arg_out rerun_args)
            then Ok (on_disk nothing_flushed (map record_line (take i recs)))
            else read_result m pdf)
           ("file://" +:+ path_str pdf) (Some (site_committee site))
           (match arg_doc_type rerun_args with
            | Some s => if String.eqb s "" then default_doc_type site else s
            | None => default_doc_type site
            end) = Ok rec) /\
    ((Ok 0%Z = Ok 0%Z /\
      length recs = length (pdf_listing (arg_input rerun_args)
                              (<[arg_out rerun_args := File []]> m)) /\
      stdout w' = stdout rerun_world
                  ++ ["Wrote " +:+ Str.str_of_int (Z.of_nat (length recs))
                      +:+ " records to " +:+ path_str (arg_out rerun_args)]) \/
     ((exists e, Ok 0%Z = Raise e) /\
      length recs < length (pdf_listing (arg_input rerun_args)
                              (<[arg_out rerun_args := File []]> m)) /\
      stdout w' = stdout rerun_world)).
Proof.
  apply (cmd_extract_rewrites_output None nothing_flushed sample_clock rerun_args
           rerun_world (Ok 0%Z)
           (snd (cmd_extract None nothing_flushed sample_clock rerun_args rerun_world))).
  reflexivity.
Defined.

(** The claim as the specification states it fails: the output file of an
    earlier run is not kept, the new content does not start with it. *)
Lemma cmd_extract_discards_previous_output :
  fst (cmd_extract None nothing_flushed sample_clock rerun_args rerun_world) = Ok 0%Z /\
  fs rerun_world !! ["out"; "records.jsonl"] = Some (File old_line) /\
  exists new,
    fs (snd (cmd_extract None nothing_flushed sample_clock rerun_args rerun_world))
      !! ["out"; "records.jsonl"] = Some (File new) /\
    ~ (exists tail, new = old_line ++ tail).
Proof.
  split; [reflexivity|]. split; [reflexivity|].
  eexists. split; [reflexivity|].
  intros [tail H]. apply (f_equal (hd Byte.x00)) in H. lazy in H. discriminate H.
Qed.

(** What a record built from a file that could be read carries. *)
Lemma metadata_of_read lib now (data : list Byte.byte) src committee dt rec :
  metadata_of lib now (Ok data) src committee dt = Ok rec ->
  Models.source_url rec = src /\
  Models.sha256 rec = SHA256.hexdigest_of data /\
  Models.file_size rec = Some (Z.of_nat (length data)).
Proof.
  unfold metadata_of. cbn [rbind].
  destruct (Models.validate_doc_type dt) as [t|e]; [|done].
  cbn [rbind]. by intros [= <-].
Qed.

Lemma metadata_of_refused lib now (data : list Byte.byte) src committee dt e :
  metadata_of lib now (Ok data) src committee dt = Raise e ->
  ~ In dt ["minutes"; "agenda"].
Proof.
  unfold metadata_of. cbn [rbind]. intros H Hdt.
  destruct Hdt as [<-|[<-|[]]]; discriminate H.
Qed.

(** The output file read while it is open.  With the output written into
    the input directory under a name that ends in [.pdf], the run lists the
    output itself, after [abc.pdf], and the record of the output is built
    from what the buffers have passed on of the first line: nothing with
    buffers that hold everything back until the file is closed, the whole
    line with buffers that hold nothing back. *)
Lemma cmd_extract_reads_own_output flushed clock :
  let args := {| arg_site := "sfbos_lut"; arg_input := ["pdfs"];
                 arg_out := ["pdfs"; "z.pdf"]; arg_doc_type := None |} in
  let w := one_file_world "abc.pdf" (list_byte_of_string "abc") in
  exists rec1 rec2,
    fs (snd (cmd_extract None flushed clock args w)) !! ["pdfs"; "z.pdf"]
      = Some (File (record_line rec1 ++ record_line rec2)) /\
    Models.source_url rec1 = "file://pdfs/abc.pdf" /\
    Models.source_url rec2 = "file://pdfs/z.pdf" /\
    Models.file_size rec2
      = Some (Z.of_nat (length (on_disk flushed [record_line rec1]))) /\
    on_disk nothing_flushed [record_line rec1] = [] /\
    on_disk all_flushed [record_line rec1] = record_line rec1.
Proof.
  intros args w.
  destruct (cmd_extract None flushed clock args w) as [r w'] eqn:Hrun.
  assert (Hm' : mkdir_from [] (parent (arg_out args)) (fs w) = Ok (fs w))
    by (by apply mkdir_from_noop).
  apply cmd_extract_outcome in Hrun
    as [(e & _ & _ & [He|He])|[(e & m & _ & Hm & _ & Ho)|
        (site & m & recs & Hsite & Hm & _ & Hfs & _ & _ & Hidx & Hres)]].
  { discriminate He. }
  { rewrite Hm' in He. discriminate He. }
  { exfalso. assert (m = fs w) as -> by congruence.
    rewrite set_fs_same, (open_w_new ["pdfs"] "z.pdf") in Ho;
      [discriminate Ho | reflexivity | by right]. }
  assert (m = fs w) as -> by congruence.
  assert (site = {| key := "sfbos_lut"; base_url := sample_base;
                    site_committee := "Land Use and Transportation";
                    default_doc_type := "minutes" |}) as -> by (by injection Hsite).
  assert (Hlist : pdf_listing (arg_input args) (<[arg_out args := File []]> (fs w))
                  = [["pdfs"; "abc.pdf"]; ["pdfs"; "z.pdf"]]) by reflexivity.
  rewrite Hlist in Hidx, Hres.
  assert (Habc : forall lines,
            read_result (disk_during flushed (arg_out args) (fs w) lines)
              ["pdfs"; "abc.pdf"] = Ok (list_byte_of_string "abc")).
  { intros lines. apply read_result_file. unfold disk_during.
    by rewrite lookup_insert_ne. }
  assert (Hz : forall lines,
            read_result (disk_during flushed (arg_out args) (fs w) lines)
              ["pdfs"; "z.pdf"] = Ok (on_disk flushed lines)).
  { intros lines. apply read_result_file. unfold disk_during.
    by rewrite lookup_insert_eq. }
  assert (Hlen : length recs = 2).
  { destruct Hres as [(_ & Hlen & _)|(e & pdf & _ & Hp & He & _)]; [done|].
    exfalso. destruct recs as [|rec1 [|rec2 recs]]; [| |discriminate Hp].
    - injection Hp as <-. rewrite Habc in He.
      apply metadata_of_refused in He. apply He. left. reflexivity.
    - injection Hp as <-. rewrite Hz in He.
      apply metadata_of_refused in He. apply He. left. reflexivity. }
  destruct recs as [|rec1 [|rec2 [|]]]; try discriminate Hlen.
  exists rec1, rec2. cbn [snd]. rewrite Hfs.
  split; [rewrite lookup_insert_eq; cbn [map concat]; by rewrite app_nil_r|].
  destruct (Hidx 0 rec1 eq_refl) as (pdf1 & [= <-] & H1).
  destruct (Hidx 1 rec2 eq_refl) as (pdf2 & [= <-] & H2).
  rewrite Habc in H1. rewrite Hz in H2.
  apply metadata_of_read in H1 as (Hs1 & _ & _).
  apply metadata_of_read in H2 as (Hs2 & _ & Hsize).
  split; [by rewrite Hs1|]. split; [by rewrite Hs2|]. split; [exact Hsize|].
  split; [reflexivity|]. unfold on_disk, all_flushed. cbn [concat].
  rewrite app_nil_r. apply firstn_all.
Qed.

(* ================================================================== *)
(** * Part III: further properties of the code                         *)
(* ================================================================== *)

(** ** Site registry *)

Lemma find_site_ok k sites s :
  find_site k sites = Ok s ->
  key s = k /\
  exists before after,
    sites = before ++ s :: after /\ Forall (fun t => key t <> k) before.
Proof.
  induction sites as [|t sites IH]; simpl; [done|].
  destruct (String.eqb (key t) k) eqn:E.
  - intros [= <-]. apply String.eqb_eq in E. split; [done|].
    exists [], sites. split; [done | constructor].
  - intros H. destruct (IH H) as (Hk & before & after & -> & Hb).
    split; [done|]. exists (t :: before), after. split; [done|].
    constructor; [by apply String.eqb_neq | done].
Qed.

Lemma find_site_raise k sites e :
  find_site k sites = Raise e -> e = KeyError /\ Forall (fun t => key t <> k) sites.
Proof.
  induction sites as [|t sites IH]; simpl.
  - intros [= <-]. split; [done | constructor].
  - destruct (String.eqb (key t) k) eqn:E; [done|].
    intros H. destruct (IH H) as [-> Hs]. split; [done|].
    constructor; [by apply String.eqb_neq | done].
Qed.

(** X1. Looking up a site.  [get_site] returns the first site of the
    registry whose key is the one asked for, and raises [KeyError] exactly
    when no site has that key; with the registry as it stands, that is for
    every key other than [sfbos_lut]. *)
Theorem get_site_first_match k :
  (forall s, get_site k = Ok s ->
     key s = k /\
     exists before after,
       SITES = before ++ s :: after /\ Forall (fun t => key t <> k) before) /\
  (forall e, get_site k = Raise e ->
     e = KeyError /\ Forall (fun t => key t <> k) SITES) /\
  (get_site k = Raise KeyError <-> k <> "sfbos_lut").
Proof.
  split; [intros s; apply find_site_ok|]. split; [intros e; apply find_site_raise|].
  unfold get_site, SITES. cbn [find_site key].
  destruct (String.eqb "sfbos_lut" k) eqn:E.
  - apply String.eqb_eq in E. subst k. split; [intros [=] | intros H; by destruct H].
  - apply String.eqb_neq in E. split; [intros _ Hk; by subst | intros _; reflexivity].
Qed.

Lemma get_site_first_match_witness :
  (exists s, get_site "sfbos_lut" = Ok s /\ key s = "sfbos_lut") /\
  get_site "sfbos_bf" = Raise KeyError.
Proof.
  destruct (get_site_first_match "sfbos_lut") as (Hok & _ & _).
  destruct (get_site_first_match "sfbos_bf") as (_ & _ & Hraise).
  split.
  - eexists. split; [reflexivity|]. apply (Hok _ eq_refl).
  - apply Hraise. discriminate.
Defined.

(** ** Listing extractor: effects, failures, what is returned *)

(** X2. What a listing costs.  Whatever the page answers, [fetch_listing]
    issues exactly one GET, for the base URL with the configured user agent
    and a timeout of 30, and changes nothing else: the disk and the printed
    lines are as before. *)
Theorem fetch_listing_one_request urljoin pad_year base cfg w :
  fs (snd (fetch_listing urljoin pad_year base cfg w)) = fs w /\
  stdout (snd (fetch_listing urljoin pad_year base cfg w)) = stdout w /\
  remote (snd (fetch_listing urljoin pad_year base cfg w)) = remote w /\
  requests (snd (fetch_listing urljoin pad_year base cfg w)) =
    requests w ++ [{| req_url := base; req_user_agent := user_agent cfg;
                      req_timeout := 30 |}].
Proof.
  unfold fetch_listing, bind, http_get.
  destruct (remote w base) as [|r]; [done|].
  destruct ((400 <=? status r)%Z && (status r <? 600)%Z); [done|].
  destruct (soup r) as [doc|e]; [|done].
  by destruct (first_table doc).
Qed.

(** X3. Pages without a listing.  A page that cannot be fetched, or that
    answers with a status from 400 to 599, makes [fetch_listing] raise
    [RequestError]; a page that the HTML parser rejects makes it raise the
    exception of the parser; a page that parses to a document without a
    table, with a table without rows, or with a header row only gives the
    empty list. *)
Theorem fetch_listing_no_rows urljoin pad_year base cfg w :
  (remote w base = Unreachable ->
   fst (fetch_listing urljoin pad_year base cfg w) = Raise RequestError) /\
  (forall r, remote w base = Responds r -> (400 <= status r < 600)%Z ->
   fst (fetch_listing urljoin pad_year base cfg w) = Raise RequestError) /\
  (forall r e, remote w base = Responds r -> ~ (400 <= status r < 600)%Z ->
   soup r = Raise e ->
   fst (fetch_listing urljoin pad_year base cfg w) = Raise e) /\
  (forall r doc, remote w base = Responds r -> ~ (400 <= status r < 600)%Z ->
   soup r = Ok doc ->
   first_table doc = None \/ first_table doc = Some [] \/
   (exists header, first_table doc = Some [header]) ->
   fst (fetch_listing urljoin pad_year base cfg w) = Ok []).
Proof.
  assert (Hstatus : forall r : response, ~ (400 <= status r < 600)%Z ->
            ((400 <=? status r)%Z && (status r <? 600)%Z) = false).
  { intros r Hs. apply andb_false_iff.
    destruct (Z.lt_ge_cases (status r) 400);
      [left; apply Z.leb_gt | right; apply Z.ltb_ge]; lia. }
  unfold fetch_listing, bind, http_get. repeat split.
  - by intros ->.
  - intros r -> Hs.
    replace ((400 <=? status r)%Z && (status r <? 600)%Z) with true; [done|].
    symmetry. apply andb_true_iff. split; [apply Z.leb_le | apply Z.ltb_lt]; lia.
  - intros r e -> Hs He. by rewrite (Hstatus r Hs), He.
  - intros r doc -> Hs Hd Ht. rewrite (Hstatus r Hs), Hd.
    destruct Ht as [->|[->|[header ->]]]; done.
Qed.

Lemma fetch_listing_no_rows_witness :
  fst (fetch_listing sibling false sample_base default_config
         (serving "https://example.org/" pdf_response)) = Raise RequestError /\
  fst (fetch_listing sibling false sample_base default_config
         (serving sample_base
            {| status := 404; content := []; soup := Ok empty_document |}))
    = Raise RequestError /\
  fst (fetch_listing sibling false sample_base default_config
         (serving sample_base
            {| status := 200; content := []; soup := Raise OtherError |}))
    = Raise OtherError /\
  fst (fetch_listing sibling false sample_base default_config
         (serving sample_base pdf_response)) = Ok [] /\
  fst (fetch_listing sibling false sample_base default_config (listing_world [])) = Ok [].
Proof.
  split; [|split; [|split; [|split]]].
  - apply fetch_listing_no_rows. reflexivity.
  - eapply (proj1 (proj2 (fetch_listing_no_rows _ _ _ _ _))); [reflexivity|].
    simpl. lia.
  - eapply (proj1 (proj2 (proj2 (fetch_listing_no_rows _ _ _ _ _))));
      [reflexivity | simpl; lia | reflexivity].
  - eapply (proj2 (proj2 (proj2 (fetch_listing_no_rows _ _ _ _ _))));
      [reflexivity | simpl; lia | reflexivity |].
    left. reflexivity.
  - eapply (proj2 (proj2 (proj2 (fetch_listing_no_rows _ _ _ _ _))));
      [reflexivity | simpl; lia | reflexivity |].
    right. right. by eexists.
Defined.

(** *** The text of a date *)

Lemma int_acc_bounds (ds : string) : forall a,
  Str.all_digits ds = true -> (0 <= a)%Z ->
  (a * 10 ^ Z.of_nat (String.length ds) <= Str.int_acc a ds
   < (a + 1) * 10 ^ Z.of_nat (String.length ds))%Z.
Proof.
  induction ds as [|c ds IH]; intros a Hd Ha.
  - simpl. lia.
  - cbn [Str.all_digits] in Hd. apply andb_true_iff in Hd as [Hc Hd].
    pose proof (digit_val_range c Hc) as Hv.
    cbn [Str.int_acc String.length]. rewrite Nat2Z.inj_succ, Z.pow_succ_r by lia.
    assert (Ha' : (0 <= 10 * a + Str.digit_val c)%Z) by lia.
    specialize (IH _ Hd Ha').
    assert (0 < 10 ^ Z.of_nat (String.length ds))%Z by (apply Z.pow_pos_nonneg; lia).
    nia.
Qed.

(** A numeral of [k] digits stands for a number from [10 ^ (k - 1)] up to
    [10 ^ k], zero apart. *)
Lemma numeral_length (ds : string) (n : Z) :
  numeral_of ds n -> (0 < n)%Z ->
  (10 ^ (Z.of_nat (String.length ds) - 1) <= n < 10 ^ Z.of_nat (String.length ds))%Z.
Proof.
  intros (Hd & Hn & c & ds' & -> & Hzero) Hpos.
  cbn [Str.all_digits] in Hd. apply andb_true_iff in Hd as [Hc Hd].
  pose proof (digit_val_range c Hc) as Hv.
  assert (Hc1 : (1 <= Str.digit_val c)%Z).
  { destruct (Str.code c =? 48)%N eqn:E; [destruct (Hzero eq_refl); lia|].
    apply N.eqb_neq in E. unfold Str.is_digit in Hc. unfold Str.digit_val in *.
    apply andb_true_iff in Hc as [Hc _]. apply N.leb_le in Hc. lia. }
  unfold Str.int_of_digits in Hn. cbn [Str.int_acc] in Hn.
  assert (Ha : (0 <= 10 * 0 + Str.digit_val c)%Z) by lia.
  pose proof (int_acc_bounds ds' (10 * 0 + Str.digit_val c) Hd Ha) as Hb.
  rewrite Hn in Hb. cbn [String.length].
  rewrite Nat2Z.inj_succ, Z.pow_succ_r by lia.
  replace (Z.succ (Z.of_nat (String.length ds')) - 1)%Z
    with (Z.of_nat (String.length ds')) by lia.
  assert (0 < 10 ^ Z.of_nat (String.length ds'))%Z by (apply Z.pow_pos_nonneg; lia).
  nia.
Qed.

Lemma str_of_int_digits (n : Z) (k : nat) :
  (10 ^ (Z.of_nat k - 1) <= n < 10 ^ Z.of_nat k)%Z -> (0 < n)%Z ->
  Str.all_digits (Str.str_of_int n) = true /\ String.length (Str.str_of_int n) = k.
Proof.
  intros Hk Hpos. unfold Str.str_of_int.
  replace (n <? 0)%Z with false by (symmetry; apply Z.ltb_ge; lia).
  assert (Hn0 : (0 <= n)%Z) by lia.
  pose proof (nat_digits_spec n Hn0) as Hnum.
  split; [apply Hnum|].
  pose proof (numeral_length _ _ Hnum Hpos) as Hl.
  set (len := String.length (Str.nat_digits n)) in *.
  destruct (Nat.lt_trichotomy len k) as [Hlt|[->|Hgt]]; [|done|].
  - assert (10 ^ Z.of_nat len <= 10 ^ (Z.of_nat k - 1))%Z
      by (apply Z.pow_le_mono_r; lia). lia.
  - assert (10 ^ Z.of_nat k <= 10 ^ (Z.of_nat len - 1))%Z
      by (apply Z.pow_le_mono_r; lia). lia.
Qed.

Lemma all_digits_append (a b : string) :
  Str.all_digits (a +:+ b) = Str.all_digits a && Str.all_digits b.
Proof.
  induction a as [|c a IH]; [done|].
  rewrite append_cons. cbn [Str.all_digits]. by rewrite IH, andb_assoc.
Qed.

Lemma zeros_digits k :
  Str.all_digits (Str.zeros k) = true /\ String.length (Str.zeros k) = k.
Proof. induction k as [|k [IH1 IH2]]; [done|]. cbn. by rewrite IH1, IH2. Qed.

(** A positive number below [10 ^ w] padded to [w] places is [w] digits. *)
Lemma zfill_digits (w : nat) (n : Z) :
  (0 < n < 10 ^ Z.of_nat w)%Z ->
  Str.all_digits (Str.zfill w (Str.str_of_int n)) = true /\
  String.length (Str.zfill w (Str.str_of_int n)) = w.
Proof.
  intros Hn. unfold Str.str_of_int.
  replace (n <? 0)%Z with false by (symmetry; apply Z.ltb_ge; lia).
  assert (Hn0 : (0 <= n)%Z) by lia.
  pose proof (nat_digits_spec n Hn0) as Hnum.
  assert (Hn1 : (0 < n)%Z) by lia.
  pose proof (numeral_length _ _ Hnum Hn1) as Hl.
  set (ds := Str.nat_digits n) in *.
  assert (Hle : String.length ds <= w).
  { destruct (Nat.le_gt_cases (String.length ds) w) as [|Hgt]; [done|].
    assert (10 ^ Z.of_nat w <= 10 ^ (Z.of_nat (String.length ds) - 1))%Z
      by (apply Z.pow_le_mono_r; lia). lia. }
  unfold Str.zfill. destruct (zeros_digits (w - String.length ds)) as [Hz1 Hz2].
  split.
  - rewrite all_digits_append, Hz1. apply Hnum.
  - rewrite append_length, Hz2. lia.
Qed.

Lemma iso_date_text_length s : iso_date_text s = true -> String.length s = 10.
Proof.
  do 10 (destruct s as [|? s]; [done|]). by destruct s.
Qed.

Lemma iso_date_text_parts (y m d : string) :
  Str.all_digits y = true -> String.length y = 4 ->
  Str.all_digits m = true -> String.length m = 2 ->
  Str.all_digits d = true -> String.length d = 2 ->
  iso_date_text (y +:+ "-" +:+ m +:+ "-" +:+ d) = true.
Proof.
  intros Hy Hly Hm Hlm Hd Hld.
  do 4 (destruct y as [|? y]; [done|]). destruct y; [|done].
  do 2 (destruct m as [|? m]; [done|]). destruct m; [|done].
  do 2 (destruct d as [|? d]; [done|]). destruct d; [|done].
  cbn [Str.all_digits] in Hy, Hm, Hd.
  rewrite !andb_true_r in Hy, Hm, Hd.
  apply andb_true_iff in Hy as [Hy1 Hy]. apply andb_true_iff in Hy as [Hy2 Hy].
  apply andb_true_iff in Hy as [Hy3 Hy4].
  apply andb_true_iff in Hm as [Hm1 Hm2]. apply andb_true_iff in Hd as [Hd1 Hd2].
  rewrite !append_cons, !append_nil_l. cbn [iso_date_text].
  by rewrite Hy1, Hy2, Hy3, Hy4, Hm1, Hm2, Hd1, Hd2.
Qed.

Lemma days_in_month_le y m : (Strptime.days_in_month y m <= 31)%Z.
Proof.
  unfold Strptime.days_in_month.
  destruct (m =? 2)%Z; [by destruct (Strptime.is_leap y)|].
  by destruct (_ || _).
Qed.

(** The text of a date of the calendar is [YYYY-MM-DD] exactly when the
    platform pads the year or the year has four digits. *)
Lemma strftime_shape (pad_year : bool) (dt : datetime) :
  valid_date dt ->
  (iso_date_text (Strptime.strftime pad_year dt) = true <->
   pad_year = true \/ (1000 <= year dt)%Z).
Proof.
  intros (Hy & Hm & Hd). pose proof (days_in_month_le (year dt) (month dt)) as Hdm.
  destruct (zfill_digits 2 (month dt)) as [Hm1 Hm2]; [simpl; lia|].
  destruct (zfill_digits 2 (day dt)) as [Hd1 Hd2]; [simpl; lia|].
  unfold Strptime.strftime. split.
  - intros Hiso. destruct pad_year; [by left|right].
    destruct (Z.lt_ge_cases (year dt) 1000) as [Hlt|]; [exfalso|done].
    apply iso_date_text_length in Hiso.
    rewrite !append_length, Hm2, Hd2 in Hiso. simpl in Hiso.
    unfold Str.str_of_int in Hiso.
    replace (year dt <? 0)%Z with false in Hiso by (symmetry; apply Z.ltb_ge; lia).
    assert (Hy0 : (0 <= year dt)%Z) by lia. assert (Hy1 : (0 < year dt)%Z) by lia.
    pose proof (nat_digits_spec (year dt) Hy0) as Hnum.
    pose proof (numeral_length _ _ Hnum Hy1) as Hl.
    replace (String.length (Str.nat_digits (year dt))) with 4 in Hl by lia.
    simpl in Hl. lia.
  - intros Hc.
    assert (Hyear : Str.all_digits
                      (if pad_year then Str.zfill 4 (Str.str_of_int (year dt))
                       else Str.str_of_int (year dt)) = true /\
                    String.length
                      (if pad_year then Str.zfill 4 (Str.str_of_int (year dt))
                       else Str.str_of_int (year dt)) = 4).
    { destruct pad_year.
      - apply zfill_digits. simpl. lia.
      - destruct Hc as [|Hc]; [done|]. apply str_of_int_digits; simpl; lia. }
    destruct Hyear as [Hy1 Hy2]. by apply iso_date_text_parts.
Qed.

(** X4. What a listing holds.  Every entry [fetch_listing] returns pairs
    the text [strftime] gives for a date of the calendar whose year is at
    or after [since_year] with the URL that the URL library returned for a
    link whose target matches the PDF pattern.  The text has the form
    [YYYY-MM-DD] exactly when the platform pads the year or the year has
    four digits; on a platform that does not pad, a year before 1000 is
    written with the digits it has.  There are at most as many entries as
    rows after the header. *)
Theorem fetch_listing_entries urljoin pad_year base cfg w l :
  fst (fetch_listing urljoin pad_year base cfg w) = Ok l ->
  Forall (fun e => exists dt href u,
            e = (Strptime.strftime pad_year dt, u) /\ urljoin base href = Ok u /\
            valid_date dt /\ (since_year cfg <= year dt)%Z /\
            href_is_pdf href = true /\
            (iso_date_text (fst e) = true <-> pad_year = true \/ (1000 <= year dt)%Z)) l /\
  (forall r doc trs, remote w base = Responds r -> soup r = Ok doc ->
                     first_table doc = Some trs -> length l <= length trs - 1).
Proof.
  assert (Hshape : forall l0, Forall (listed urljoin pad_year base cfg) l0 ->
    Forall (fun e => exists dt href u,
            e = (Strptime.strftime pad_year dt, u) /\ urljoin base href = Ok u /\
            valid_date dt /\ (since_year cfg <= year dt)%Z /\
            href_is_pdf href = true /\
            (iso_date_text (fst e) = true <-> pad_year = true \/ (1000 <= year dt)%Z)) l0).
  { intros l0 H. eapply Forall_impl; [exact H|].
    intros e (dt & href & u & -> & Hu & Hv & Hy & Hp).
    exists dt, href, u. repeat split; try done; try apply Hv;
      by apply strftime_shape. }
  unfold fetch_listing, bind, http_get.
  destruct (remote w base) as [|r] eqn:Hr; [done|].
  destruct ((400 <=? status r)%Z && (status r <? 600)%Z); [done|].
  destruct (soup r) as [doc|e] eqn:Hd; [|done].
  destruct (first_table doc) as [trs|] eqn:Ht.
  - simpl. intros Hl. destruct (rows_loop_listed _ _ _ _ _ _ Hl) as [Hall Hlen].
    split; [by apply Hshape|]. intros r' doc' trs' [= <-]. rewrite Hd. intros [= <-].
    rewrite Ht. intros [= <-]. rewrite length_drop in Hlen. lia.
  - intros [= <-]. split; [constructor|]. intros r' doc' trs' [= <-].
    rewrite Hd. intros [= <-]. by rewrite Ht.
Qed.

Lemma fetch_listing_entries_witness :
  Forall (fun e => exists dt href u,
            e = (Strptime.strftime false dt, u) /\ sibling sample_base href = Ok u /\
            valid_date dt /\ (2018 <= year dt)%Z /\ href_is_pdf href = true /\
            (iso_date_text (fst e) = true <-> false = true \/ (1000 <= year dt)%Z))
         [("2019-06-15", "https://sfbos.org/meetings/m190615.pdf")].
Proof.
  apply (fetch_listing_entries sibling false sample_base default_config
           (listing_world [listing_row "June 15, 2019" "a190615.pdf" "m190615.pdf";
                           listing_row "March 1, 2017" "a170301.pdf" "m170301.pdf"])).
  reflexivity.
Defined.

(** A year before 1000 on the two kinds of platform. *)
Lemma strftime_year_999 :
  Strptime.strptime "June 15 0999" = Ok (midnight 999 6 15) /\
  Strptime.strftime false (midnight 999 6 15) = "999-06-15" /\
  Strptime.strftime true (midnight 999 6 15) = "0999-06-15".
Proof. repeat split; reflexivity. Qed.

(** X5. Rows that are passed over.  A row with fewer than three cells, a
    row whose first cell holds no text of the date pattern, a row dated
    before [since_year] and a dated row whose selected cell has no PDF link
    add nothing and raise nothing, wherever they stand in the table: the
    result is that of the table without the row. *)
Theorem fetch_listing_passes_over urljoin pad_year base cfg (before after : list row)
    (r : row) out :
  (length r < 3 \/
   exists c0 c1 c2 more, r = c0 :: c1 :: c2 :: more /\
     (DateRe.search (cell_text c0) = None \/
      exists g dt, DateRe.search (cell_text c0) = Some g /\
        Strptime.strptime (Str.remove_commas g) = Ok dt /\
        ((year dt < since_year cfg)%Z \/
         find_pdf_link (cell_anchors (selected_cell cfg c1 c2)) = None))) ->
  fetch_row urljoin pad_year base cfg r = Ok None /\
  rows_loop urljoin pad_year base cfg (before ++ r :: after) out =
  rows_loop urljoin pad_year base cfg (before ++ after) out.
Proof.
  intros H.
  assert (Hr : fetch_row urljoin pad_year base cfg r = Ok None).
  { destruct H as [Hlen|(c0 & c1 & c2 & more & -> & H)].
    - unfold fetch_row. by rewrite (proj2 (Nat.ltb_lt _ _) Hlen).
    - destruct H as [Hg|(g & dt & Hg & Hdt & H)].
      + unfold fetch_row. simpl. by rewrite Hg.
      + rewrite (fetch_row_dated _ _ _ _ _ _ _ _ _ _ Hg Hdt).
        destruct H as [Hy|Hl].
        * by rewrite (proj2 (Z.ltb_lt _ _) Hy).
        * unfold link_outcome. rewrite Hl. by destruct (year dt <? since_year cfg)%Z. }
  split; [done | by apply rows_loop_skip].
Qed.

Lemma fetch_listing_passes_over_witness :
  let good := listing_row "June 15, 2019" "a190615.pdf" "m190615.pdf" in
  rows_loop sibling false sample_base default_config
    ([good] ++ [text_cell "June 1, 2019"; link_cell "a.pdf"] :: [good]) [] =
  rows_loop sibling false sample_base default_config ([good] ++ [good]) [] /\
  rows_loop sibling false sample_base default_config
    ([good] ++ listing_row "to be announced" "a.pdf" "m.pdf" :: [good]) [] =
  rows_loop sibling false sample_base default_config ([good] ++ [good]) [] /\
  rows_loop sibling false sample_base default_config
    ([good] ++ listing_row "June 1, 2019" "a.pdf" "m.html" :: [good]) [] =
  rows_loop sibling false sample_base default_config ([good] ++ [good]) [].
Proof.
  intros good. split; [|split].
  - apply fetch_listing_passes_over. left. simpl. lia.
  - apply fetch_listing_passes_over. right.
    exists (text_cell "to be announced"), (link_cell "a.pdf"), (link_cell "m.pdf"), [].
    split; [reflexivity|]. left. reflexivity.
  - apply fetch_listing_passes_over. right.
    exists (text_cell "June 1, 2019"), (link_cell "a.pdf"), (link_cell "m.html"), [].
    split; [reflexivity|]. right. exists "June 1, 2019", (midnight 2019 6 1).
    split; [reflexivity|]. split; [reflexivity|]. right. reflexivity.
Defined.

(** When the loop raises, one of the rows raised that error. *)
Lemma rows_loop_raise urljoin pad_year base cfg (rows : list row) : forall out e,
  rows_loop urljoin pad_year base cfg rows out = Raise e ->
  exists r, In r rows /\ fetch_row urljoin pad_year base cfg r = Raise e.
Proof.
  induction rows as [|r rows IH]; intros out e; simpl; [done|].
  destruct (fetch_row urljoin pad_year base cfg r) as [[x|]|e0] eqn:Hr.
  - intros H. destruct (IH _ _ H) as (r' & Hin & Hr'). eauto.
  - intros H. destruct (IH _ _ H) as (r' & Hin & Hr'). eauto.
  - intros [= <-]. eauto.
Qed.

(** X6. The errors of a listing.  When [fetch_listing] raises, the
    request failed, which is a [RequestError]; or the HTML parser rejected
    the page, which is the exception of the parser; or a row after the
    header raised.  A row raises exactly when it has three cells or more,
    its first cell holds a text of the date pattern, and either [strptime]
    refuses that text, which is a [ValueError], or the date is at or after
    the floor and the URL library refuses the PDF link of the selected
    cell, which is the error of that library. *)
Theorem fetch_listing_errors urljoin pad_year base cfg w (r : row) :
  (forall e, fst (fetch_listing urljoin pad_year base cfg w) = Raise e ->
     (e = RequestError /\
      (remote w base = Unreachable \/
       exists resp, remote w base = Responds resp /\ (400 <= status resp < 600)%Z)) \/
     (exists resp, remote w base = Responds resp /\ soup resp = Raise e) \/
     (exists resp doc trs r0,
        remote w base = Responds resp /\ soup resp = Ok doc /\
        first_table doc = Some trs /\ In r0 (drop 1 trs) /\
        fetch_row urljoin pad_year base cfg r0 = Raise e)) /\
  (forall e, fetch_row urljoin pad_year base cfg r = Raise e <->
     exists c0 c1 c2 more g,
       r = c0 :: c1 :: c2 :: more /\ DateRe.search (cell_text c0) = Some g /\
       ((Strptime.strptime (Str.remove_commas g) = Raise ValueError /\ e = ValueError) \/
        exists dt href,
          Strptime.strptime (Str.remove_commas g) = Ok dt /\
          (since_year cfg <= year dt)%Z /\
          find_pdf_link (cell_anchors (selected_cell cfg c1 c2)) = Some href /\
          urljoin base href = Raise e)).
Proof.
  split.
  - intros e. unfold fetch_listing, bind, http_get.
    destruct (remote w base) as [|resp]; [intros [= <-]; left; eauto|].
    destruct ((400 <=? status resp)%Z && (status resp <? 600)%Z) eqn:Hs.
    { intros [= <-]. left. split; [done|]. right. exists resp. split; [done|].
      apply andb_true_iff in Hs as [H1 H2]. apply Z.leb_le in H1. apply Z.ltb_lt in H2.
      lia. }
    destruct (soup resp) as [doc|e0] eqn:Hd; [|intros [= <-]; right; left; eauto].
    destruct (first_table doc) as [trs|] eqn:Ht; [|done].
    simpl. intros H. apply rows_loop_raise in H as (r0 & Hin & Hr0).
    right. right. by exists resp, doc, trs, r0.
  - intros e.
    destruct (fetch_row_cases urljoin pad_year base cfg r)
      as [[Hlen Hr]|(c0 & c1 & c2 & more & -> & H)].
    { rewrite Hr. split; [done|]. intros (? & ? & ? & ? & ? & -> & _). simpl in Hlen. lia. }
    destruct H as [[Hg Hr]|(g & Hg & [[Hdt Hr]|(dt & Hdt & Hr)])]; rewrite Hr.
    + split; [done|]. intros (? & ? & ? & ? & g & [= <- <- <- <-] & Hg' & _). congruence.
    + split.
      * intros [= <-]. exists c0, c1, c2, more, g. split; [done|]. split; [done|]. by left.
      * intros (? & ? & ? & ? & g' & [= <- <- <- <-] & Hg' & H).
        assert (g' = g) as -> by congruence.
        destruct H as [[_ ->]|(dt & href & Hdt' & _)]; [done | congruence].
    + split.
      * intros He. exists c0, c1, c2, more, g. split; [done|]. split; [done|].
        right. destruct (year dt <? since_year cfg)%Z eqn:Hy; [done|].
        apply Z.ltb_ge in Hy. unfold link_outcome in He.
        destruct (find_pdf_link _) as [href|] eqn:Hl; [|done].
        destruct (urljoin base href) as [u|e0] eqn:Hu; [done|].
        injection He as <-. by exists dt, href.
      * intros (? & ? & ? & ? & g' & [= <- <- <- <-] & Hg' & H).
        assert (g' = g) as -> by congruence.
        destruct H as [[Hdt' _]|(dt' & href & Hdt' & Hy & Hl & Hu)]; [congruence|].
        assert (dt' = dt) as -> by congruence.
        replace (year dt <? since_year cfg)%Z with false
          by (symmetry; apply Z.ltb_ge; lia).
        unfold link_outcome. by rewrite Hl, Hu.
Qed.

Lemma fetch_listing_errors_witness :
  fetch_row sibling false sample_base default_config
    (listing_row "Sept 5, 2019" "a.pdf" "m.pdf") = Raise ValueError /\
  fetch_row sibling false sample_base default_config
    (listing_row "June 5, 2019" "a.pdf" "//[x/m.pdf") = Raise ValueError.
Proof.
  split.
  - apply (proj2 (fetch_listing_errors sibling false sample_base default_config
                    (listing_world []) _)).
    exists (text_cell "Sept 5, 2019"), (link_cell "a.pdf"), (link_cell "m.pdf"), [],
           "Sept 5, 2019".
    split; [reflexivity|]. split; [reflexivity|]. by left.
  - apply (proj2 (fetch_listing_errors sibling false sample_base default_config
                    (listing_world []) _)).
    exists (text_cell "June 5, 2019"), (link_cell "a.pdf"), (link_cell "//[x/m.pdf"), [],
           "June 5, 2019".
    split; [reflexivity|]. split; [reflexivity|]. right.
    exists (midnight 2019 6 5), "//[x/m.pdf".
    split; [reflexivity|]. split; [simpl; lia|]. split; reflexivity.
Defined.

(** ** PDF acquisition: failures, what is written, what is kept *)

Lemma lower_append (a b : string) : Str.lower (a +:+ b) = Str.lower a +:+ Str.lower b.
Proof. induction a as [|c a IH]; [done|]. rewrite !append_cons. simpl. by rewrite IH. Qed.

Lemma endswith_refl s : Str.endswith s s = true.
Proof. destruct s; cbn [Str.endswith]; by rewrite String.eqb_refl. Qed.

Lemma endswith_append (a b : string) : Str.endswith (a +:+ b) b = true.
Proof.
  induction a as [|c a IH]; [apply endswith_refl|].
  rewrite append_cons. cbn [Str.endswith]. rewrite IH. by destruct (String.eqb _ _).
Qed.

Lemma endswith_length s suffix :
  Str.endswith s suffix = true -> String.length suffix <= String.length s.
Proof.
  induction s as [|c s IH]; cbn [Str.endswith].
  - destruct (String.eqb "" suffix) eqn:E; [|done].
    apply String.eqb_eq in E. by subst.
  - destruct (String.eqb (String c s) suffix) eqn:E.
    + apply String.eqb_eq in E. by subst.
    + intros H. apply IH in H. simpl. lia.
Qed.

Lemma lower_length s : String.length (Str.lower s) = String.length s.
Proof. induction s as [|c s IH]; simpl; [done|]. by rewrite IH. Qed.

Lemma has_slash_append (a b : string) :
  Str.has_slash (a +:+ b) = Str.has_slash a || Str.has_slash b.
Proof.
  induction a as [|c a IH]; [done|]. rewrite append_cons. simpl.
  by rewrite IH, orb_assoc.
Qed.

(** X7. The shape of a local name.  The name [download_pdf] derives from a
    URL is one path component: it holds no slash, it ends in [.pdf] in some
    letter case and so is at least four characters long; and when the text
    after the last slash of the URL already ends so, it is that text
    unchanged. *)
Theorem derived_name_shape url :
  Str.has_slash (derived_name url) = false /\
  Str.endswith (Str.lower (derived_name url)) ".pdf" = true /\
  4 <= String.length (derived_name url) /\
  (Str.endswith (Str.lower (Str.rsplit_last url)) ".pdf" = true ->
   derived_name url = Str.rsplit_last url).
Proof.
  assert (Hends : Str.endswith (Str.lower (derived_name url)) ".pdf" = true).
  { unfold derived_name.
    destruct (Str.endswith (Str.lower (Str.rsplit_last url)) ".pdf") eqn:E; simpl;
      [done|]. rewrite lower_append. apply endswith_append. }
  split; [|split; [done|split]].
  - unfold derived_name. destruct (negb _).
    + by rewrite has_slash_append, rsplit_last_no_slash.
    + apply rsplit_last_no_slash.
  - apply endswith_length in Hends. rewrite lower_length in Hends. exact Hends.
  - unfold derived_name. by intros ->.
Qed.

Lemma derived_name_shape_witness :
  derived_name "https://sfbos.org/files/LUT_2019.PDF" = "LUT_2019.PDF".
Proof.
  exact (proj2 (proj2 (proj2 (derived_name_shape
                                "https://sfbos.org/files/LUT_2019.PDF"))) eq_refl).
Defined.


Lemma mkdir_parent_dir (dest : path) (m0 m : gmap path node) :
  mkdir_from [] dest m0 = Ok m -> dest = [] \/ m !! dest = Some Dir.
Proof.
  intros Hm. destruct (mkdir_from_post _ _ _ _ Hm) as (Hdirs & _ & _).
  destruct dest as [|d0 dest']; [by left|right].
  by apply (all_dirs_last [] (d0 :: dest') m Hdirs).
Qed.





(** Whatever the outcome, a call keeps every entry of the disk, the
    network and the printed lines, and adds at most one request. *)
Lemma download_pdf_frame url (dest : path) headers w :
  remote (snd (download_pdf url dest headers w)) = remote w /\
  stdout (snd (download_pdf url dest headers w)) = stdout w /\
  (forall q x, fs w !! q = Some x ->
               fs (snd (download_pdf url dest headers w)) !! q = Some x) /\
  (requests (snd (download_pdf url dest headers w)) = requests w \/
   requests (snd (download_pdf url dest headers w)) =
     requests w ++ [{| req_url := url; req_user_agent := headers_or_default headers;
                       req_timeout := 60 |}]).
Proof.
  unfold download_pdf, bind, mkdir_parents, exists_.
  destruct (mkdir_from [] dest (fs w)) as [m|e] eqn:Hm; [|simpl; eauto 6].
  destruct (mkdir_from_post _ _ _ _ Hm) as (_ & Hkeep & _).
  assert (Hk : forall q x, fs w !! q = Some x -> m !! q = Some x).
  { intros q x Hq. rewrite Hkeep; [done | rewrite Hq; eauto]. }
  simpl. case_bool_decide as Hex; [simpl; eauto 6|].
  assert (Hnone : m !! (dest ++ [derived_name url]) = None).
  { destruct (m !! (dest ++ [derived_name url])) eqn:E; [|done].
    exfalso. apply Hex. right. eauto. }
  unfold http_get. simpl.
  destruct (remote w url) as [|r]; [simpl; eauto 6|].
  destruct ((400 <=? status r)%Z && (status r <? 600)%Z); [simpl; eauto 6|].
  rewrite open_w_new; [|done | by apply (mkdir_parent_dir dest (fs w))].
  unfold write. simpl. rewrite lookup_insert_eq. simpl.
  split; [done|]. split; [done|]. split; [|by right].
  intros q x Hq. apply Hk in Hq.
  rewrite !lookup_insert_ne by congruence. done.
Qed.

(** X10. Nothing is overwritten.  Whatever its outcome, a call of
    [download_pdf] leaves every file and directory that was on the disk as
    it was, and issues at most one request. *)
Theorem download_pdf_keeps_disk url (dest : path) headers w (q : path) x :
  fs w !! q = Some x ->
  fs (snd (download_pdf url dest headers w)) !! q = Some x /\
  length (requests (snd (download_pdf url dest headers w))) <= S (length (requests w)).
Proof.
  intros Hq. destruct (download_pdf_frame url dest headers w) as (_ & _ & Hk & Hreq).
  split; [by apply Hk|].
  destruct Hreq as [->| ->]; [lia|]. rewrite length_app. simpl. lia.
Qed.

Lemma download_pdf_keeps_disk_witness :
  fs (snd (download_pdf "https://sfbos.org/files/abc.pdf" ["pdfs"] None
             (one_file_world "abc.pdf" pdf_magic))) !! ["pdfs"; "abc.pdf"]
  = Some (File pdf_magic).
Proof.
  apply (download_pdf_keeps_disk "https://sfbos.org/files/abc.pdf" ["pdfs"] None
           (one_file_world "abc.pdf" pdf_magic) ["pdfs"; "abc.pdf"] (File pdf_magic)
           eq_refl).
Defined.

(** ** Content hashing: the form of a digest, the cut into chunks *)

Lemma round_length v kw : length v = 8 -> length (SHA256.round v kw) = 8.
Proof.
  destruct v as [|a [|b [|c [|d [|e [|f [|g [|h [|? ?]]]]]]]]]; simpl; first [lia | done].
Qed.

Lemma rounds_length l : forall v, length v = 8 -> length (fold_left SHA256.round l v) = 8.
Proof.
  induction l as [|kw l IH]; intros v Hv; simpl; [done|].
  apply IH. by apply round_length.
Qed.

Lemma compress_length st block : length st = 8 -> length (SHA256.compress st block) = 8.
Proof.
  intros Hst. unfold SHA256.compress.
  rewrite length_map, length_combine, rounds_length by done. lia.
Qed.

Lemma absorb_n_length n : forall st data,
  length st = 8 -> length (fst (SHA256.absorb_n n st data)) = 8.
Proof.
  induction n as [|n IH]; intros st data Hst; simpl; [done|].
  apply IH. by apply compress_length.
Qed.

Lemma all_lower_hex_app (a b : string) :
  all_lower_hex (a +:+ b) = all_lower_hex a && all_lower_hex b.
Proof.
  induction a as [|c a IH]; [done|]. rewrite append_cons. simpl.
  by rewrite IH, andb_assoc.
Qed.

Lemma hex_digit_lower d : (0 <= d < 16)%Z -> is_lower_hex (SHA256.hex_digit d) = true.
Proof.
  intros H.
  assert (Hd : (d = 0 \/ d = 1 \/ d = 2 \/ d = 3 \/ d = 4 \/ d = 5 \/ d = 6 \/ d = 7 \/
                d = 8 \/ d = 9 \/ d = 10 \/ d = 11 \/ d = 12 \/ d = 13 \/ d = 14 \/
                d = 15)%Z) by lia.
  repeat (destruct Hd as [->|Hd]; [reflexivity|]). by subst.
Qed.

Lemma hex_of_word_form k : forall x acc,
  String.length (SHA256.hex_of_word k x acc) = k + String.length acc /\
  all_lower_hex (SHA256.hex_of_word k x acc) = all_lower_hex acc.
Proof.
  induction k as [|k IH]; intros x acc; simpl; [done|].
  destruct (IH (x / 16)%Z (String (SHA256.hex_digit (x mod 16)) acc)) as [-> ->].
  simpl. rewrite hex_digit_lower by (apply Z.mod_pos_bound; lia). split; [lia | done].
Qed.

Lemma hex_of_state_form st :
  String.length (SHA256.hex_of_state st) = 8 * length st /\
  all_lower_hex (SHA256.hex_of_state st) = true.
Proof.
  induction st as [|x st [IHl IHh]]; [done|].
  destruct (hex_of_word_form 8 x "") as [Hl Hh].
  change (String.length "") with 0 in Hl. change (all_lower_hex "") with true in Hh.
  cbn [SHA256.hex_of_state].
  rewrite append_length, all_lower_hex_app, Hl, Hh, IHl, IHh. cbn [length].
  split; [lia | done].
Qed.

(** X11. The form of a digest.  For every file content, what
    [_sha256_file] computes is a text of exactly 64 characters, each a
    decimal digit or a letter from [a] to [f]. *)
Theorem sha256_digest_form (data : list Byte.byte) :
  exists digest,
    sha256_stream data = Some digest /\
    String.length digest = 64 /\ all_lower_hex digest = true.
Proof.
  exists (SHA256.hexdigest_of data). split; [apply sha256_stream_correct|].
  unfold SHA256.hexdigest_of, SHA256.absorb.
  destruct (hex_of_state_form
              (fst (SHA256.absorb_n
                      (length (data ++ SHA256.padding (Z.of_nat (length data))) / 64)
                      SHA256.initial_state
                      (data ++ SHA256.padding (Z.of_nat (length data)))))) as [Hl Hh].
  rewrite absorb_n_length in Hl by reflexivity. split; [exact Hl | exact Hh].
Qed.

Lemma holds_chunks chunks : forall h m,
  SHA256.holds h m -> SHA256.holds (fold_left SHA256.update chunks h) (m ++ concat chunks).
Proof.
  induction chunks as [|c chunks IH]; intros h m Hh; simpl.
  - by rewrite app_nil_r.
  - rewrite app_assoc. apply IH. by apply holds_update.
Qed.

(** X12. The cut into chunks does not matter.  Feeding a hash object any
    sequence of chunks, of whatever sizes and with empty ones among them,
    gives the digest of their concatenation; and two updates in a row are
    one update with the two pieces joined. *)
Theorem sha256_any_chunks (chunks : list (list Byte.byte)) h (a b : list Byte.byte) :
  SHA256.hexdigest (fold_left SHA256.update chunks SHA256.new)
    = SHA256.hexdigest_of (concat chunks) /\
  SHA256.update (SHA256.update h a) b = SHA256.update h (a ++ b).
Proof.
  split.
  - apply holds_hexdigest. apply (holds_chunks chunks SHA256.new []), holds_new.
  - unfold SHA256.update.
    rewrite (app_assoc (SHA256.buffer h) a b), (absorb_app (SHA256.buffer h ++ a) b).
    destruct (SHA256.absorb (SHA256.state h) (SHA256.buffer h ++ a)) as [st rest]. simpl.
    destruct (SHA256.absorb st (rest ++ b)) as [st' rest'].
    f_equal. rewrite length_app. lia.
Qed.

(** ** Serialization: nothing is lost, one newline per record *)

Lemma dumps_injective v1 v2 : Json.dumps v1 = Json.dumps v2 -> v1 = v2.
Proof.
  intros H. pose proof (loads_dumps v1) as H1. rewrite H, loads_dumps in H1. congruence.
Qed.

Lemma opt_text_injective (a b : option string) :
  Models.opt Json.Text a = Models.opt Json.Text b -> a = b.
Proof. destruct a, b; simpl; congruence. Qed.

Lemma opt_int_injective (a b : option Z) :
  Models.opt Json.Int a = Models.opt Json.Int b -> a = b.
Proof. destruct a, b; simpl; congruence. Qed.

Lemma items_json_injective (l1 l2 : list Models.ExtractedItem) :
  map Models.item_json l1 = map Models.item_json l2 -> l1 = l2.
Proof.
  revert l2. induction l1 as [|[p1 t1] l1 IH]; intros [|[p2 t2] l2]; simpl; try done.
  intros [= -> -> H]. f_equal. by apply IH.
Qed.

(** X13. Nothing is lost in a line.  Two records with the same line have
    the same source URL, document type, committee, hash, MIME type, size,
    page count, extracted title and items, extractor tag, and the same texts
    for meeting date and extraction time. *)
Theorem to_jsonl_line_injective (r1 r2 : Models.DocRecord) :
  Models.to_jsonl_line r1 = Models.to_jsonl_line r2 ->
  Models.source_url r1 = Models.source_url r2 /\
  Models.doc_type r1 = Models.doc_type r2 /\
  Models.committee r1 = Models.committee r2 /\
  Models.sha256 r1 = Models.sha256 r2 /\
  Models.mime r1 = Models.mime r2 /\
  Models.file_size r1 = Models.file_size r2 /\
  Models.page_count r1 = Models.page_count r2 /\
  Models.extracted r1 = Models.extracted r2 /\
  Models.extractor r1 = Models.extractor r2 /\
  Models.iso_datetime (Models.extracted_at r1) = Models.iso_datetime (Models.extracted_at r2).
Proof.
  intros H. apply dumps_injective in H.
  destruct r1 as [u1 t1 c1 d1 s1 m1 f1 p1 [ti1 it1] a1 [n1 v1]].
  destruct r2 as [u2 t2 c2 d2 s2 m2 f2 p2 [ti2 it2] a2 [n2 v2]].
  unfold Models.record_json, Models.payload_json in H. simpl in *.
  injection H as Hu Ht Hc _ Hs Hm Hf Hp Hti Hit Ha Hn Hv.
  apply opt_text_injective in Hc, Hti. apply opt_int_injective in Hf, Hp.
  apply items_json_injective in Hit. subst.
  repeat split; try done. by destruct t1, t2.
Qed.

Lemma to_jsonl_line_injective_witness :
  Models.extracted test_record = Models.extracted test_record /\
  Models.sha256 test_record = Models.sha256 test_record.
Proof.
  destruct (to_jsonl_line_injective test_record test_record eq_refl)
    as (_ & _ & _ & Hs & _ & _ & _ & He & _).
  split; [exact He | exact Hs].
Defined.

Lemma count_byte_app b (l1 l2 : list Byte.byte) :
  count_byte b (l1 ++ l2) = count_byte b l1 + count_byte b l2.
Proof. induction l1 as [|x l1 IH]; simpl; [done|]. rewrite IH. lia. Qed.

Lemma utf8_char_newlines c :
  count_byte newline_byte (utf8_char c) = if (Str.code c =? 10)%N then 1 else 0.
Proof. destruct c as [[] [] [] [] [] [] [] []]; reflexivity. Qed.

Lemma utf8_newlines s :
  Json.has_newline s = false -> count_byte newline_byte (utf8 s) = 0.
Proof.
  induction s as [|c s IH]; simpl; [done|]. intros H.
  apply orb_false_iff in H as [Hc Hs].
  by rewrite count_byte_app, utf8_char_newlines, Hc, (IH Hs).
Qed.

Lemma utf8_append (a b : string) : utf8 (a +:+ b) = utf8 a ++ utf8 b.
Proof.
  induction a as [|c a IH]; [done|]. rewrite append_cons. simpl.
  by rewrite IH, app_assoc.
Qed.

(** X14. One newline per record.  The bytes [cmd_extract] writes for a
    record end with the newline byte and hold no other one; so the bytes
    written for a sequence of records hold as many newline bytes as there
    are records. *)
Theorem record_lines_newlines (recs : list Models.DocRecord) :
  Forall (fun r => exists body,
            record_line r = body ++ [newline_byte] /\
            count_byte newline_byte body = 0) recs /\
  count_byte newline_byte (concat (map record_line recs)) = length recs.
Proof.
  assert (Hone : forall r, exists body,
             record_line r = body ++ [newline_byte] /\
             count_byte newline_byte body = 0).
  { intros r. exists (utf8 (Models.to_jsonl_line r)). unfold record_line.
    rewrite utf8_append. split; [done|]. apply utf8_newlines.
    unfold Models.to_jsonl_line, Json.dumps. by rewrite write_newline. }
  split; [apply Forall_forall; intros r _; apply Hone|].
  induction recs as [|r recs IH]; [done|].
  cbn [map concat length]. destruct (Hone r) as (body & -> & Hb).
  rewrite !count_byte_app, Hb, IH. simpl. lia.
Qed.

(** ** Metadata builder: what it reads, raises and fills in *)

(** X15. The metadata builder only reads.  [extract_metadata] leaves the
    world as it is and its outcome depends on the disk alone; when
    something is at the path, on that alone.  A path that is not on the
    disk raises [NotADirectoryError] if the walk towards it meets a regular
    file with parts of the path still to come, and [FileNotFoundError] if
    it meets a missing part first; a directory, and the empty path, raise
    [IsADirectoryError]; and a file with a document type other than
    [minutes] and [agenda] raises [ValidationError].  Called twice, it
    gives the same outcome twice. *)
Theorem extract_metadata_reads_only lib now (p : path) src committee dt w :
  snd (extract_metadata lib now p src committee dt w) = w /\
  (forall w2, fs w2 = fs w ->
     fst (extract_metadata lib now p src committee dt w2)
     = fst (extract_metadata lib now p src committee dt w)) /\
  (forall w2, is_Some (fs w !! p) -> fs w2 !! p = fs w !! p ->
     fst (extract_metadata lib now p src committee dt w2)
     = fst (extract_metadata lib now p src committee dt w)) /\
  fst (extract_metadata lib now p src committee dt
         (snd (extract_metadata lib now p src committee dt w)))
    = fst (extract_metadata lib now p src committee dt w) /\
  (fs w !! p = None -> p <> [] -> file_above [] p (fs w) = true ->
   fst (extract_metadata lib now p src committee dt w) = Raise NotADirectoryError) /\
  (fs w !! p = None -> p <> [] -> file_above [] p (fs w) = false ->
   fst (extract_metadata lib now p src committee dt w) = Raise FileNotFoundError) /\
  (fs w !! p = Some Dir \/ (fs w !! p = None /\ p = []) ->
   fst (extract_metadata lib now p src committee dt w) = Raise IsADirectoryError) /\
  (forall data, fs w !! p = Some (File data) -> ~ In dt ["minutes"; "agenda"] ->
   fst (extract_metadata lib now p src committee dt w) = Raise ValidationError).
Proof.
  split; [by rewrite extract_metadata_pure|].
  split; [intros w2 H; by rewrite !extract_metadata_pure, H|].
  split.
  { intros w2 Hs H. rewrite !extract_metadata_pure.
    by rewrite (read_result_present (fs w) (fs w2) p Hs H). }
  split; [by rewrite !extract_metadata_pure|].
  rewrite extract_metadata_pure. cbn [fst]. unfold metadata_of, read_result, missing_error.
  split; [intros -> Hp ->; by rewrite bool_decide_eq_false_2|].
  split; [intros -> Hp ->; by rewrite bool_decide_eq_false_2|].
  split; [intros [->|[-> ->]]; done|].
  intros data -> Hdt. cbn [rbind]. unfold Models.validate_doc_type.
  destruct (String.eqb dt "minutes") eqn:E1.
  { apply String.eqb_eq in E1. exfalso. apply Hdt. left. done. }
  destruct (String.eqb dt "agenda") eqn:E2; [|done].
  apply String.eqb_eq in E2. exfalso. apply Hdt. right. left. done.
Qed.

Lemma extract_metadata_reads_only_witness :
  fst (extract_metadata None sample_now ["pdfs"; "abc.pdf"; "x.pdf"]
         "file://pdfs/abc.pdf/x.pdf" None "minutes" rerun_world)
    = Raise NotADirectoryError /\
  fst (extract_metadata None sample_now ["pdfs"; "missing.pdf"] "file://pdfs/missing.pdf"
         None "minutes" rerun_world) = Raise FileNotFoundError /\
  fst (extract_metadata None sample_now ["pdfs"] "file://pdfs" None "minutes" rerun_world)
    = Raise IsADirectoryError /\
  fst (extract_metadata None sample_now ["pdfs"; "abc.pdf"] "file://pdfs/abc.pdf"
         None "Minutes" rerun_world) = Raise ValidationError.
Proof.
  split; [|split; [|split]].
  - apply (proj1 (proj2 (proj2 (proj2 (proj2
             (extract_metadata_reads_only None sample_now ["pdfs"; "abc.pdf"; "x.pdf"]
                "file://pdfs/abc.pdf/x.pdf" None "minutes" rerun_world))))));
      [reflexivity | discriminate | reflexivity].
  - apply (proj1 (proj2 (proj2 (proj2 (proj2 (proj2
             (extract_metadata_reads_only None sample_now ["pdfs"; "missing.pdf"]
                "file://pdfs/missing.pdf" None "minutes" rerun_world)))))));
      [reflexivity | discriminate | reflexivity].
  - apply (proj1 (proj2 (proj2 (proj2 (proj2 (proj2 (proj2
             (extract_metadata_reads_only None sample_now ["pdfs"]
                "file://pdfs" None "minutes" rerun_world)))))))).
    left. reflexivity.
  - eapply (proj2 (proj2 (proj2 (proj2 (proj2 (proj2 (proj2
              (extract_metadata_reads_only _ _ _ _ _ _ _)))))))); [reflexivity|].
    intros [H|[H|[]]]; discriminate H.
Defined.

(** X16. What the builder fills in.  A record [extract_metadata] returns
    carries the source URL and committee it was given, the document type it
    was given as one of the two literals, the digest and the size of the
    file, the time of the call and the fixed extractor tag and MIME type;
    its meeting date is unset and its list of items is empty. *)
Theorem extract_metadata_fields lib now (p : path) src committee dt w rec :
  fst (extract_metadata lib now p src committee dt w) = Ok rec ->
  exists data,
    fs w !! p = Some (File data) /\
    Models.source_url rec = src /\
    Models.committee rec = committee /\
    Models.doc_type_str (Models.doc_type rec) = dt /\
    Models.sha256 rec = SHA256.hexdigest_of data /\
    Models.file_size rec = Some (Z.of_nat (length data)) /\
    Models.mime rec = "application/pdf" /\
    Models.meeting_date rec = None /\
    Models.items (Models.extracted rec) = [] /\
    Models.extracted_at rec = now /\
    Models.extractor rec = Models.default_extractor.
Proof.
  rewrite extract_metadata_pure. cbn [fst]. unfold metadata_of, read_result.
  destruct (fs w !! p) as [[data|]|]; try done. cbn [rbind].
  unfold Models.validate_doc_type.
  destruct (String.eqb dt "minutes") eqn:E1.
  - apply String.eqb_eq in E1. subst dt. intros [= <-]. by exists data.
  - destruct (String.eqb dt "agenda") eqn:E2; [|done].
    apply String.eqb_eq in E2. subst dt. intros [= <-]. by exists data.
Qed.

Lemma extract_metadata_fields_witness :
  exists rec,
    fst (extract_metadata None sample_now ["pdfs"; "abc.pdf"] "file://pdfs/abc.pdf"
           (Some "Land Use and Transportation") "agenda" rerun_world) = Ok rec /\
    Models.doc_type rec = Models.agenda /\ Models.meeting_date rec = None /\
    Models.file_size rec = Some 3%Z.
Proof.
  assert (H : exists rec,
             fst (extract_metadata None sample_now ["pdfs"; "abc.pdf"]
                    "file://pdfs/abc.pdf" (Some "Land Use and Transportation")
                    "agenda" rerun_world) = Ok rec).
  { rewrite extract_metadata_pure. eexists. reflexivity. }
  destruct H as [rec Hrec]. exists rec. split; [exact Hrec|].
  destruct (extract_metadata_fields _ _ _ _ _ _ _ _ Hrec)
    as (data & Hd & _ & _ & Ht & _ & Hsz & _ & Hm & _).
  injection Hd as <-.
  split; [by destruct (Models.doc_type rec) | split; [exact Hm | exact Hsz]].
Defined.

(** ** The title heuristic *)

Lemma lower_char_space b : Str.is_space (Str.lower_char b) = Str.is_space b.
Proof. destruct b as [[] [] [] [] [] [] [] []]; reflexivity. Qed.

Lemma lower_char_newline b :
  (Str.code (Str.lower_char b) =? 10)%N = (Str.code b =? 10)%N.
Proof. destruct b as [[] [] [] [] [] [] [] []]; reflexivity. Qed.

Lemma all_space_rstrip s : Str.all_space (Str.rstrip s) = Str.all_space s.
Proof.
  induction s as [|c s IH]; [done|]. cbn [Str.rstrip].
  destruct (Str.all_space (String c s)) eqn:E; [done|].
  cbn [Str.all_space] in *. by rewrite IH.
Qed.

Lemma rstrip_idem s : Str.rstrip (Str.rstrip s) = Str.rstrip s.
Proof.
  induction s as [|c s IH]; [done|]. cbn [Str.rstrip].
  destruct (Str.all_space (String c s)) eqn:E; [done|].
  cbn [Str.rstrip]. cbn [Str.all_space] in *. by rewrite all_space_rstrip, E, IH.
Qed.

Lemma rstrip_newline s :
  Json.has_newline s = false -> Json.has_newline (Str.rstrip s) = false.
Proof.
  induction s as [|c s IH]; [done|]. cbn [Str.rstrip Json.has_newline].
  intros H. apply orb_false_iff in H as [Hc Hs].
  destruct (Str.all_space (String c s)); [done|].
  cbn [Json.has_newline]. by rewrite Hc, (IH Hs).
Qed.

Lemma line_newline s : Json.has_newline (TitleRe.line s) = false.
Proof.
  induction s as [|c s IH]; [done|]. cbn [TitleRe.line].
  destruct (Str.code c =? 10)%N eqn:E; [done|]. cbn [Json.has_newline].
  by rewrite E, IH.
Qed.

(** A prefix without newline survives the cut at the end of the line, and
    one without white space survives the stripping on the right. *)
Lemma starts_with_line p : forall s,
  Json.has_newline p = false ->
  TitleRe.starts_with p s = true -> TitleRe.starts_with p (TitleRe.line s) = true.
Proof.
  induction p as [|a p IH]; intros s Hp Hs; [done|].
  destruct s as [|b s]; [done|]. cbn [TitleRe.starts_with] in Hs.
  apply andb_true_iff in Hs as [Hab Hs]. apply Ascii.eqb_eq in Hab.
  cbn [Json.has_newline] in Hp. apply orb_false_iff in Hp as [Ha Hp].
  cbn [TitleRe.line]. rewrite <- lower_char_newline, <- Hab, Ha.
  cbn [TitleRe.starts_with]. by rewrite <- Hab, Ascii.eqb_refl, (IH s Hp Hs).
Qed.

Lemma starts_with_rstrip p : forall s,
  no_space p = true ->
  TitleRe.starts_with p s = true -> TitleRe.starts_with p (Str.rstrip s) = true.
Proof.
  induction p as [|a p IH]; intros s Hp Hs; [done|].
  destruct s as [|b s]; [done|]. cbn [TitleRe.starts_with] in Hs.
  apply andb_true_iff in Hs as [Hab Hs]. apply Ascii.eqb_eq in Hab.
  cbn [no_space] in Hp. apply andb_true_iff in Hp as [Ha Hp]. apply negb_true_iff in Ha.
  assert (Hb : Str.is_space b = false) by (by rewrite <- lower_char_space, <- Hab).
  cbn [Str.rstrip Str.all_space]. rewrite Hb. cbn [andb TitleRe.starts_with].
  by rewrite <- Hab, Ascii.eqb_refl, (IH s Hp Hs).
Qed.

Lemma title_search_shape s : forall g,
  TitleRe.search s = Some g ->
  Json.has_newline g = false /\
  (TitleRe.starts_with "meeting" g || TitleRe.starts_with "agenda" g) = true.
Proof.
  induction s as [|c s IH]; intros g; cbn [TitleRe.search].
  - intros H. by vm_compute in H.
  - destruct (TitleRe.starts_with "meeting" (String c s)
              || TitleRe.starts_with "agenda" (String c s)) eqn:E; [|apply IH].
    intros [= <-]. split; [exact (line_newline (String c s))|].
    apply orb_true_iff in E as [E|E]; apply orb_true_iff; [left|right].
    + exact (starts_with_line "meeting" (String c s) eq_refl E).
    + exact (starts_with_line "agenda" (String c s) eq_refl E).
Qed.

(** X17. The title that is sniffed.  When the [try] block yields a title,
    it starts with [meeting] or [agenda] in some letter case, it holds no
    newline, it has no white space at either end, and the page count is set
    and at least one. *)
Theorem sniffed_title_shape lib (data : list Byte.byte) pc t :
  sniff lib data = (pc, Some t) ->
  (TitleRe.starts_with "meeting" t || TitleRe.starts_with "agenda" t) = true /\
  Json.has_newline t = false /\
  Str.lstrip t = t /\ Str.rstrip t = t /\
  exists n, pc = Some (Z.of_nat (S n)).
Proof.
  unfold sniff. destruct lib as [open_pdf|]; [|done].
  destruct (open_pdf data) as [pdf|e]; [|done].
  destruct (pages pdf) as [ps|e]; [|done].
  destruct ps as [|[txt|e] ps]; try done.
  destruct (TitleRe.search (match txt with Some x => x | None => "" end))
    as [g|] eqn:Hg; [|done].
  simpl. intros [= <- <-]. destruct (title_search_shape _ _ Hg) as [Hnl Hst].
  assert (Hl : Str.lstrip g = g).
  { destruct g as [|b g]; [done|]. cbn [Str.lstrip].
    replace (Str.is_space b) with false; [done|]. symmetry.
    rewrite <- lower_char_space.
    apply orb_true_iff in Hst as [H|H]; cbn [TitleRe.starts_with] in H;
      apply andb_true_iff in H as [H _]; apply Ascii.eqb_eq in H; by rewrite <- H. }
  unfold Str.strip. rewrite Hl.
  assert (Hst' : (TitleRe.starts_with "meeting" (Str.rstrip g)
                  || TitleRe.starts_with "agenda" (Str.rstrip g)) = true).
  { apply orb_true_iff in Hst as [H|H]; apply orb_true_iff; [left|right];
      by apply starts_with_rstrip. }
  split; [exact Hst'|]. split; [by apply rstrip_newline|].
  split; [|split; [apply rstrip_idem | by exists (length ps)]].
  destruct (Str.rstrip g) as [|b g']; [done|]. cbn [Str.lstrip].
  replace (Str.is_space b) with false; [done|]. symmetry.
  rewrite <- lower_char_space.
  apply orb_true_iff in Hst' as [H|H]; cbn [TitleRe.starts_with] in H;
    apply andb_true_iff in H as [H _]; apply Ascii.eqb_eq in H; by rewrite <- H.
Qed.

Lemma sniffed_title_shape_witness :
  sniff (one_page_library sample_page_text) [] = (Some 1%Z, Some "Agenda for the meeting") /\
  Str.rstrip "Agenda for the meeting" = "Agenda for the meeting".
Proof.
  assert (H : sniff (one_page_library sample_page_text) []
              = (Some 1%Z, Some "Agenda for the meeting")) by reflexivity.
  split; [exact H|].
  by destruct (sniffed_title_shape _ _ _ _ H) as (_ & _ & _ & Hr & _).
Defined.

(** ** The files of a run of [extract] *)

Lemma In_insert_sorted_iff x a l : In x (insert_sorted a l) <-> x = a \/ In x l.
Proof.
  induction l as [|y l IH]; simpl.
  - split; [intros [<-|[]]; by left | intros [->|[]]; by left].
  - destruct (String.leb a y); simpl; [split; intros [<-|H]; auto|].
    rewrite IH. split; [intros [<-|[->|H]]; auto | intros [->|[<-|H]]; auto].
Qed.

Lemma In_sort_names_iff x l : In x (sort_names l) <-> In x l.
Proof.
  induction l as [|a l IH]; simpl; [done|].
  rewrite In_insert_sorted_iff, IH. split; intros [->|H]; auto.
Qed.

Lemma insert_sorted_sorted a l :
  names_sorted l = true -> names_sorted (insert_sorted a l) = true.
Proof.
  induction l as [|y l IH]; [done|]. intros Hl. cbn [insert_sorted].
  destruct (String.leb a y) eqn:E.
  - cbn [names_sorted]. by rewrite E.
  - assert (Hya : String.leb y a = true).
    { destruct (String.leb_total a y) as [H|H]; congruence. }
    destruct l as [|z l].
    + cbn [insert_sorted names_sorted]. by rewrite Hya.
    + cbn [names_sorted] in Hl. apply andb_true_iff in Hl as [Hyz Hl].
      specialize (IH Hl). cbn [insert_sorted] in *.
      destruct (String.leb a z); cbn [names_sorted] in *.
      * by rewrite Hya, IH.
      * by rewrite Hyz, IH.
Qed.

Lemma sort_names_sorted l : names_sorted (sort_names l) = true.
Proof. induction l as [|a l IH]; [done|]. by apply insert_sorted_sorted. Qed.

Lemma NoDup_insert_sorted a l : ~ In a l -> List.NoDup l -> List.NoDup (insert_sorted a l).
Proof.
  induction l as [|y l IH]; intros Ha Hl; simpl.
  - constructor; [done | constructor].
  - destruct (String.leb a y); [by constructor|].
    inversion Hl as [|? ? Hy Hl']; subst. constructor.
    + rewrite In_insert_sorted_iff. intros [->|H]; [apply Ha; by left | done].
    + apply IH; [intros H; apply Ha; by right | done].
Qed.

Lemma NoDup_sort_names l : List.NoDup l -> List.NoDup (sort_names l).
Proof.
  induction l as [|a l IH]; intros Hl; simpl; [constructor|].
  inversion Hl; subst. apply NoDup_insert_sorted; [by rewrite In_sort_names_iff | auto].
Qed.

Lemma NoDup_omap_inj {A B} (f : A -> option B) (l : list A) :
  NoDup l ->
  (forall x y b, x ∈ l -> y ∈ l -> f x = Some b -> f y = Some b -> x = y) ->
  NoDup (omap f l).
Proof.
  induction 1 as [|x l Hx Hl IH]; intros Hinj; csimpl; [constructor|].
  assert (IH' : NoDup (omap f l)).
  { apply IH. intros a b c Ha Hb. apply Hinj; by right. }
  destruct (f x) as [b|] eqn:Hf; [|done].
  apply NoDup_cons. split; [|done].
  rewrite list_elem_of_omap. intros (y & Hy & Hfy).
  assert (x = y) by (eapply Hinj; [by left | by right | done | done]).
  by subst.
Qed.

Lemma NoDup_pdf_names (d : path) (m : gmap path node) : List.NoDup (pdf_names d m).
Proof.
  unfold pdf_names. apply NoDup_ListNoDup.
  apply NoDup_omap_inj; [apply NoDup_map_to_list|].
  intros [q n] [q' n'] name Hin Hin' Hf Hf'.
  apply (pdf_name_path d q name) in Hf as [-> _].
  apply (pdf_name_path d q' name) in Hf' as [-> _].
  apply elem_of_map_to_list in Hin, Hin'. congruence.
Qed.

(** X18. The files a run of [extract] visits.  The listing of a directory
    holds a path exactly when it is an entry of that directory, file or
    directory, whose name ends in [.pdf] in lower case; each such entry is
    listed once; and the names come in ascending order. *)
Theorem pdf_listing_spec (d : path) (m : gmap path node) :
  (forall p, In p (pdf_listing d m) <->
             exists name, p = d ++ [name] /\ is_Some (m !! p) /\
                          Str.endswith name ".pdf" = true) /\
  List.NoDup (pdf_listing d m) /\
  names_sorted (map path_name (pdf_listing d m)) = true.
Proof.
  unfold pdf_listing. split; [|split].
  - intros p. rewrite in_map_iff. split.
    + intros (name & <- & Hn). apply In_sort_names_iff, In_pdf_names in Hn. eauto.
    + intros (name & -> & Hs & He). exists name. split; [done|].
      by apply In_sort_names_iff, In_pdf_names.
  - apply Finite.Injective_map_NoDup.
    + intros a b H. by apply app_inv_head in H as [= ->].
    + apply NoDup_sort_names, NoDup_pdf_names.
  - rewrite map_map. unfold path_name.
    rewrite (map_ext _ (fun x => x)) by (intros; apply last_last).
    rewrite map_id. apply sort_names_sorted.
Qed.

(** ** Command [fetch] *)

Lemma path_name_snoc (d : path) (name : string) : path_name (d ++ [name]) = name.
Proof. apply last_last. Qed.

Lemma printed_nil w : printed w [] = w.
Proof. destruct w. unfold printed. simpl. by rewrite app_nil_r. Qed.

Lemma printed_printed w a b : printed (printed w a) b = printed w (a ++ b).
Proof. unfold printed. simpl. by rewrite <- app_assoc. Qed.

Lemma all_dirs_kept (pre : path) (rest : list string) (m m' : gmap path node) :
  (forall q x, m !! q = Some x -> m' !! q = Some x) ->
  all_dirs pre rest m = true -> all_dirs pre rest m' = true.
Proof.
  intros Hk. revert pre. induction rest as [|c rest IH]; intros pre H; simpl in *; [done|].
  destruct (m !! (pre ++ [c])) as [[|]|] eqn:E; try done.
  rewrite (Hk _ _ E). by apply IH.
Qed.

(** The download loop, when it comes to its end. *)
Lemma download_all_ok (out : path) (items : list (string * string)) : forall w w',
  download_all out items w = (Ok tt, w') ->
  stdout w' = stdout w ++ saved_lines items /\
  remote w' = remote w /\
  (forall q x, fs w !! q = Some x -> fs w' !! q = Some x) /\
  Forall (fun item => is_Some (fs w' !! (out ++ [derived_name (snd item)]))) items /\
  (items <> [] -> all_dirs [] out (fs w') = true) /\
  length (requests w') <= length (requests w) + length items.
Proof.
  induction items as [|[d url] items IH]; intros w w' Hrun.
  - injection Hrun as <-. simpl. rewrite app_nil_r.
    repeat split; [done | constructor | done | lia].
  - cbn [download_all] in Hrun. unfold bind at 1 in Hrun.
    destruct (download_pdf url out None w) as [[p|e] w1] eqn:Hd; [|done].
    unfold bind at 1, print at 1 in Hrun.
    destruct (download_pdf_ok _ _ _ _ _ _ Hd) as (-> & Hdirs & Hp & _ & _).
    destruct (download_pdf_frame url out None w) as (Hrem & Hout & Hkeep & Hreq).
    rewrite Hd in Hrem, Hout, Hkeep, Hreq. simpl in Hrem, Hout, Hkeep, Hreq.
    apply IH in Hrun as (Hso & Hre & Hk & Hall & _ & Hlen). simpl in Hso, Hre, Hk, Hlen.
    rewrite path_name_snoc in Hso.
    split; [by rewrite Hso, Hout, <- app_assoc|].
    split; [congruence|]. split; [intros q x Hq; by apply Hk, Hkeep|].
    split; [constructor; [|done]|].
    { destruct Hp as [x Hx]. exists x. by apply Hk. }
    split; [intros _; by apply (all_dirs_kept _ _ (fs w1))|].
    simpl. destruct Hreq as [Hr|Hr]; rewrite Hr in Hlen;
      rewrite ?length_app in Hlen; simpl in Hlen; lia.
Qed.

(** What a download that returned has added to the disk: the file, with
    the body of the response, and directories above it. *)
Lemma download_pdf_new_entries url (dest : path) headers w p w1 :
  download_pdf url dest headers w = (Ok p, w1) ->
  forall q x, fs w !! q = None -> fs w1 !! q = Some x ->
    (q = dest ++ [derived_name url] /\
     exists r, remote w url = Responds r /\ x = File (content r)) \/
    (x = Dir /\ length q <= length dest).
Proof.
  unfold download_pdf, bind, mkdir_parents, exists_.
  destruct (mkdir_from [] dest (fs w)) as [m|e] eqn:Hm; [|done].
  destruct (mkdir_from_post _ _ _ _ Hm) as (_ & _ & Hnew).
  simpl. case_bool_decide as Hex.
  - intros [= <- <-] q x Hq Hx. right. by apply (Hnew q x).
  - assert (Hnone : m !! (dest ++ [derived_name url]) = None).
    { destruct (m !! (dest ++ [derived_name url])) eqn:E; [|done].
      exfalso. apply Hex. right. eauto. }
    unfold http_get. simpl.
    destruct (remote w url) as [|r]; [done|].
    destruct ((400 <=? status r)%Z && (status r <? 600)%Z); [done|].
    rewrite open_w_new; [|done | by apply (mkdir_parent_dir dest (fs w))].
    unfold write. simpl. rewrite lookup_insert_eq. simpl.
    intros [= <- <-] q x Hq Hx. simpl in Hx.
    destruct (decide (q = dest ++ [derived_name url])) as [->|Hne].
    + rewrite lookup_insert_eq in Hx. injection Hx as <-. left. eauto.
    + rewrite !lookup_insert_ne in Hx by done. right. by apply (Hnew q x).
Qed.

(** Where the entries of the listed items come from, after a download
    loop that came to its end. *)
Lemma download_all_entries (out : path) (items : list (string * string)) : forall w w',
  download_all out items w = (Ok tt, w') ->
  Forall (fun item =>
            exists x, fs w' !! (out ++ [derived_name (snd item)]) = Some x /\
              (fs w !! (out ++ [derived_name (snd item)]) = Some x \/
               (fs w !! (out ++ [derived_name (snd item)]) = None /\
                exists url r, In url (map snd items) /\
                  derived_name url = derived_name (snd item) /\
                  remote w url = Responds r /\ x = File (content r)))) items.
Proof.
  induction items as [|[d url] items IH]; intros w w' Hrun; [constructor|].
  cbn [download_all] in Hrun. unfold bind at 1 in Hrun.
  destruct (download_pdf url out None w) as [[p|e] w1] eqn:Hd; [|done].
  unfold bind at 1, print at 1 in Hrun.
  destruct (download_pdf_ok _ _ _ _ _ _ Hd) as (-> & _ & Hp & _ & _).
  pose proof (download_pdf_new_entries _ _ _ _ _ _ Hd) as Hnew.
  destruct (download_pdf_frame url out None w) as (Hrem & _ & Hkeep & _).
  rewrite Hd in Hrem, Hkeep. simpl in Hrem, Hkeep.
  pose proof (IH _ _ Hrun) as Hall.
  apply download_all_ok in Hrun as (_ & _ & Hk & _). simpl in Hk.
  assert (Hlong : forall name x, ~ (x = Dir /\ length (out ++ [name]) <= length out)).
  { intros name x [_ Hl]. rewrite length_app in Hl. simpl in Hl. lia. }
  constructor.
  - cbn [snd]. destruct Hp as [x Hx]. exists x. split; [by apply Hk|].
    destruct (fs w !! (out ++ [derived_name url])) as [x0|] eqn:E.
    + left. apply Hkeep in E. congruence.
    + right. split; [done|].
      destruct (Hnew _ _ E Hx) as [(_ & r & Hr & ->)|Hbad]; [|by apply Hlong in Hbad].
      exists url, r. split; [by left|]. done.
  - eapply Forall_impl; [exact Hall|]. intros [d' url'] (x & Hx & Hfrom). cbn [snd] in *.
    exists x. split; [done|]. simpl in Hfrom.
    destruct Hfrom as [H1|(H1 & u & r & Hin & Hname & Hr & ->)].
    + destruct (fs w !! (out ++ [derived_name url'])) as [x0|] eqn:E.
      * left. apply Hkeep in E. congruence.
      * right. split; [done|].
        destruct (Hnew _ _ E H1) as [(Hq & r & Hr & ->)|Hbad]; [|by apply Hlong in Hbad].
        apply app_inv_head in Hq. injection Hq as Hq.
        exists url, r. split; [by left|]. done.
    + destruct (fs w !! (out ++ [derived_name url'])) as [x0|] eqn:E.
      { apply Hkeep in E. congruence. }
      right. split; [done|]. exists u, r. split; [by right|].
      split; [done|]. split; [congruence | done].
Qed.

(** The download loop over items that are all on the disk already. *)
Lemma download_all_present (out : path) (items : list (string * string)) : forall w,
  (items <> [] -> all_dirs [] out (fs w) = true) ->
  Forall (fun item => is_Some (fs w !! (out ++ [derived_name (snd item)]))) items ->
  download_all out items w = (Ok tt, printed w (saved_lines items)).
Proof.
  induction items as [|[d url] items IH]; intros w Hdirs Hall.
  - simpl. by rewrite printed_nil.
  - apply Forall_cons in Hall as [Hp Hall]. cbn [download_all].
    unfold bind at 1. rewrite download_pdf_hit; [|by apply Hdirs | done].
    unfold bind at 1, print at 1. rewrite path_name_snoc.
    change {| fs := fs w; remote := remote w; requests := requests w;
              stdout := stdout w ++ ["saved " +:+ derived_name url] |}
      with (printed w ["saved " +:+ derived_name url]).
    rewrite IH; [by rewrite printed_printed | intros _; by apply Hdirs | done].
Qed.

Lemma fetch_listing_world urljoin pad_year base cfg w :
  snd (fetch_listing urljoin pad_year base cfg w) =
  {| fs := fs w; remote := remote w;
     requests := requests w ++ [listing_request base cfg]; stdout := stdout w |}.
Proof.
  unfold fetch_listing, bind, http_get.
  destruct (remote w base) as [|r]; [done|].
  destruct ((400 <=? status r)%Z && (status r <? 600)%Z); [done|].
  destruct (soup r) as [doc|e]; [|done].
  by destruct (first_table doc).
Qed.

(** What a listing returns depends on the network only. *)
Lemma fetch_listing_remote urljoin pad_year base cfg w1 w2 :
  remote w1 = remote w2 ->
  fst (fetch_listing urljoin pad_year base cfg w1) = fst (fetch_listing urljoin pad_year base cfg w2).
Proof.
  intros H. unfold fetch_listing, bind, http_get. rewrite H.
  destruct (remote w2 base) as [|r]; [done|].
  destruct ((400 <=? status r)%Z && (status r <? 600)%Z); [done|].
  destruct (soup r) as [doc|e]; [|done].
  by destruct (first_table doc).
Qed.

(** The command for a known site, step by step. *)
Lemma cmd_fetch_run urljoin pad_year args w site :
  get_site (fetch_site args) = Ok site ->
  cmd_fetch urljoin pad_year args w =
  let cfg := fetch_config args in
  let listed_w :=
    {| fs := fs w; remote := remote w;
       requests := requests w ++ [listing_request (base_url site) cfg];
       stdout := stdout w ++ [listing_line site cfg] |} in
  match fst (fetch_listing urljoin pad_year (base_url site) cfg w) with
  | Raise e => (Raise e, listed_w)
  | Ok items =>
      match download_all (fetch_out args) items (printed listed_w [found_line items]) with
      | (Ok _, w') => (Ok 0%Z, w')
      | (Raise e, w') => (Raise e, w')
      end
  end.
Proof.
  intros Hsite. unfold cmd_fetch. rewrite Hsite. unfold bind at 1, print at 1.
  unfold bind at 1.
  match goal with |- context [fetch_listing urljoin pad_year ?b ?c ?w0] =>
    rewrite (surjective_pairing (fetch_listing urljoin pad_year b c w0));
    rewrite (fetch_listing_world urljoin pad_year b c w0);
    rewrite (fetch_listing_remote urljoin pad_year b c w0 w eq_refl)
  end.
  cbn zeta. fold (fetch_config args).
  destruct (fst (fetch_listing urljoin pad_year (base_url site) (fetch_config args) w))
    as [items|e]; [|reflexivity].
  unfold bind at 1, print at 1. unfold bind, ret.
  by destruct (download_all _ _ _) as [[[]|e] w2].
Qed.

(** X19. A run of [fetch] that comes to its end.  It returns 0; it has
    listed the site once and then issued at most one request per item;
    it has printed the listing line, the number of items and one
    [saved] line per item, in the order of the listing, named after the
    local name.  After it there is, for every listed item, an entry of its
    derived name in the output directory: the entry that was there before
    the run, file or directory, as it was; or, when there was none, a
    regular file that holds the body served for a listed URL of that
    derived name.  Everything that was on the disk before is still there,
    unchanged. *)
Theorem cmd_fetch_downloads urljoin pad_year args w n w' :
  cmd_fetch urljoin pad_year args w = (Ok n, w') ->
  exists site items,
    get_site (fetch_site args) = Ok site /\
    fst (fetch_listing urljoin pad_year (base_url site) (fetch_config args) w) = Ok items /\
    n = 0%Z /\
    stdout w' = stdout w ++ [listing_line site (fetch_config args); found_line items]
                         ++ saved_lines items /\
    Forall (fun item =>
              exists x,
                fs w' !! (fetch_out args ++ [derived_name (snd item)]) = Some x /\
                (fs w !! (fetch_out args ++ [derived_name (snd item)]) = Some x \/
                 (fs w !! (fetch_out args ++ [derived_name (snd item)]) = None /\
                  exists url r, In url (map snd items) /\
                    derived_name url = derived_name (snd item) /\
                    remote w url = Responds r /\ x = File (content r)))) items /\
    (forall q x, fs w !! q = Some x -> fs w' !! q = Some x) /\
    length (requests w') <= length (requests w) + 1 + length items.
Proof.
  intros Hrun.
  destruct (get_site (fetch_site args)) as [site|e] eqn:Hsite;
    [|unfold cmd_fetch in Hrun; by rewrite Hsite in Hrun].
  rewrite (cmd_fetch_run _ _ _ _ _ Hsite) in Hrun. cbn zeta in Hrun.
  destruct (fst (fetch_listing _ _ _ _ w)) as [items|e] eqn:Hl; [|done].
  destruct (download_all _ _ _) as [[[]|e] w2] eqn:Hd; [|done].
  injection Hrun as <- <-.
  pose proof (download_all_entries _ _ _ _ Hd) as Hfrom. simpl in Hfrom.
  apply download_all_ok in Hd as (Hso & _ & Hk & _ & _ & Hlen).
  simpl in Hso, Hk, Hlen. rewrite length_app in Hlen. simpl in Hlen.
  exists site, items. repeat split; try done.
  rewrite Hso, <- !app_assoc. done.
Qed.

Lemma cmd_fetch_downloads_witness :
  exists site items,
    get_site "sfbos_lut" = Ok site /\
    fst (fetch_listing sibling false (base_url site) (fetch_config fetch_args) fetch_world)
      = Ok items /\
    0%Z = 0%Z /\
    stdout (snd (cmd_fetch sibling false fetch_args fetch_world)) =
      stdout fetch_world ++ [listing_line site (fetch_config fetch_args); found_line items]
                         ++ saved_lines items /\
    Forall (fun item =>
              exists x,
                fs (snd (cmd_fetch sibling false fetch_args fetch_world))
                  !! (["pdfs"] ++ [derived_name (snd item)]) = Some x /\
                (fs fetch_world !! (["pdfs"] ++ [derived_name (snd item)]) = Some x \/
                 (fs fetch_world !! (["pdfs"] ++ [derived_name (snd item)]) = None /\
                  exists url r, In url (map snd items) /\
                    derived_name url = derived_name (snd item) /\
                    remote fetch_world url = Responds r /\ x = File (content r)))) items /\
    (forall q x, fs fetch_world !! q = Some x ->
                 fs (snd (cmd_fetch sibling false fetch_args fetch_world)) !! q = Some x) /\
    length (requests (snd (cmd_fetch sibling false fetch_args fetch_world)))
      <= length (requests fetch_world) + 1 + length items.
Proof.
  apply (cmd_fetch_downloads sibling false fetch_args fetch_world 0%Z
           (snd (cmd_fetch sibling false fetch_args fetch_world))).
  reflexivity.
Defined.

(** X20. A listing that fails.  When the listing raises, because the
    request fails or a row holds a date the parser refuses, [fetch] raises
    the same error after the one request for the listing: nothing is
    downloaded, the disk is untouched and only the listing line is
    printed. *)
Theorem cmd_fetch_listing_failure urljoin pad_year args w site e :
  get_site (fetch_site args) = Ok site ->
  fst (fetch_listing urljoin pad_year (base_url site) (fetch_config args) w) = Raise e ->
  fst (cmd_fetch urljoin pad_year args w) = Raise e /\
  fs (snd (cmd_fetch urljoin pad_year args w)) = fs w /\
  requests (snd (cmd_fetch urljoin pad_year args w)) =
    requests w ++ [listing_request (base_url site) (fetch_config args)] /\
  stdout (snd (cmd_fetch urljoin pad_year args w)) =
    stdout w ++ [listing_line site (fetch_config args)].
Proof.
  intros Hsite Hl. rewrite (cmd_fetch_run _ _ _ _ _ Hsite). cbn zeta. by rewrite Hl.
Qed.

Lemma cmd_fetch_listing_failure_witness :
  let w := listing_world [listing_row "Sept 5, 2019" "a.pdf" "m.pdf"] in
  fst (cmd_fetch sibling false fetch_args w) = Raise ValueError /\
  fs (snd (cmd_fetch sibling false fetch_args w)) = fs w /\
  length (requests (snd (cmd_fetch sibling false fetch_args w))) = 1.
Proof.
  intros w.
  destruct (cmd_fetch_listing_failure sibling false fetch_args w
              {| key := "sfbos_lut"; base_url := sample_base;
                 site_committee := "Land Use and Transportation";
                 default_doc_type := "minutes" |} ValueError eq_refl eq_refl)
    as (Hr & Hfs & Hreq & _).
  split; [exact Hr|]. split; [exact Hfs|]. by rewrite Hreq.
Defined.

(** X21. Running [fetch] again.  After a run that came to its end, a
    second run against the same site answers downloads nothing: it
    succeeds, its only request is the one for the listing, and the disk
    is exactly as the first run left it. *)
Theorem cmd_fetch_rerun urljoin pad_year args w n w' :
  cmd_fetch urljoin pad_year args w = (Ok n, w') ->
  exists site,
    get_site (fetch_site args) = Ok site /\
    fst (cmd_fetch urljoin pad_year args w') = Ok 0%Z /\
    fs (snd (cmd_fetch urljoin pad_year args w')) = fs w' /\
    requests (snd (cmd_fetch urljoin pad_year args w')) =
      requests w' ++ [listing_request (base_url site) (fetch_config args)].
Proof.
  intros Hrun.
  destruct (get_site (fetch_site args)) as [site|e] eqn:Hsite;
    [|unfold cmd_fetch in Hrun; by rewrite Hsite in Hrun].
  exists site. split; [done|].
  rewrite (cmd_fetch_run _ _ _ _ _ Hsite) in Hrun. cbn zeta in Hrun.
  destruct (fst (fetch_listing _ _ _ _ w)) as [items|e] eqn:Hl; [|done].
  destruct (download_all _ _ _) as [[[]|e] w2] eqn:Hd; [|done].
  injection Hrun as <- <-.
  apply download_all_ok in Hd as (_ & Hre & _ & Hall & Hdirs & _). simpl in Hre.
  rewrite (cmd_fetch_run _ _ _ _ _ Hsite). cbn zeta.
  rewrite (fetch_listing_remote urljoin pad_year _ _ w2 w Hre), Hl.
  rewrite download_all_present; [done | exact Hdirs | exact Hall].
Qed.

Lemma cmd_fetch_rerun_witness :
  exists site,
    get_site "sfbos_lut" = Ok site /\
    fst (cmd_fetch sibling false fetch_args (snd (cmd_fetch sibling false fetch_args fetch_world)))
      = Ok 0%Z /\
    fs (snd (cmd_fetch sibling false fetch_args (snd (cmd_fetch sibling false fetch_args fetch_world))))
      = fs (snd (cmd_fetch sibling false fetch_args fetch_world)) /\
    requests (snd (cmd_fetch sibling false fetch_args
                     (snd (cmd_fetch sibling false fetch_args fetch_world)))) =
      requests (snd (cmd_fetch sibling false fetch_args fetch_world))
      ++ [listing_request (base_url site) (fetch_config fetch_args)].
Proof.
  apply (cmd_fetch_rerun sibling false fetch_args fetch_world 0%Z
           (snd (cmd_fetch sibling false fetch_args fetch_world))).
  reflexivity.
Defined.

(** ** Command [extract] *)

Lemma open_w_ok (p : path) w :
  p <> [] -> fs w !! p <> Some Dir ->
  parent p = [] \/ fs w !! parent p = Some Dir ->
  open_w p w = (Ok tt, set_fs w (<[p := File []]> (fs w))).
Proof.
  intros Hp Hd Hpar. unfold open_w. rewrite bool_decide_eq_false_2 by done.
  destruct (fs w !! p) as [[|]|]; try done;
    (destruct Hpar as [-> | ->]; [done | by destruct (parent p)]).
Qed.

Lemma parent_shorter (p : path) : p <> [] -> length (parent p) < length p.
Proof.
  intros Hp. rewrite (app_removelast_last "" Hp) at 2.
  rewrite length_app. unfold parent. simpl. lia.
Qed.

(** The record built for a file does not depend on the clock but for its
    time stamp. *)
Lemma metadata_of_stamped lib (now now' : datetime) opened src committee dt rec :
  metadata_of lib now opened src committee dt = Ok rec ->
  metadata_of lib now' opened src committee dt = Ok (stamped now' rec) /\
  stamped now rec = rec.
Proof.
  unfold metadata_of. destruct opened as [data|e]; [|done]. cbn [rbind].
  destruct (Models.validate_doc_type dt) as [t|e]; [|done]. cbn [rbind].
  by intros [= <-].
Qed.

(** What is read of a listed file while the output is open. *)
Lemma read_during (flushed : text_file -> nat) (d out : path) (m : gmap path node) (lines : text_file)
    (i : nat) (pdf : path) :
  pdf_listing d (<[out := File []]> m) !! i = Some pdf ->
  read_result (disk_during flushed out m lines) pdf =
  if bool_decide (pdf = out) then Ok (on_disk flushed lines) else read_result m pdf.
Proof.
  intros Hp. case_bool_decide as Hout.
  - subst pdf. unfold read_result, disk_during. by rewrite lookup_insert_eq.
  - apply read_result_present.
    + apply list_elem_of_lookup_2, list_elem_of_In, pdf_listing_present in Hp.
      by rewrite lookup_insert_ne in Hp.
    + unfold disk_during. by rewrite lookup_insert_ne.
Qed.

Lemma listing_avoids (d out : path) (m : gmap path node) (i : nat) (pdf : path) :
  Str.endswith (List.last out "") ".pdf" = false ->
  pdf_listing d m !! i = Some pdf -> pdf <> out.
Proof.
  intros Hout Hp ->.
  apply list_elem_of_lookup_2, list_elem_of_In, pdf_listing_name in Hp. congruence.
Qed.

(** X22. [extract] works offline.  Whatever its outcome, a run of
    [extract] issues no request and leaves the network as it is; and a run
    that raises has printed nothing. *)
Theorem cmd_extract_offline lib flushed clock args w :
  requests (snd (cmd_extract lib flushed clock args w)) = requests w /\
  remote (snd (cmd_extract lib flushed clock args w)) = remote w /\
  (forall e, fst (cmd_extract lib flushed clock args w) = Raise e ->
             stdout (snd (cmd_extract lib flushed clock args w)) = stdout w).
Proof.
  destruct (cmd_extract lib flushed clock args w) as [r w'] eqn:Hrun. cbn [fst snd].
  apply cmd_extract_outcome in Hrun
    as [(e & -> & -> & _)|[(e & m & -> & _ & -> & _)|
        (site & m & recs & _ & _ & _ & _ & Hre & Hrq & _ & Hres)]]; [done|done|].
  split; [done|]. split; [done|]. intros e ->.
  by destruct Hres as [(? & _)|(? & ? & _ & _ & _ & Hso)].
Qed.

Lemma cmd_extract_offline_witness :
  stdout (snd (cmd_extract None nothing_flushed sample_clock rerun_args dir_pdf_world))
  = stdout dir_pdf_world.
Proof.
  apply (proj2 (proj2 (cmd_extract_offline None nothing_flushed sample_clock rerun_args
                         dir_pdf_world)) IsADirectoryError).
  reflexivity.
Defined.

(** X23. A run of [extract] that raises.  It has printed nothing.
    Either the site is unknown or the directory of the output cannot be
    created, and then nothing at all has changed; or the output cannot be
    opened, and then the disk holds the created directories and nothing
    else that is new; or a file of the listing gave no record, and then the
    error is that of building its record and the output file, closed on
    the way out, holds the lines of the records of the files listed before
    that one and no more. *)
Theorem cmd_extract_failure lib flushed clock args w e w' :
  cmd_extract lib flushed clock args w = (Raise e, w') ->
  stdout w' = stdout w /\
  ((w' = w /\
    (get_site (arg_site args) = Raise e \/
     mkdir_from [] (parent (arg_out args)) (fs w) = Raise e)) \/
   (exists m, mkdir_from [] (parent (arg_out args)) (fs w) = Ok m /\
      w' = set_fs w m /\
      open_w (arg_out args) (set_fs w m) = (Raise e, set_fs w m)) \/
   (exists site m recs pdf,
      get_site (arg_site args) = Ok site /\
      mkdir_from [] (parent (arg_out args)) (fs w) = Ok m /\
      pdf_listing (arg_input args) (<[arg_out args := File []]> m) !! length recs
        = Some pdf /\
      (forall i rec, recs !! i = Some rec ->
         exists pdf',
           pdf_listing (arg_input args) (<[arg_out args := File []]> m) !! i
             = Some pdf' /\
           metadata_of lib (clock i)
             (if bool_decide (pdf' = arg_out args)
              then Ok (on_disk flushed (map record_line (take i recs)))
              else read_result m pdf')
             ("file://" +:+ path_str pdf') (Some (site_committee site))
             (match arg_doc_type args with
              | Some s => if String.eqb s "" then default_doc_type site else s
              | None => default_doc_type site
              end) = Ok rec) /\
      metadata_of lib (clock (length recs))
        (if bool_decide (pdf = arg_out args)
         then Ok (on_disk flushed (map record_line recs))
         else read_result m pdf)
        ("file://" +:+ path_str pdf) (Some (site_committee site))
        (match arg_doc_type args with
         | Some s => if String.eqb s "" then default_doc_type site else s
         | None => default_doc_type site
         end) = Raise e /\
      fs w' = <[arg_out args := File (concat (map record_line recs))]> m)).
Proof.
  intros Hrun.
  apply cmd_extract_outcome in Hrun
    as [(e0 & [= <-] & -> & Hwhy)|[(e0 & m & [= <-] & Hm & -> & Ho)|
        (site & m & recs & Hsite & Hm & _ & Hfs & _ & _ & Hidx & Hres)]].
  - split; [done|]. left. done.
  - split; [done|]. right. left. by exists m.
  - destruct Hres as [(? & _)|(e0 & pdf & [= <-] & Hp & Hmeta & Hso)]; [done|].
    split; [done|]. right. right. exists site, m, recs, pdf.
    split; [done|]. split; [done|]. split; [done|]. split.
    + intros i rec Hi. destruct (Hidx i rec Hi) as (pdf' & Hp' & Hm').
      exists pdf'. split; [done|]. by rewrite <- (read_during _ _ _ _ _ _ _ Hp').
    + split; [|done]. by rewrite <- (read_during _ _ _ _ _ _ _ Hp).
Qed.

Lemma cmd_extract_failure_witness :
  cmd_extract None nothing_flushed sample_clock rerun_args dir_pdf_world
  = (Raise IsADirectoryError,
     snd (cmd_extract None nothing_flushed sample_clock rerun_args dir_pdf_world)) /\
  stdout (snd (cmd_extract None nothing_flushed sample_clock rerun_args dir_pdf_world))
  = stdout dir_pdf_world.
Proof.
  split; [reflexivity|].
  apply (proj1 (cmd_extract_failure None nothing_flushed sample_clock rerun_args
                  dir_pdf_world IsADirectoryError _ eq_refl)).
Defined.

(** X24. Running [extract] again.  After a run that came to its end,
    with an output path whose name does not end in [.pdf], a second run
    with the same arguments comes to its end too, whatever the buffers and
    the clock do, and prints the same line, with the same number of
    records.  It changes nothing on the disk but the output file; the
    records it writes are those of the first run with the clock readings
    of the second, so the lines are not added to those of the first run,
    and when the clock reads the same the output file is as it was. *)
Theorem cmd_extract_rerun lib flushed flushed' clock clock' args w n w' :
  cmd_extract lib flushed clock args w = (Ok n, w') ->
  Str.endswith (List.last (arg_out args) "") ".pdf" = false ->
  exists recs recs' w'',
    fs w' !! arg_out args = Some (File (concat (map record_line recs))) /\
    stdout w' = stdout w ++ [wrote_line (Z.of_nat (length recs)) (arg_out args)] /\
    cmd_extract lib flushed' clock' args w' = (Ok 0%Z, w'') /\
    fs w'' !! arg_out args = Some (File (concat (map record_line recs'))) /\
    stdout w'' = stdout w' ++ [wrote_line (Z.of_nat (length recs)) (arg_out args)] /\
    (forall p, p <> arg_out args -> fs w'' !! p = fs w' !! p) /\
    length recs' = length recs /\
    (forall i r, recs !! i = Some r -> recs' !! i = Some (stamped (clock' i) r)) /\
    ((forall i, i < length recs -> clock' i = clock i) -> fs w'' = fs w').
Proof.
  intros Hrun Hout.
  apply cmd_extract_outcome in Hrun
    as [(e & [=] & _)|[(e & m & [=] & _)|
        (site & m & recs & Hsite & Hm & Hne & Hfs & _ & _ & Hidx & Hres)]].
  destruct Hres as [(_ & Hlen & Hso)|(e & pdf & [=] & _)].
  set (listing := pdf_listing (arg_input args) (<[arg_out args := File []]> m)) in *.
  set (dt := match arg_doc_type args with
             | Some s => if String.eqb s "" then default_doc_type site else s
             | None => default_doc_type site
             end) in *.
  (* the records of the first run, read from the disk before the run *)
  assert (Hfirst : forall i rec, recs !! i = Some rec ->
            exists pdf, listing !! i = Some pdf /\ pdf <> arg_out args /\
              is_Some (m !! pdf) /\
              metadata_of lib (clock i) (read_result m pdf)
                ("file://" +:+ path_str pdf) (Some (site_committee site)) dt = Ok rec).
  { intros i rec Hi. destruct (Hidx i rec Hi) as (pdf & Hp & Hmeta).
    pose proof (listing_avoids _ _ _ _ _ Hout Hp) as Hne'.
    exists pdf. split; [done|]. split; [done|]. split.
    - apply list_elem_of_lookup_2, list_elem_of_In, pdf_listing_present in Hp.
      by rewrite lookup_insert_ne in Hp.
    - rewrite (read_during _ _ _ _ _ _ _ Hp) in Hmeta.
      by rewrite bool_decide_eq_false_2 in Hmeta. }
  (* the second run starts from the disk the first one left *)
  destruct (mkdir_from_post _ _ _ _ Hm) as (Hdirs & _ & _).
  pose proof (parent_shorter _ Hne) as Hshort.
  assert (Hm' : mkdir_from [] (parent (arg_out args)) (fs w') = Ok (fs w')).
  { apply mkdir_from_noop. rewrite Hfs. by apply all_dirs_insert_longer. }
  assert (Ho' : open_w (arg_out args) (set_fs w' (fs w')) =
                (Ok tt, set_fs w' (<[arg_out args := File []]> (fs w')))).
  { rewrite set_fs_same. apply open_w_ok; [done | by rewrite Hfs, lookup_insert_eq |].
    destruct (mkdir_parent_dir _ _ _ Hm) as [Hp|Hp]; [by left | right].
    rewrite Hfs, lookup_insert_ne; [done|]. intros Heq. rewrite <- Heq in Hshort. lia. }
  assert (Hins : <[arg_out args := File []]> (fs w') = <[arg_out args := File []]> m).
  { by rewrite Hfs, insert_insert_eq. }
  destruct (cmd_extract lib flushed' clock' args w') as [r2 w''] eqn:Hrun2.
  apply cmd_extract_outcome in Hrun2
    as [(e & _ & _ & [He|He])|[(e & m2 & _ & Hm2 & _ & Ho2)|
        (site2 & m2 & recs2 & Hsite2 & Hm2 & _ & Hfs2 & _ & _ & Hidx2 & Hres2)]];
    [congruence | congruence | |].
  { assert (m2 = fs w') as -> by congruence. rewrite Ho' in Ho2. discriminate Ho2. }
  assert (m2 = fs w') as -> by congruence.
  assert (site2 = site) as -> by congruence.
  rewrite Hins in Hidx2, Hres2. fold listing dt in Hidx2, Hres2.
  assert (Hsecond : forall i rec, recs2 !! i = Some rec ->
            exists pdf, listing !! i = Some pdf /\
              metadata_of lib (clock' i) (read_result m pdf)
                ("file://" +:+ path_str pdf) (Some (site_committee site)) dt = Ok rec).
  { intros i rec Hi. destruct (Hidx2 i rec Hi) as (pdf & Hp & Hmeta).
    exists pdf. split; [done|].
    pose proof (listing_avoids _ _ _ _ _ Hout Hp) as Hne'.
    assert (Hpres : is_Some (m !! pdf)).
    { apply list_elem_of_lookup_2, list_elem_of_In, pdf_listing_present in Hp.
      by rewrite lookup_insert_ne in Hp. }
    rewrite <- (read_result_present m (disk_during flushed' (arg_out args) (fs w')
                  (map record_line (take i recs2))) pdf); [done | done |].
    unfold disk_during. by rewrite lookup_insert_ne, Hfs, lookup_insert_ne. }
  assert (Hlen2 : length recs2 = length recs /\ r2 = Ok 0%Z /\
                  stdout w'' = stdout w'
                    ++ [wrote_line (Z.of_nat (length recs2)) (arg_out args)]).
  { destruct Hres2 as [(-> & Hl2 & Hso2)|(e & pdf & _ & Hp & Hmeta & _)].
    - split; [congruence | done].
    - exfalso. pose proof (lookup_lt_Some _ _ _ Hp) as Hlt. rewrite <- Hlen in Hlt.
      destruct (lookup_lt_is_Some_2 recs (length recs2) Hlt) as [rec Hrec].
      destruct (Hfirst _ _ Hrec) as (pdf0 & Hp0 & Hne0 & Hpres & Hmeta0).
      assert (pdf0 = pdf) as -> by (fold listing in Hp; congruence).
      apply (metadata_of_stamped _ _ (clock' (length recs2))) in Hmeta0 as [Hmeta0 _].
      rewrite <- (read_result_present m (disk_during flushed' (arg_out args) (fs w')
                    (map record_line recs2)) pdf) in Hmeta0; [congruence | done |].
      unfold disk_during. by rewrite lookup_insert_ne, Hfs, lookup_insert_ne. }
  destruct Hlen2 as (Hlen2 & -> & Hso2).
  assert (Hstamp : forall i r, recs !! i = Some r ->
            recs2 !! i = Some (stamped (clock' i) r)).
  { intros i r Hi. pose proof (lookup_lt_Some _ _ _ Hi) as Hlt. rewrite <- Hlen2 in Hlt.
    destruct (lookup_lt_is_Some_2 recs2 i Hlt) as [r2 Hr2]. rewrite Hr2. f_equal.
    destruct (Hfirst _ _ Hi) as (pdf & Hp & _ & _ & Hmeta).
    destruct (Hsecond _ _ Hr2) as (pdf2 & Hp2 & Hmeta2).
    assert (pdf2 = pdf) as -> by congruence.
    apply (metadata_of_stamped _ _ (clock' i)) in Hmeta as [Hmeta _]. congruence. }
  exists recs, recs2, w''.
  split; [by rewrite Hfs, lookup_insert_eq|]. split; [exact Hso|]. split; [done|].
  split; [by rewrite Hfs2, lookup_insert_eq|].
  split; [by rewrite Hso2, Hlen2|].
  split; [intros p Hp; by rewrite Hfs2, Hfs, !lookup_insert_ne|].
  split; [done|]. split; [done|].
  intros Hclock. rewrite Hfs2, Hfs, insert_insert_eq.
  replace recs2 with recs; [done|].
  apply list_eq. intros i. destruct (recs !! i) as [r|] eqn:Hi.
  - rewrite (Hstamp _ _ Hi). f_equal.
    destruct (Hfirst _ _ Hi) as (pdf & _ & _ & _ & Hmeta).
    apply (metadata_of_stamped _ _ (clock i)) in Hmeta as [_ Hsame].
    rewrite Hclock; [done | by apply lookup_lt_Some in Hi].
  - symmetry. apply lookup_ge_None. apply lookup_ge_None in Hi. lia.
Qed.

Lemma cmd_extract_rerun_witness :
  let w' := snd (cmd_extract None nothing_flushed sample_clock rerun_args rerun_world) in
  exists recs recs' w'',
    fs w' !! arg_out rerun_args = Some (File (concat (map record_line recs))) /\
    stdout w' = stdout rerun_world
                ++ [wrote_line (Z.of_nat (length recs)) (arg_out rerun_args)] /\
    cmd_extract None all_flushed (fun n => sample_clock (S n)) rerun_args w'
      = (Ok 0%Z, w'') /\
    fs w'' !! arg_out rerun_args = Some (File (concat (map record_line recs'))) /\
    stdout w'' = stdout w' ++ [wrote_line (Z.of_nat (length recs)) (arg_out rerun_args)] /\
    (forall p, p <> arg_out rerun_args -> fs w'' !! p = fs w' !! p) /\
    length recs' = length recs /\
    (forall i r, recs !! i = Some r -> recs' !! i = Some (stamped (sample_clock (S i)) r)) /\
    ((forall i, i < length recs -> sample_clock (S i) = sample_clock i) -> fs w'' = fs w').
Proof.
  intros w'.
  apply (cmd_extract_rerun None nothing_flushed all_flushed sample_clock
           (fun n => sample_clock (S n)) rerun_args rerun_world 0%Z w').
  - reflexivity.
  - reflexivity.
Defined.

Lemma find_site_none k sites :
  Forall (fun s => key s <> k) sites -> find_site k sites = Raise KeyError.
Proof.
  induction 1 as [|s sites Hs _ IH]; [done|]. cbn [find_site].
  apply String.eqb_neq in Hs. by rewrite Hs.
Qed.

(** X25. An unknown site.  When no site of the registry has the key
    given, both commands raise [KeyError] before anything else happens: no
    directory is created, no output is opened or emptied, no request is
    issued and nothing is printed. *)
Theorem commands_unknown_site urljoin pad_year lib flushed clock
    (fargs : FetchArgs) (eargs : ExtractArgs) w :
  (Forall (fun s => key s <> fetch_site fargs) SITES ->
   cmd_fetch urljoin pad_year fargs w = (Raise KeyError, w)) /\
  (Forall (fun s => key s <> arg_site eargs) SITES ->
   cmd_extract lib flushed clock eargs w = (Raise KeyError, w)).
Proof.
  split; intros H; apply find_site_none in H.
  - unfold cmd_fetch, get_site. by rewrite H.
  - unfold cmd_extract, get_site. by rewrite H.
Qed.

Lemma commands_unknown_site_witness :
  cmd_fetch sibling false
    {| fetch_site := "sfbos_bf"; fetch_doc_type := "minutes"; fetch_since_year := 2018;
       fetch_out := ["pdfs"] |} fetch_world = (Raise KeyError, fetch_world) /\
  cmd_extract None nothing_flushed sample_clock
    {| arg_site := "sfbos_bf"; arg_input := ["pdfs"]; arg_out := ["out.jsonl"];
       arg_doc_type := None |} rerun_world = (Raise KeyError, rerun_world).
Proof.
  split.
  - apply (proj1 (commands_unknown_site sibling false None nothing_flushed sample_clock
                    _ rerun_args fetch_world)).
    repeat constructor. discriminate.
  - apply (proj2 (commands_unknown_site sibling false None nothing_flushed sample_clock
                    fetch_args _ rerun_world)).
    repeat constructor. discriminate.
Defined.
